(** * Donation report generator

    A shallow embedding of [DonationReportGenerator.analyze_donations]
    (src/donation_report_generator.py, lines 58-142) and the properties its
    specification states about it, followed by the rest of the program: the
    request, the charts, the report and the two [main] functions, as programs
    over a trace of their calls to the outside.

    - Python exceptions are an error monad ([result]).
    - Python [dict]s keep insertion order and the code depends on it
      (iteration order of [daily_revenue], stable sort of
      [supporter_totals.items()]), so they are association lists updated in
      place ([dict_get], [dict_set]); [set(supporter_ids)] is a [gset].
    - Amounts are Python floats.  The arithmetic is an interface ([Number])
      whose instance for the program is IEEE-754 binary64 ([float_number], the
      primitive floats); [sum] is a second interface ([Summation]), because
      it changed with Python 3.12.  What does not depend on rounding is
      proved for every instance. *)

From Stdlib Require Import ZArith Floats Sorted Ascii String.
From stdpp Require Import base option list strings gmap pretty.


(** ** Exceptions *)

Inductive exn : Set :=
  | TypeError
  | ValueError
  | OverflowError
  | ZeroDivisionError.

Inductive result (A : Type) : Type :=
  | Ret (a : A)
  | Raise (e : exn).
Arguments Ret {A} a.
Arguments Raise {A} e.

#[export] Instance result_bind : MBind result := λ A B k m,
  match m with
  | Ret a => k a
  | Raise e => Raise e
  end.

(** A [for] loop whose body may raise: the first exception ends the loop. *)
Fixpoint for_each {A S} (body : S → A → result S) (l : list A) (st : S) : result S :=
  match l with
  | [] => Ret st
  | x :: l' => st' ← body st x; for_each body l' st'
  end.

(** ** Insertion-ordered dictionaries *)

Section Dict.
Context {K V : Type} `{EqDecision K}.

(** [d.get(k)] / [k in d] *)
Fixpoint dict_get (k : K) (d : list (K * V)) : option V :=
  match d with
  | [] => None
  | (k', v) :: d' => if decide (k = k') then Some v else dict_get k d'
  end.

(** [d[k] = v]: an existing key keeps its position, a new key goes last. *)
Fixpoint dict_set (k : K) (v : V) (d : list (K * V)) : list (K * V) :=
  match d with
  | [] => [(k, v)]
  | (k', v') :: d' =>
      if decide (k = k') then (k, v) :: d' else (k', v') :: dict_set k v d'
  end.

Definition dict_keys (d : list (K * V)) : list K := d.*1.
Definition dict_values (d : list (K * V)) : list V := d.*2.
End Dict.

(** ** Numbers *)

(** The operations the analysis performs on amounts. *)
Class Number (F : Type) := {
  num_of_int : Z → F;          (* int -> float conversion *)
  num_add : F → F → F;         (* [+] *)
  num_div : F → F → F;         (* [/] with a non-zero divisor *)
  num_lt : F → F → bool;       (* [<], the only comparison [sorted] uses *)
}.

(** Python [int] to [float]: the nearest binary64 value, ties to even. *)
Definition float_of_int (z : Z) : float :=
  SF2Prim (binary_normalize FloatOps.prec FloatOps.emax z 0%Z false).

(** The program's numbers: Python [float]. *)
#[export] Instance float_number : Number float := {
  num_of_int := float_of_int;
  num_add := PrimFloat.add;
  num_div := PrimFloat.div;
  num_lt := PrimFloat.ltb;
}.

(** Exact integer arithmetic (amounts counted in whole units), the reference
    against which rounding is measured. *)
#[export] Instance exact_number : Number Z := {
  num_of_int := id;
  num_add := Z.add;
  num_div := Z.div;
  num_lt := Z.ltb;
}.

(** [sum(l)] is the interpreter's.  The language reference defines it as
    adding the items from left to right, starting from the integer [0]; that is
    what CPython computes up to version 3.11. *)
Class Summation (F : Type) := py_sum : list F → F.

#[export] Instance sum_left_to_right {F : Type} `{Number F} : Summation F :=
  λ l, fold_left num_add l (num_of_int 0).

(** From version 3.12 on CPython sums floats with Neumaier's compensation
    (Python/bltinmodule.c): the first item is added to the integer [0]; from
    then on the rounding error of each addition is accumulated in [c], and
    added at the end unless it is zero or not finite.  The analysis is
    parameterised by the summation, so that what is proved of it holds under
    both. *)
Definition compensated_step (st : float * float) (x : float) : float * float :=
  let '(f_result, c) := st in
  let t := PrimFloat.add f_result x in
  if PrimFloat.leb (PrimFloat.abs x) (PrimFloat.abs f_result)
  then (t, PrimFloat.add c (PrimFloat.add (PrimFloat.sub f_result t) x))
  else (t, PrimFloat.add c (PrimFloat.add (PrimFloat.sub x t) f_result)).

Definition sum_compensated : Summation float := λ l,
  match l with
  | [] => float_of_int 0
  | x :: l' =>
      let '(f_result, c) :=
        fold_left compensated_step l' (PrimFloat.add (float_of_int 0) x, 0%float) in
      if negb (PrimFloat.eqb c 0%float) && PrimFloat.is_finite c
      then PrimFloat.add f_result c
      else f_result
  end.

(** ** Donation records *)

(** A supporter identifier as the API's JSON carries it: a number or a string.
    ([1] and ["1"] are different dictionary keys.) *)
Inductive ident : Set :=
  | IdInt (n : Z)
  | IdStr (s : string).

#[export] Instance ident_eq_dec : EqDecision ident.
Proof. solve_decision. Defined.

#[export] Instance ident_countable : Countable ident.
Proof.
  refine (inj_countable'
            (λ i, match i with IdInt n => inl n | IdStr s => inr s end)
            (λ x, match x with inl n => IdInt n | inr s => IdStr s end) _).
  by intros [].
Defined.

(** Why [float(v)] rejects a value. *)
Inductive float_failure : Set :=
  | NotConvertible   (* [None], a list, an object: TypeError *)
  | NotNumeric       (* a string that is not a number: ValueError *)
  | TooLarge.        (* an integer beyond the float range: OverflowError *)

Definition float_exn (w : float_failure) : exn :=
  match w with
  | NotConvertible => TypeError
  | NotNumeric => ValueError
  | TooLarge => OverflowError
  end.

(** The value stored under ['amount'], seen through the only use the code
    makes of it, [float(v)]: either [v] converts and [Numeric x] carries the
    resulting float [x] (a JSON number, or a numeric string such as ["50"]),
    or [float(v)] raises. *)
Inductive amount_value (F : Type) : Type :=
  | Numeric (x : F)
  | Malformed (w : float_failure).
Arguments Numeric {F} x.
Arguments Malformed {F} w.

(** A decoded record.  [None] is a missing key; for [supporter_id] and
    [created_at] also a JSON [null], which the code cannot tell from a missing
    key ([.get] returns [None], and [None] is falsy).  [created_at] and
    [supporter_name], when present, are strings. *)
Record donation (F : Type) : Type := Donation {
  supporter_id : option ident;
  supporter_name : option string;
  amount : option (amount_value F);
  created_at : option string;
}.
Arguments Donation {F} _ _ _ _.
Arguments supporter_id {F} _.
Arguments supporter_name {F} _.
Arguments amount {F} _.
Arguments created_at {F} _.

(** The per-supporter entry of [supporter_totals]. *)
Record supporter_data (F : Type) : Type := SupporterData {
  name : string;
  total : F;
  count : nat;
}.
Arguments SupporterData {F} _ _ _.
Arguments name {F} _.
Arguments total {F} _.
Arguments count {F} _.

(** An element of [top_supporters]. *)
Record top_supporter (F : Type) : Type := TopSupporter {
  top_name : string;
  total_donated : F;
  donation_count : nat;
}.
Arguments TopSupporter {F} _ _ _.
Arguments top_name {F} _.
Arguments total_donated {F} _.
Arguments donation_count {F} _.

(** The dictionary [analyze_donations] returns. *)
Record analysis (F : Type) : Type := Analysis {
  total_supporters : nat;
  unique_supporters : nat;
  total_donations : nat;
  total_revenue : F;
  average_donation : F;
  top_supporters : list (top_supporter F);
  daily_revenue : list (string * F);
}.
Arguments Analysis {F} _ _ _ _ _ _ _.
Arguments total_supporters {F} _.
Arguments unique_supporters {F} _.
Arguments total_donations {F} _.
Arguments total_revenue {F} _.
Arguments average_donation {F} _.
Arguments top_supporters {F} _.
Arguments daily_revenue {F} _.

(** ** Python built-ins the analysis uses *)

(** [s.split(c)] for a one-character separator: never the empty list. *)
Fixpoint split (c : ascii) (s : string) : list string :=
  match s with
  | EmptyString => [EmptyString]
  | String a s' =>
      if decide (a = c) then EmptyString :: split c s'
      else match split c s' with
           | [] => [String a EmptyString]
           | piece :: pieces => String a piece :: pieces
           end
  end.

(** [str(supporter_id)], as the f-string formats it. *)
Definition py_str (supporter_id : option ident) : string :=
  match supporter_id with
  | None => "None"
  | Some (IdInt n) => pretty n
  | Some (IdStr s) => s
  end.

Section Builtins.
Context {F : Type} `{Number F}.

(** [float(v)] *)
Definition py_float (v : amount_value F) : result F :=
  match v with
  | Numeric x => Ret x
  | Malformed w => Raise (float_exn w)
  end.

(** [x / n] for a float [x] and an int [n]. *)
Definition py_truediv (x : F) (n : nat) : result F :=
  match n with
  | O => Raise ZeroDivisionError
  | S _ => Ret (num_div x (num_of_int (Z.of_nat n)))
  end.

(** [sorted(l, key=key, reverse=True)]: the stable sort for the reversed
    comparison, which looks at the keys through [<] only.  [insert_desc x l]
    places [x], which stood before every element of [l] in the input, into
    the sorted [l]: behind the elements whose key is greater, in front of
    the first one whose key is not.  Where [<] orders the keys totally there
    is one stable descending arrangement, this one; with a NaN key the result
    of [list.sort] depends on its run detection and merge strategy, which
    are not modelled: the order is claimed for keys without NaN only, and the
    one input with a NaN that is evaluated, [nan_total], is one that
    [list.sort] leaves as it comes, as this sort does. *)
Section Sort.
Context {A : Type} (key : A → F).

Fixpoint insert_desc (x : A) (l : list A) : list A :=
  match l with
  | [] => [x]
  | y :: l' =>
      if num_lt (key x) (key y) then y :: insert_desc x l' else x :: y :: l'
  end.

Definition sorted_reverse (l : list A) : list A := foldr insert_desc [] l.
End Sort.
End Builtins.

(** ** [analyze_donations] *)

Section Analyzer.
Context {F : Type} `{Number F} `{Summation F}.

(** [float(donation.get('amount', 0))] *)
Definition amount_of (donation : donation F) : result F :=
  py_float (default (Numeric (num_of_int 0)) (amount donation)).

(** [f'Supporter {supporter_id}'] *)
Definition placeholder_name (sid : option ident) : string :=
  "Supporter " +:+ py_str sid.

(** [donation.get('supporter_name', f'Supporter {supporter_id}')] *)
Definition name_of (donation : donation F) : string :=
  default (placeholder_name (supporter_id donation)) (supporter_name donation).

(** Lines 86-92: [created_at] counts when it is truthy, that is a non-empty
    string; the key is what precedes the first ['T']. *)
Definition add_daily (daily_revenue : list (string * F))
    (created : string) (amt : F) : list (string * F) :=
  if bool_decide (created ≠ "") then
    let date_str := hd "" (split "T" created) in
    match dict_get date_str daily_revenue with
    | Some v => dict_set date_str (num_add v amt) daily_revenue
    | None => dict_set date_str amt daily_revenue
    end
  else daily_revenue.

(** Lines 78-92, the body of the first loop over
    [(supporter_ids, donation_amounts, daily_revenue)]. *)
Definition first_loop_body
    (st : list (option ident) * list F * list (string * F))
    (donation : donation F)
  : result (list (option ident) * list F * list (string * F)) :=
  let '(supporter_ids, donation_amounts, daily_revenue) := st in
  let sid := supporter_id donation in
  amt ← amount_of donation;
  let created := default "" (created_at donation) in
  Ret (supporter_ids ++ [sid], donation_amounts ++ [amt],
       add_daily daily_revenue created amt).

(** Lines 108-116 *)
Definition add_supporter (supporter_totals : list (option ident * supporter_data F))
    (sid : option ident) (supporter_name : string) (amt : F)
  : list (option ident * supporter_data F) :=
  match dict_get sid supporter_totals with
  | Some data =>
      (* ['total'] += amount, then ['count'] += 1 *)
      dict_set sid (SupporterData (name data) (num_add (total data) amt) (count data + 1))
        supporter_totals
  | None =>
      dict_set sid (SupporterData supporter_name amt 1) supporter_totals
  end.

(** Lines 103-116, the body of the second loop. *)
Definition second_loop_body (supporter_totals : list (option ident * supporter_data F))
    (donation : donation F) : result (list (option ident * supporter_data F)) :=
  let sid := supporter_id donation in
  let supporter_name := name_of donation in
  amt ← amount_of donation;
  Ret (add_supporter supporter_totals sid supporter_name amt).

(** Lines 74-92: the first loop, from the three empty containers. *)
Definition first_loop (donations : list (donation F))
  : result (list (option ident) * list F * list (string * F)) :=
  for_each first_loop_body donations ([], [], []).

(** Lines 102-116: the second loop, from the empty [supporter_totals]. *)
Definition second_loop (donations : list (donation F))
  : result (list (option ident * supporter_data F)) :=
  for_each second_loop_body donations [].

(** Lines 119-123 *)
Definition sort_supporters (supporter_totals : list (option ident * supporter_data F))
  : list (option ident * supporter_data F) :=
  sorted_reverse (λ x, total x.2) supporter_totals.

(** Lines 126-130 *)
Definition top_entry (x : option ident * supporter_data F) : top_supporter F :=
  TopSupporter (name x.2) (total x.2) (count x.2).

(** Lines 125-132 *)
Definition top_of (sorted_supporters : list (option ident * supporter_data F))
  : list (top_supporter F) :=
  top_entry <$> take 10 sorted_supporters.

Definition analyze_donations (donations : list (donation F)) : result (analysis F) :=
  match donations with
  | [] =>
      Ret (Analysis 0 0 0 (num_of_int 0) (num_of_int 0) [] [])
  | _ :: _ =>
      '(supporter_ids, donation_amounts, daily_revenue) ← first_loop donations;
      let total_supporters := length supporter_ids in
      let unique_supporters :=
        match supporter_ids with
        | [] => 0
        | _ :: _ => size (list_to_set supporter_ids : gset (option ident))
        end in
      let total_donations := length donations in
      let total_revenue := py_sum donation_amounts in
      average_donation ←
        (if bool_decide (0 < total_donations)
         then py_truediv total_revenue total_donations
         else Ret (num_of_int 0));
      supporter_totals ← second_loop donations;
      let sorted_supporters := sort_supporters supporter_totals in
      let top_supporters := top_of sorted_supporters in
      Ret (Analysis total_supporters unique_supporters total_donations
             total_revenue average_donation top_supporters daily_revenue)
  end.
End Analyzer.

(** * The vocabulary of the specification and of the proofs *)

(** ** Distinct elements in first-seen order *)

Section FirstSeenDef.
Context {K : Type} `{EqDecision K}.

(** The distinct elements of [l], each at the place of its first occurrence. *)
Fixpoint first_seen (l : list K) : list K :=
  match l with
  | [] => []
  | x :: l' => x :: filter (λ y, y ≠ x) (first_seen l')
  end.

(** [k1] is met before [k2]: some prefix of the input already holds [k1] and
    not yet [k2]. *)
Definition encountered_before (k1 k2 : K) (keys : list K) : Prop :=
  ∃ seen rest, keys = seen ++ rest ∧ k1 ∈ seen ∧ k2 ∉ seen.
End FirstSeenDef.

(** ** Group-and-accumulate loops

    Both loops of [analyze_donations] have the shape
    [if k in d: d[k] = upd(d[k], x) else: d[k] = ins(x)]. *)

Section GroupingDef.
Context {K V X : Type} `{EqDecision K}.
Context (ins : X → V) (upd : V → X → V).

Definition upsert (d : list (K * V)) (kx : K * X) : list (K * V) :=
  match dict_get kx.1 d with
  | Some v => dict_set kx.1 (upd v kx.2) d
  | None => dict_set kx.1 (ins kx.2) d
  end.

Definition group (items : list (K * X)) (d : list (K * V)) : list (K * V) :=
  fold_left upsert items d.

(** What a key accumulates from its payloads, in order. *)
Definition accumulate (xs : list X) : option V :=
  match xs with
  | [] => None
  | x :: xs' => Some (fold_left upd xs' (ins x))
  end.
End GroupingDef.

(** ** Records, dates and amounts *)

(** The part of a timestamp before its first ['T'], all of it when there is
    none: what the specification calls the date prefix. *)
Fixpoint date_prefix (s : string) : string :=
  match s with
  | EmptyString => EmptyString
  | String a s' => if decide (a = "T"%char) then EmptyString else String a (date_prefix s')
  end.

Section Vocabulary.
Context {F : Type} `{Number F} `{Summation F}.
Implicit Types (d : donation F) (ds : list (donation F)).

(** [float(v)] accepts the amount of the record (or there is none). *)
Definition convertible d : Prop :=
  match amount d with Some (Malformed _) => False | _ => True end.

#[export] Instance convertible_dec d : Decision (convertible d).
Proof. unfold convertible. destruct (amount d) as [[]|]; apply _. Defined.

(** The amount of a record, a missing one read as zero. *)
Definition amount_or_zero d : F :=
  match amount d with
  | Some (Numeric x) => x
  | _ => num_of_int 0
  end.

(** The record with a missing amount written out as zero. *)
Definition zero_absent d : donation F :=
  Donation (supporter_id d) (supporter_name d)
    (Some (default (Numeric (num_of_int 0)) (amount d))) (created_at d).

(** The record carries a timestamp: [created_at] is there and not empty
    (line 87 tests its truth value, and the default for a missing key is the
    empty string). *)
Definition has_created_at d : Prop := default ""%string (created_at d) ≠ ""%string.

Definition date_of d : string := date_prefix (default ""%string (created_at d)).

(** The records of one supporter, and of one date, in input order. *)
Definition records_of (sid : option ident) ds : list (donation F) :=
  filter (λ d, supporter_id d = sid) ds.

Definition records_on (date : string) ds : list (donation F) :=
  filter (λ d, date_of d = date) (filter has_created_at ds).

(** The sum a dictionary entry accumulates: the first amount, then each
    further amount added on the right, in input order. *)
Definition running_sum (amounts : list F) : option F :=
  match amounts with
  | [] => None
  | a :: rest => Some (fold_left num_add rest a)
  end.

(** The name the specification describes: the first name that a record of
    the supporter supplies, the placeholder when none does. *)
Definition first_given_name (sid : option ident) ds : string :=
  default (placeholder_name sid) (head (omap supporter_name (records_of sid ds))).

(** The first loop's dictionary: the dated amounts, grouped. *)
Definition dated ds : list (string * F) :=
  (λ d, (date_of d, amount_or_zero d)) <$> filter has_created_at ds.

Definition daily_of ds : list (string * F) :=
  group (λ x : F, x) num_add (dated ds) [].

(** The second loop's dictionary: a new supporter, and one more donation of a
    known one. *)
Definition new_supporter (x : string * F) : supporter_data F :=
  SupporterData x.1 x.2 1.

Definition more_supporter (data : supporter_data F) (x : string * F) : supporter_data F :=
  SupporterData (name data) (num_add (total data) x.2) (count data + 1).

Definition supporter_items ds : list (option ident * (string * F)) :=
  (λ d, (supporter_id d, (name_of d, amount_or_zero d))) <$> ds.

Definition totals_of ds : list (option ident * supporter_data F) :=
  group new_supporter more_supporter (supporter_items ds) [].

(** The summary of a non-empty input whose amounts all convert. *)
Definition summary_of ds : analysis F :=
  let revenue := py_sum (amount_or_zero <$> ds) in
  Analysis (length ds)
    (size (list_to_set (supporter_id <$> ds) : gset (option ident)))
    (length ds) revenue
    (num_div revenue (num_of_int (Z.of_nat (length ds))))
    (top_of (sort_supporters (totals_of ds)))
    (daily_of ds).

(** Nothing is followed by a greater key. *)
Definition not_below {A : Type} (key : A → F) (a b : A) : Prop :=
  num_lt (key a) (key b) = false.
End Vocabulary.

(** ** Floats *)

(** A zero or a finite non-zero number: neither an infinity nor NaN. *)
Definition SFfinite (f : spec_float) : bool :=
  match f with
  | S754_zero _ | S754_finite _ _ _ => true
  | S754_infinity _ | S754_nan => false
  end.

(** The amount is a finite number ([math.isfinite]). *)
Definition finite (x : float) : Prop := PrimFloat.is_finite x = true.

(** Not NaN. *)
Definition is_number (x : float) : Prop := Prim2SF x ≠ S754_nan.

(** The order of the sorted [supporter_totals.items()]: totals descend, and
    equal totals keep the order in which the input shows their supporters. *)
Definition ranks_before (ds : list (donation float))
    (a b : option ident * supporter_data float) : Prop :=
  PrimFloat.leb (total b.2) (total a.2) = true ∧
  (PrimFloat.eqb (total a.2) (total b.2) = true →
   encountered_before a.1 b.1 (supporter_id <$> ds)).

(** ** Sample inputs *)

(** The example of section 8 of the specification: two supporters, two days. *)
Definition january : list (donation float) :=
  [ Donation (Some (IdInt 1)) None (Some (Numeric 50%float)) (Some "2023-01-05T10:00:00");
    Donation (Some (IdInt 1)) None (Some (Numeric 30%float)) (Some "2023-01-06T10:00:00");
    Donation (Some (IdInt 2)) None (Some (Numeric 100%float)) (Some "2023-01-05T10:00:00") ]%string.

Definition january_summary : analysis float :=
  Analysis 3 2 3 180%float 60%float
    [ TopSupporter "Supporter 2" 100%float 1; TopSupporter "Supporter 1" 80%float 2 ]
    [ ("2023-01-05", 150%float); ("2023-01-06", 30%float) ]%string.

(** Two records without [supporter_id] around one with. *)
Definition anonymous : list (donation float) :=
  [ Donation None None (Some (Numeric 5%float)) (Some "2023-02-01T09:00:00");
    Donation (Some (IdStr "ann")) (Some "Ann") (Some (Numeric 7%float)) None;
    Donation None (Some "Walk-in") None (Some "2023-02-02") ]%string.

Definition anonymous_summary : analysis float :=
  Analysis 3 2 3 12%float 4%float
    [ TopSupporter "Ann" 7%float 1; TopSupporter "Supporter None" 5%float 2 ]
    [ ("2023-02-01", 5%float); ("2023-02-02", 0%float) ]%string.

(** A supporter whose first record has no name and whose second has one. *)
Definition renamed : list (donation float) :=
  [ Donation (Some (IdInt 1)) None (Some (Numeric 20%float)) None;
    Donation (Some (IdInt 1)) (Some "Alice") (Some (Numeric 5%float)) None ]%string.

Definition renamed_summary : analysis float :=
  Analysis 2 1 2 25%float 12.5%float [ TopSupporter "Supporter 1" 25%float 2 ] [].

(** Two supporters with the same total, the second one met in between. *)
Definition tied : list (donation float) :=
  [ Donation (Some (IdStr "bob")) (Some "Bob") (Some (Numeric 40%float)) None;
    Donation (Some (IdStr "amy")) (Some "Amy") (Some (Numeric 60%float)) None;
    Donation (Some (IdStr "bob")) (Some "Bob") (Some (Numeric 20%float)) None ]%string.

Definition tied_summary : analysis float :=
  Analysis 3 2 3 120%float 40%float
    [ TopSupporter "Bob" 60%float 2; TopSupporter "Amy" 60%float 1 ] [].

(** One record whose amount is not a number, as in [{"amount": "abc"}]. *)
Definition garbled : list (donation float) :=
  [ Donation (Some (IdInt 1)) None (Some (Malformed NotNumeric))
      (Some "2023-01-05T10:00:00") ]%string.

Set Warnings "-inexact-float".

(** Three donations of 0.10, 0.10 and 1.10 on two days. *)
Definition cents : list (donation float) :=
  [ Donation (Some (IdInt 1)) None (Some (Numeric 0.1%float)) (Some "2023-03-01T08:00:00");
    Donation (Some (IdInt 2)) None (Some (Numeric 0.1%float)) (Some "2023-03-02T08:00:00");
    Donation (Some (IdInt 3)) None (Some (Numeric 1.1%float)) (Some "2023-03-01T17:30:00") ]%string.

(** The same in whole cents, for exact arithmetic. *)
Definition whole_cents : list (donation Z) :=
  [ Donation (Some (IdInt 1)) None (Some (Numeric 10%Z)) (Some "2023-03-01T08:00:00");
    Donation (Some (IdInt 2)) None (Some (Numeric 10%Z)) (Some "2023-03-02T08:00:00");
    Donation (Some (IdInt 3)) None (Some (Numeric 110%Z)) (Some "2023-03-01T17:30:00") ]%string.

Definition whole_cents_summary : analysis Z :=
  Analysis 3 3 3 130%Z 43%Z
    [ TopSupporter "Supporter 3" 110%Z 1; TopSupporter "Supporter 1" 10%Z 1;
      TopSupporter "Supporter 2" 10%Z 1 ]
    [ ("2023-03-01", 120%Z); ("2023-03-02", 10%Z) ]%string.

(** * The rest of the program: request, charts, report, command line

    [get_donations_for_month], [create_visualizations], [generate_pdf_report]
    and the two [main] functions talk to the outside: the API, matplotlib,
    FPDF, the file system, standard output.  They are embedded as programs
    over a trace of the external calls they make, in the order of the source;
    what the outside answers (the response of the API, a library call that
    raises) is a parameter, the [world]. *)

(** ** Exceptions and the trace monad *)

(** The exceptions that reach an [except] clause of the program. *)
Inductive exception : Type :=
  | Builtin (e : exn)                 (* raised by the interpreter's own functions *)
  | IndexError
  | RequestException (msg : string)   (* requests.exceptions.RequestException *)
  | LibraryError (msg : string).      (* any other [Exception] a library call raises *)

(** What [print] writes: a line, or a prefix followed by [str(e)]. *)
Inductive line : Type :=
  | Line (s : string)
  | ErrorLine (prefix : string) (e : exception).

(** Where [plt.text] writes: at a point of the axes, or at the tip of the
    [i]-th bar ([bar.get_width()], [bar.get_y() + bar.get_height()/2]). *)
Inductive text_position : Type :=
  | AtPoint (x y : float)
  | AtBarTip (i : nat).

(** The calls of [matplotlib.pyplot], with the arguments the source gives. *)
Inductive plt_call (F : Type) : Type :=
  | Figure (width height : Z)                     (* figure(figsize=(w, h)) *)
  | Bar (xs : list string) (heights : list F)
  | Barh (ys : list string) (widths : list F)
  | PltText (at_ : text_position) (s : string) (ha va : string)
  | Title (s : string)
  | Xlabel (s : string)
  | Ylabel (s : string)
  | Xticks (rotation : Z)
  | InvertYaxis                                   (* gca().invert_yaxis() *)
  | TightLayout
  | Savefig (path : string)
  | Close.
Arguments Figure {F} _ _.
Arguments Bar {F} _ _.
Arguments Barh {F} _ _.
Arguments PltText {F} _ _ _ _.
Arguments Title {F} _.
Arguments Xlabel {F} _.
Arguments Ylabel {F} _.
Arguments Xticks {F} _.
Arguments InvertYaxis {F}.
Arguments TightLayout {F}.
Arguments Savefig {F} _.
Arguments Close {F}.

(** The calls of [FPDF]; [cell] and [ln] with their defaults filled in. *)
Inductive pdf_call : Type :=
  | NewPdf                                        (* FPDF() *)
  | SetAutoPageBreak (auto : bool) (margin : Z)
  | AddPage
  | SetFont (family style : string) (size : Z)
  | Cell (w h : Z) (txt : string) (border ln : Z) (align : string)
  | Ln (h : option Z)
  | Image (path : string) (x w : Z)               (* image(path, x=x, y=None, w=w) *)
  | Output (name : string).

(** An external call. *)
Inductive call (F : Type) : Type :=
  | Print (l : line)
  | HttpGet (url : string) (headers params : list (string * string))
  | Makedirs (path : string)                      (* os.makedirs(path, exist_ok=True) *)
  | Plt (c : plt_call F)
  | Pdf (c : pdf_call).
Arguments Print {F} _.
Arguments HttpGet {F} _ _ _.
Arguments Makedirs {F} _.
Arguments Plt {F} _.
Arguments Pdf {F} _.

(** How a run ends: with a value, with an exception on its way up, or in
    [sys.exit(code)]. *)
Inductive outcome (A : Type) : Type :=
  | Done (a : A)
  | Raised (e : exception)
  | SysExit (code : Z).
Arguments Done {A} _.
Arguments Raised {A} _.
Arguments SysExit {A} _.

(** A program takes the trace so far and returns its outcome and the trace
    extended by its own calls. *)
Definition io (F A : Type) : Type := list (call F) → outcome A * list (call F).

#[export] Instance io_ret {F : Type} : MRet (io F) := λ A a h, (Done a, h).

#[export] Instance io_bind {F : Type} : MBind (io F) := λ A B k m h,
  match m h with
  | (Done a, h') => k a h'
  | (Raised e, h') => (Raised e, h')
  | (SysExit code, h') => (SysExit code, h')
  end.

(** What the API answers to [requests.get] followed by [raise_for_status()]
    and [json()]. *)
Inductive api_result (F : Type) : Type :=
  | Response (donations : list (donation F))
  | RequestFailed (msg : string)       (* a RequestException: no connection, a 4xx or 5xx status *)
  | ResponseInvalid (msg : string).    (* any other exception *)
Arguments Response {F} _.
Arguments RequestFailed {F} _.
Arguments ResponseInvalid {F} _.

(** The outside: the answer to a request, and whether a call to matplotlib,
    FPDF or [os] raises (and with what message), both possibly depending on
    what happened before. *)
Record world (F : Type) : Type := World {
  http_get : list (call F) → string → list (string * string) → list (string * string)
             → api_result F;
  fails : list (call F) → call F → option string;
}.
Arguments World {F} _ _.
Arguments http_get {F} _ _ _ _ _.
Arguments fails {F} _ _ _.

(** What differs between platforms: whether [strftime('%Y')] pads years below
    1000 with zeros, and the separator of [os.path.join]. *)
Record platform : Type := Platform {
  pads_year : bool;
  path_sep : string;
}.

(** [f'{x:.2f}'] and [f'{x:,.2f}'] *)
Class FloatFormat (F : Type) := {
  format_2f : F → string;
  format_comma_2f : F → string;
}.

(** The digits of a natural number in groups of three, from the right. *)
Fixpoint commas (i : nat) (reversed_digits : list ascii) : list ascii :=
  match reversed_digits with
  | [] => []
  | c :: rest =>
      match i with
      | 3 => ","%char :: c :: commas 1 rest
      | _ => c :: commas (S i) rest
      end
  end.

Definition thousands (digits : string) : string :=
  string_of_list_ascii (reverse (commas 0 (reverse (list_ascii_of_string digits)))).

(** Amounts counted in whole units have two zero decimals. *)
#[export] Instance whole_format : FloatFormat Z := {
  format_2f := λ z, pretty z +:+ ".00";
  format_comma_2f := λ z,
    (if (z <? 0)%Z then "-" else "") +:+ thousands (pretty (Z.abs z)) +:+ ".00";
}.

Section Effects.
Context {F : Type} (w : world F).

(** An exception of the interpreter's own. *)
Definition of_result {A} (r : result A) : io F A := λ h,
  match r with
  | Ret a => (Done a, h)
  | Raise e => (Raised (Builtin e), h)
  end.

Definition raise {A} (e : exception) : io F A := λ h, (Raised e, h).

(** [print(l)]; writing to standard output is taken to succeed. *)
Definition print (l : line) : io F unit := λ h, (Done (), h ++ [Print l]).

(** [sys.exit(code)] *)
Definition sys_exit {A} (code : Z) : io F A := λ h, (SysExit code, h).

(** A call into matplotlib, FPDF or [os]: it is made, and raises if the
    world says so. *)
Definition library (c : call F) : io F unit := λ h,
  match fails w h c with
  | Some msg => (Raised (LibraryError msg), h ++ [c])
  | None => (Done (), h ++ [c])
  end.

(** [requests.get(url, headers=..., params=...)], [raise_for_status()] and
    [json()]. *)
Definition requests_get (url : string) (headers params : list (string * string))
  : io F (list (donation F)) := λ h,
  match http_get w h url headers params with
  | Response donations => (Done donations, h ++ [HttpGet url headers params])
  | RequestFailed msg => (Raised (RequestException msg), h ++ [HttpGet url headers params])
  | ResponseInvalid msg => (Raised (LibraryError msg), h ++ [HttpGet url headers params])
  end.

(** [try: body / except ...: handler]: [handler e] is the clause that matches
    [e], if there is one. *)
Definition try_except {A} (body : io F A) (handler : exception → option (io F A))
  : io F A := λ h,
  match body h with
  | (Raised e, h') =>
      match handler e with
      | Some k => k h'
      | None => (Raised e, h')
      end
  | r => r
  end.

(** [for x in l: body x] *)
Fixpoint for_ {A} (l : list A) (body : A → io F unit) : io F unit :=
  match l with
  | [] => mret ()
  | x :: l' => body x;; for_ l' body
  end.
End Effects.

(** ** Dates and formats *)

(** [calendar.isleap] *)
Definition isleap (year : Z) : bool :=
  (year mod 4 =? 0)%Z && (negb (year mod 100 =? 0)%Z || (year mod 400 =? 0)%Z).

(** [calendar.mdays] *)
Definition mdays (month : Z) : Z :=
  match month with
  | 1 => 31 | 2 => 28 | 3 => 31 | 4 => 30 | 5 => 31 | 6 => 30
  | 7 => 31 | 8 => 31 | 9 => 30 | 10 => 31 | 11 => 30 | 12 => 31
  | _ => 0
  end%Z.

(** The number of days of a month, for a month from 1 to 12. *)
Definition days_in_month (year month : Z) : Z :=
  (mdays month + (if (month =? 2)%Z && isleap year then 1 else 0))%Z.

(** [calendar.monthrange(year, month)[1]]: an illegal month is a
    [ValueError] ([IllegalMonthError]). *)
Definition monthrange_days (year month : Z) : result Z :=
  if (1 <=? month)%Z && (month <=? 12)%Z then Ret (days_in_month year month)
  else Raise ValueError.

(** A value that fits the C [int] through which [datetime] reads its
    arguments. *)
Definition fits_int (z : Z) : bool := (-2147483648 <=? z)%Z && (z <=? 2147483647)%Z.

(** [datetime(year, month, day)]: [OverflowError] for an argument beyond a C
    [int], [ValueError] for a year outside 1..9999, a month outside 1..12 or
    a day the month does not have. *)
Definition datetime (year month day : Z) : result (Z * Z * Z) :=
  if negb (fits_int year && fits_int month && fits_int day) then Raise OverflowError
  else if negb ((1 <=? year)%Z && (year <=? 9999)%Z) then Raise ValueError
  else if negb ((1 <=? month)%Z && (month <=? 12)%Z) then Raise ValueError
  else if negb ((1 <=? day)%Z && (day <=? days_in_month year month)%Z) then Raise ValueError
  else Ret (year, month, day).

Fixpoint zeros (n : nat) : string :=
  match n with
  | O => ""
  | S n' => String "0" (zeros n')
  end.

(** A number of at least [width] digits, zeros in front. *)
Definition zero_pad (width : nat) (digits : string) : string :=
  zeros (width - String.length digits) +:+ digits.

(** [f'{n:02d}'] *)
Definition format_02d (n : Z) : string :=
  if (0 <=? n)%Z then zero_pad 2 (pretty n) else pretty n.

(** [d.strftime('%Y-%m-%d')] for a date [d] (a year from 1 to 9999). *)
Definition strftime_ymd (pf : platform) (d : Z * Z * Z) : string :=
  let '(year, month, day) := d in
  (if pads_year pf then zero_pad 4 (pretty year) else pretty year)
    +:+ "-" +:+ zero_pad 2 (pretty month) +:+ "-" +:+ zero_pad 2 (pretty day).

(** The thirteen entries of [calendar.month_name] (in an English locale). *)
Definition month_names : list string :=
  [ ""; "January"; "February"; "March"; "April"; "May"; "June"; "July";
    "August"; "September"; "October"; "November"; "December" ]%string.

(** [calendar.month_name[month]]: a list index, negative ones counting from
    the end. *)
Definition month_name {F : Type} (month : Z) : io F string := λ h,
  let i := if (month <? 0)%Z then (month + 13)%Z else month in
  match (if (0 <=? i)%Z then month_names !! Z.to_nat i else None) with
  | Some name => (Done name, h)
  | None => (Raised IndexError, h)
  end.

(** [os.path.join(dir, file)] for a relative [file] and a [dir] that does not
    end in a separator. *)
Definition path_join (pf : platform) (dir file : string) : string :=
  dir +:+ path_sep pf +:+ file.

(** ** [DonationReportGenerator] *)

(** The attributes [__init__] sets (lines 26-32). *)
Record generator : Type := Generator {
  api_token : string;
  api_base_url : string;
  headers : list (string * string);
}.

Definition new_generator (api_token api_base_url : string) : generator :=
  Generator api_token api_base_url
    [ ("Authorization", "Bearer " +:+ api_token);
      ("Content-Type", "application/json") ]%string.

Definition default_api_base_url : string := "https://api.donationplatform.com".

Section Reporting.
Context {F : Type} `{Number F} `{Summation F} `{FloatFormat F}.
Context (pf : platform) (w : world F).

(** Lines 34-56 *)
Definition get_donations_for_month (self : generator) (year month : Z)
  : io F (list (donation F)) :=
  first ← of_result (datetime year month 1);
  let start_date := strftime_ymd pf first in
  last_day ← of_result (monthrange_days year month);
  last ← of_result (datetime year month last_day);
  let end_date := strftime_ymd pf last in
  print (Line ("Fetching donations for " +:+ pretty year +:+ "-" +:+ format_02d month
               +:+ " (" +:+ start_date +:+ " to " +:+ end_date +:+ ")..."));;
  let url := api_base_url self +:+ "/donations" in
  let params := [ ("start_date", start_date); ("end_date", end_date) ]%string in
  requests_get w url (headers self) params.

(** Lines 189-192: one label at the tip of each bar. *)
Definition label_bars (totals : list F) : io F unit :=
  for_ (imap (λ i total, (i, total)) totals)
    (λ '(i, total),
       library w (Plt (PltText (AtBarTip i) ("$" +:+ format_2f total) "left" "center"))).

(** Lines 144-205 *)
Definition create_visualizations (analysis_data : analysis F) (year month : Z)
  : io F (string * string) :=
  let img_dir := "report_images"%string in
  library w (Makedirs img_dir);;
  let daily_revenue_path :=
    path_join pf img_dir
      ("daily_revenue_" +:+ pretty year +:+ "_" +:+ pretty month +:+ ".png") in
  let daily_title :=
    name ← month_name month;
    mret ("Daily Revenue - " +:+ name +:+ " " +:+ pretty year) in
  (match daily_revenue analysis_data with
   | _ :: _ =>
       let dates := dict_keys (daily_revenue analysis_data) in
       let revenues := dict_values (daily_revenue analysis_data) in
       library w (Plt (Figure 12 6));;
       library w (Plt (Bar dates revenues));;
       t ← daily_title;
       library w (Plt (Title t));;
       library w (Plt (Xlabel "Date"));;
       library w (Plt (Ylabel "Revenue ($)"));;
       library w (Plt (Xticks 45));;
       library w (Plt TightLayout);;
       library w (Plt (Savefig daily_revenue_path));;
       library w (Plt Close)
   | [] =>
       library w (Plt (Figure 12 6));;
       library w (Plt (PltText (AtPoint 0.5 0.5) "No data available" "center" "center"));;
       t ← daily_title;
       library w (Plt (Title t));;
       library w (Plt (Savefig daily_revenue_path));;
       library w (Plt Close)
   end);;
  let top_supporters_path :=
    path_join pf img_dir
      ("top_supporters_" +:+ pretty year +:+ "_" +:+ pretty month +:+ ".png") in
  let top_title :=
    name ← month_name month;
    mret ("Top 10 Supporters - " +:+ name +:+ " " +:+ pretty year) in
  (match top_supporters analysis_data with
   | _ :: _ =>
       let names := top_name <$> top_supporters analysis_data in
       let totals := total_donated <$> top_supporters analysis_data in
       library w (Plt (Figure 12 8));;
       library w (Plt (Barh names totals));;
       t ← top_title;
       library w (Plt (Title t));;
       library w (Plt (Xlabel "Total Donated ($)"));;
       library w (Plt InvertYaxis);;
       label_bars totals;;
       library w (Plt TightLayout);;
       library w (Plt (Savefig top_supporters_path));;
       library w (Plt Close)
   | [] =>
       library w (Plt (Figure 12 8));;
       library w (Plt (PltText (AtPoint 0.5 0.5) "No data available" "center" "center"));;
       t ← top_title;
       library w (Plt (Title t));;
       library w (Plt (Savefig top_supporters_path));;
       library w (Plt Close)
   end);;
  mret (daily_revenue_path, top_supporters_path).

(** Lines 226-232: the five lines of the statistics block. *)
Definition stats (analysis_data : analysis F) : list string :=
  [ "Total Supporters: " +:+ pretty (total_supporters analysis_data);
    "Unique Supporters: " +:+ pretty (unique_supporters analysis_data);
    "Total Donations: " +:+ pretty (total_donations analysis_data);
    "Total Revenue: $" +:+ format_comma_2f (total_revenue analysis_data);
    "Average Donation: $" +:+ format_comma_2f (average_donation analysis_data) ].

(** Lines 256-260: one table row. *)
Definition supporter_row (supporter : top_supporter F) : io F unit :=
  library w (Pdf (Cell 60 8 (top_name supporter) 1 0 ""));;
  library w (Pdf (Cell 50 8 ("$" +:+ format_comma_2f (total_donated supporter)) 1 0 ""));;
  library w (Pdf (Cell 40 8 (pretty (donation_count supporter)) 1 0 ""));;
  library w (Pdf (Ln None)).

(** [f"donation_report_{year}_{month:02d}.pdf"] *)
Definition report_filename (year month : Z) : string :=
  "donation_report_" +:+ pretty year +:+ "_" +:+ format_02d month +:+ ".pdf".

(** Lines 207-271 *)
Definition generate_pdf_report (analysis_data : analysis F) (year month : Z)
    (daily_revenue_img top_supporters_img : string) : io F string :=
  library w (Pdf NewPdf);;
  library w (Pdf (SetAutoPageBreak true 15));;
  library w (Pdf AddPage);;
  (* Title *)
  library w (Pdf (SetFont "Arial" "B" 16));;
  name ← month_name month;
  library w (Pdf (Cell 0 10 ("Monthly Donation Report - " +:+ name +:+ " " +:+ pretty year)
                    0 1 "C"));;
  library w (Pdf (Ln (Some 10%Z)));;
  (* Statistics section *)
  library w (Pdf (SetFont "Arial" "B" 12));;
  library w (Pdf (Cell 0 10 "Key Statistics" 0 1 ""));;
  library w (Pdf (SetFont "Arial" "" 10));;
  for_ (stats analysis_data) (λ stat, library w (Pdf (Cell 0 8 stat 0 1 "")));;
  library w (Pdf (Ln (Some 10%Z)));;
  (* Daily Revenue Chart *)
  library w (Pdf (SetFont "Arial" "B" 12));;
  library w (Pdf (Cell 0 10 "Daily Revenue" 0 1 ""));;
  library w (Pdf (Image daily_revenue_img 10 190));;
  library w (Pdf (Ln (Some 10%Z)));;
  (* Top Supporters Section *)
  library w (Pdf AddPage);;
  library w (Pdf (SetFont "Arial" "B" 12));;
  library w (Pdf (Cell 0 10 "Top 10 Supporters" 0 1 ""));;
  library w (Pdf (SetFont "Arial" "B" 10));;
  library w (Pdf (Cell 60 10 "Supporter Name" 1 0 ""));;
  library w (Pdf (Cell 50 10 "Total Donated" 1 0 ""));;
  library w (Pdf (Cell 40 10 "Donation Count" 1 0 ""));;
  library w (Pdf (Ln None));;
  library w (Pdf (SetFont "Arial" "" 10));;
  for_ (top_supporters analysis_data) supporter_row;;
  (* Top Supporters Chart *)
  library w (Pdf (Ln (Some 5%Z)));;
  library w (Pdf (SetFont "Arial" "B" 12));;
  library w (Pdf (Cell 0 10 "Top Supporters Visualization" 0 1 ""));;
  library w (Pdf (Image top_supporters_img 10 190));;
  (* Output file *)
  let filename := report_filename year month in
  library w (Pdf (Output filename));;
  mret filename.

(** [analyze_donations] inside the pipeline: its exceptions are the
    interpreter's. *)
Definition analyze (donations : list (donation F)) : io F (analysis F) :=
  of_result (analyze_donations donations).

(** Lines 300-316 of donation_report_generator.py: the body of the [try]. *)
Definition pipeline (self : generator) (year month : Z) : io F unit :=
  donations ← get_donations_for_month self year month;
  print (Line ("Retrieved " +:+ pretty (length donations) +:+ " donations"));;
  analysis_data ← analyze donations;
  print (Line "Analysis complete");;
  '(daily_revenue_img, top_supporters_img) ←
    create_visualizations analysis_data year month;
  print (Line ("Visualizations created: " +:+ daily_revenue_img +:+ ", "
               +:+ top_supporters_img));;
  pdf_filename ← generate_pdf_report analysis_data year month
                   daily_revenue_img top_supporters_img;
  print (Line ("Report generated successfully: " +:+ pdf_filename)).

(** Lines 274-323, from the parsed arguments on. *)
Definition main (token api_url : string) (year month : Z) : io F unit :=
  if negb ((1 <=? month)%Z && (month <=? 12)%Z) then
    print (Line "Error: Month must be between 1 and 12");;
    sys_exit 1
  else
    (* Validate date *)
    try_except (of_result (datetime year month 1);; mret ())
      (λ e, match e with
            | Builtin ValueError =>
                Some (print (Line ("Error: Invalid date " +:+ pretty year +:+ "-"
                                   +:+ pretty month));;
                      sys_exit 1)
            | _ => None
            end);;
    name ← month_name month;
    print (Line ("Generating donation report for " +:+ name +:+ " " +:+ pretty year
                 +:+ "..."));;
    (* Initialize the report generator *)
    let generator := new_generator token api_url in
    try_except (pipeline generator year month)
      (λ e, match e with
            | RequestException _ => Some (print (ErrorLine "API Error: " e);; sys_exit 1)
            | _ => Some (print (ErrorLine "Error: " e);; sys_exit 1)
            end).

(** example_usage.py, lines 10-47; [env_token] is the value of the
    environment variable [DONATION_API_TOKEN], if it is set. *)
Definition example_usage_main (env_token : option string) : io F unit :=
  let api_token := default "your_api_token_here"%string env_token in
  let generator := new_generator api_token default_api_base_url in
  let year := 2023%Z in
  let month := 1%Z in
  print (Line ("Generating donation report for " +:+ pretty year +:+ "-"
               +:+ format_02d month +:+ "..."));;
  try_except
    (donations ← get_donations_for_month generator year month;
     print (Line ("Retrieved " +:+ pretty (length donations) +:+ " donations"));;
     analysis_data ← analyze donations;
     print (Line "Analysis complete:");;
     print (Line ("  Total Supporters: " +:+ pretty (total_supporters analysis_data)));;
     print (Line ("  Unique Supporters: " +:+ pretty (unique_supporters analysis_data)));;
     print (Line ("  Total Revenue: $" +:+ format_comma_2f (total_revenue analysis_data)));;
     print (Line ("  Average Donation: $"
                  +:+ format_comma_2f (average_donation analysis_data)));;
     '(daily_revenue_img, top_supporters_img) ←
       create_visualizations analysis_data year month;
     print (Line ("Visualizations created: " +:+ daily_revenue_img +:+ ", "
                  +:+ top_supporters_img));;
     pdf_filename ← generate_pdf_report analysis_data year month
                      daily_revenue_img top_supporters_img;
     print (Line ("Report generated successfully: " +:+ pdf_filename)))
    (λ e, Some (print (ErrorLine "Error: " e))).
End Reporting.

(** ** Vocabulary of the corrections *)

(** No total of a supporter is NaN. *)
Definition numeric_totals (ds : list (donation float)) : Prop :=
  ∀ sid v, running_sum (amount_or_zero <$> records_of sid ds) = Some v → is_number v.

(** The records "that have a [created_at]" when this is read as: the key is
    there, whatever its value; and those of them that share a date prefix. *)
Definition records_stamped {F : Type} (date : string) (ds : list (donation F))
  : list (donation F) :=
  filter (λ d, date_of d = date) (filter (λ d, created_at d ≠ None) ds).

(** Three supporters, the second one with the amount ["nan"], which [float()]
    accepts. *)
Definition nan_total : list (donation float) :=
  [ Donation (Some (IdInt 1)) None (Some (Numeric 1%float)) None;
    Donation (Some (IdInt 2)) None (Some (Numeric nan)) None;
    Donation (Some (IdInt 3)) None (Some (Numeric 2%float)) None ].

(** A timestamp without a date, and an empty timestamp. *)
Definition empty_stamp : list (donation float) :=
  [ Donation (Some (IdInt 1)) None (Some (Numeric 1%float)) (Some "T10:00");
    Donation (Some (IdInt 2)) None (Some (Numeric 2%float)) (Some "") ]%string.

(** *** Amounts that are whole numbers

    A JSON integer [z] becomes [float(z)].  Sums of such amounts are exact as
    long as binary64 holds them: the condition [exact_up_to] says so for the
    whole numbers up to a bound, and [exact_check] decides it by evaluation. *)

Definition whole_amount (d : donation Z) : Z :=
  match amount d with
  | Some (Numeric z) => z
  | _ => 0%Z
  end.

(** The record as line 80 reads it. *)
Definition of_whole (d : donation Z) : donation float :=
  Donation (supporter_id d) (supporter_name d)
    (match amount d with
     | Some (Numeric z) => Some (Numeric (float_of_int z))
     | Some (Malformed failure) => Some (Malformed failure)
     | None => None
     end)
    (created_at d).

Definition abs_sum (zs : list Z) : Z := foldr (λ z acc, (Z.abs z + acc)%Z) 0%Z zs.

Definition sum_Z (zs : list Z) : Z := foldr Z.add 0%Z zs.

(** The sum of the absolute amounts of an input. *)
Definition magnitude (ds : list (donation Z)) : Z := abs_sum (whole_amount <$> ds).

(** Adding two whole numbers as floats gives their sum, for the pairs within
    the bound. *)
Definition exact_up_to (bound : Z) : Prop :=
  ∀ a b : Z, (Z.abs a + Z.abs b ≤ bound)%Z →
    PrimFloat.add (float_of_int a) (float_of_int b) = float_of_int (a + b).

Definition exact_check (bound : Z) : bool :=
  let range := seqZ (- bound) (2 * bound + 1) in
  forallb (λ a,
    forallb (λ b,
      implb (Z.abs a + Z.abs b <=? bound)%Z
        (PrimFloat.Leibniz.eqb (PrimFloat.add (float_of_int a) (float_of_int b))
           (float_of_int (a + b))))
      range)
    range.

(** The aggregate of a supporter with its total read as a float. *)
Definition data_of_whole (data : supporter_data Z) : supporter_data float :=
  SupporterData (name data) (float_of_int (total data)) (count data).

(** ** Vocabulary of the further properties *)

(** The character [a] occurs in [s]. *)
Fixpoint occurs (a : ascii) (s : string) : bool :=
  match s with
  | EmptyString => false
  | String b s' => if decide (a = b) then true else occurs a s'
  end.

(** ** Reading a trace *)

Section Traces.
Context {F : Type}.

Definition is_print (c : call F) : bool :=
  match c with Print _ => true | _ => false end.

Definition is_request (c : call F) : bool :=
  match c with HttpGet _ _ _ => true | _ => false end.

(** A call into [os], matplotlib or FPDF. *)
Definition is_library (c : call F) : bool :=
  match c with Makedirs _ | Plt _ | Pdf _ => true | _ => false end.

Definition is_figure (c : call F) : bool :=
  match c with Plt (Figure _ _) => true | _ => false end.

Definition is_close (c : call F) : bool :=
  match c with Plt Close => true | _ => false end.

Definition is_add_page (c : call F) : bool :=
  match c with Pdf AddPage => true | _ => false end.

(** The text that stands in for a chart without data. *)
Definition is_placeholder (c : call F) : bool :=
  match c with
  | Plt (PltText (AtPoint _ _) s _ _) => bool_decide (s = "No data available"%string)
  | _ => false
  end.

(** The file a call writes, by kind of file. *)
Definition saved_chart (c : call F) : option string :=
  match c with Plt (Savefig path) => Some path | _ => None end.

Definition written_report (c : call F) : option string :=
  match c with Pdf (Output name) => Some name | _ => None end.

Definition embedded_image (c : call F) : option string :=
  match c with Pdf (Image path _ _) => Some path | _ => None end.

(** The file a call saves, embeds or writes. *)
Definition touched_file (c : call F) : option string :=
  match c with
  | Plt (Savefig path) | Pdf (Image path _ _) | Pdf (Output path) => Some path
  | _ => None
  end.

(** What makes up the pages of the report: a new page ([None]) or an image
    put on the current page. *)
Definition page_or_image (c : call F) : option (option string) :=
  match c with
  | Pdf AddPage => Some None
  | Pdf (Image path _ _) => Some (Some path)
  | _ => None
  end.

(** The bars of a chart: their names and their sizes. *)
Definition bars (c : call F) : option (list string * list F) :=
  match c with
  | Plt (Bar xs heights) => Some (xs, heights)
  | Plt (Barh ys widths) => Some (ys, widths)
  | _ => None
  end.

(** The label written at the tip of a bar. *)
Definition bar_label (c : call F) : option (nat * string) :=
  match c with Plt (PltText (AtBarTip i) s _ _) => Some (i, s) | _ => None end.

(** A cell of the body of the supporters table: bordered, 8 high. *)
Definition table_cell (c : call F) : option string :=
  match c with Pdf (Cell _ 8 txt 1 _ _) => Some txt | _ => None end.

(** The request a call makes. *)
Definition request (c : call F)
  : option (string * list (string * string) * list (string * string)) :=
  match c with HttpGet url headers params => Some (url, headers, params) | _ => None end.

(** No call into a library raises. *)
Definition quiet (w : world F) : Prop := ∀ h c, fails w h c = None.

(** The API answers every request with [donations]. *)
Definition answers (w : world F) (donations : list (donation F)) : Prop :=
  ∀ h url headers params, http_get w h url headers params = Response donations.

(** Whatever the outside does, the program [m] only adds calls to the
    trace, all of them in [P]. *)
Definition emits {A} (P : call F → Prop) (m : io F A) : Prop :=
  ∀ h, ∃ t, (m h).2 = h ++ t ∧ Forall P t.

(** The program does not end in [sys.exit]. *)
Definition no_exit {A} (m : io F A) : Prop := ∀ h code, (m h).1 ≠ SysExit code.

(** When the program returns, it returns [v] and the calls [cs] are the last
    it has made. *)
Definition ends_with {A} (m : io F A) (cs : list (call F)) (v : A) : Prop :=
  ∀ h a t', m h = (Done a, t') → a = v ∧ ∃ t, t' = h ++ t ++ cs.

(** Whatever the outside does, the program only calls libraries, does not
    exit, writes no report before its last call, and when it returns, it
    returns [v] and its last call has written the report [name]. *)
Definition writes_last {A} (m : io F A) (name : string) (v : A) : Prop :=
  ∀ h, ∃ t,
    (m h).2 = h ++ t ∧
    Forall is_library t ∧
    omap written_report (removelast t) = [] ∧
    (∀ code, (m h).1 ≠ SysExit code) ∧
    (∀ a, (m h).1 = Done a → a = v ∧ last t = Some (Pdf (Output name))).
End Traces.

(** A year and a month that [datetime] accepts. *)
Definition valid_month (year month : Z) : Prop :=
  (1 ≤ year ≤ 9999)%Z ∧ (1 ≤ month ≤ 12)%Z.

(** * Verification *)

(** ** Distinct elements in first-seen order *)

Section FirstSeen.
Context {K : Type} `{EqDecision K}.
Implicit Types (l : list K) (x a k : K).

Lemma elem_of_first_seen l x : x ∈ first_seen l ↔ x ∈ l.
Proof.
  revert x. induction l as [|a l IH]; intros x; simpl; [done|].
  rewrite !elem_of_cons, list_elem_of_filter, IH.
  destruct (decide (x = a)); tauto.
Qed.

Lemma NoDup_first_seen l : NoDup (first_seen l).
Proof.
  induction l as [|a l IH]; simpl; constructor.
  - rewrite list_elem_of_filter. by intros [? _].
  - by apply NoDup_filter.
Qed.

Lemma first_seen_sublist l : first_seen l `sublist_of` l.
Proof.
  induction l as [|a l IH]; simpl; [done|].
  apply sublist_skip. etrans; [apply sublist_filter|done].
Qed.

Lemma first_seen_snoc l x :
  first_seen (l ++ [x]) = if decide (x ∈ l) then first_seen l else first_seen l ++ [x].
Proof.
  induction l as [|a l IH]; simpl; [done|].
  rewrite IH. clear IH. destruct (decide (x = a)) as [->|Hne].
  - rewrite (decide_True (P := a ∈ a :: l)) by apply list_elem_of_here.
    destruct (decide (a ∈ l)); [done|].
    rewrite filter_app, (filter_cons_False (λ y, y ≠ a) a []) by auto.
    by rewrite filter_nil, app_nil_r.
  - destruct (decide (x ∈ l)) as [Hin|Hin].
    + by rewrite decide_True by by apply list_elem_of_further.
    + rewrite decide_False by (rewrite elem_of_cons; tauto).
      rewrite filter_app, (filter_cons_True (λ y, y ≠ a) x []) by done.
      by rewrite filter_nil.
Qed.

Lemma first_seen_NoDup l : NoDup l → first_seen l = l.
Proof.
  induction 1 as [|a l Hin Hnd IH]; simpl; [done|]. rewrite IH. f_equal.
  clear IH Hnd. induction l as [|b l IH]; [done|].
  rewrite not_elem_of_cons in Hin. destruct Hin as [Hab Hin].
  rewrite filter_cons_True by done. f_equal. by apply IH.
Qed.

Lemma length_filter_ne_lt (a : K) l :
  a ∈ l → length (filter (λ y, y ≠ a) l) < length l.
Proof.
  induction 1 as [a l|a b l Hin IH].
  - rewrite filter_cons_False by auto. simpl.
    pose proof (sublist_length _ _ (sublist_filter (λ y, y ≠ a) l)). lia.
  - rewrite filter_cons. destruct (decide (b ≠ a)); simpl; lia.
Qed.

Lemma length_first_seen_le l : length (first_seen l) ≤ length l.
Proof. apply sublist_length, first_seen_sublist. Qed.

Lemma length_first_seen_eq l : length (first_seen l) = length l ↔ NoDup l.
Proof.
  split; [|by intros ->%first_seen_NoDup].
  induction l as [|a l IH]; simpl; [constructor|]. intros Hlen.
  pose proof (sublist_length _ _ (sublist_filter (λ y, y ≠ a) (first_seen l))) as H1.
  pose proof (length_first_seen_le l) as H2.
  constructor; [|apply IH; lia].
  intros Hin%elem_of_first_seen%(length_filter_ne_lt a). lia.
Qed.

(** [k1] stands before [k2] in [first_seen l] only if some prefix of [l]
    already holds [k1] and not yet [k2]. *)
Lemma first_seen_before l k1 k2 :
  [k1; k2] `sublist_of` first_seen l →
  ∃ p q, l = p ++ q ∧ k1 ∈ p ∧ k2 ∉ p.
Proof.
  induction l as [|a l IH]; simpl.
  - intros Hs%sublist_length. simpl in Hs. lia.
  - intros [Hs|(l' & [= <- <-] & Hs)]%sublist_cons_r.
    + assert (k1 ≠ a ∧ k2 ≠ a) as [H1 H2].
      { split.
        - eapply (elem_of_sublist _ _ k1) in Hs; [|apply list_elem_of_here].
          by apply list_elem_of_filter in Hs as [? _].
        - eapply (elem_of_sublist _ _ k2) in Hs;
            [|apply list_elem_of_further, list_elem_of_here].
          by apply list_elem_of_filter in Hs as [? _]. }
      destruct IH as (p & q & -> & Hp1 & Hp2).
      { etrans; [exact Hs|apply sublist_filter]. }
      exists (a :: p), q. rewrite elem_of_cons, not_elem_of_cons. auto.
    + apply singleton_sublist_l, list_elem_of_filter in Hs as [Hne _].
      exists [k1], l. rewrite !list_elem_of_singleton. auto.
Qed.

Lemma size_list_to_set_first_seen `{!Countable K} (l : list K) :
  size (list_to_set l : gset K) = length (first_seen l).
Proof.
  rewrite <-(size_list_to_set (C := gset K)) by apply NoDup_first_seen.
  f_equal. apply set_eq. intros x.
  by rewrite !elem_of_list_to_set, elem_of_first_seen.
Qed.
End FirstSeen.

(** ** Dictionaries *)

Section DictFacts.
Context {K V : Type} `{EqDecision K}.
Implicit Types (k : K) (v : V) (d : list (K * V)).

Lemma dict_get_Some k v d : dict_get k d = Some v → (k, v) ∈ d.
Proof.
  induction d as [|[k' v'] d IH]; simpl; [done|]. case_decide as Hk.
  - intros [= ->]. subst. apply list_elem_of_here.
  - intros ?. apply list_elem_of_further. auto.
Qed.

Lemma dict_get_elem_of k v d : NoDup (dict_keys d) → (k, v) ∈ d → dict_get k d = Some v.
Proof.
  unfold dict_keys. induction d as [|[k' v'] d IH]; simpl.
  - by intros _ ?%elem_of_nil.
  - intros [Hk' Hnd]%NoDup_cons [[= -> ->]|Hin]%elem_of_cons.
    + by rewrite decide_True.
    + rewrite decide_False; [by apply IH|].
      intros ->. apply Hk'. by apply (list_elem_of_fmap_2 fst) in Hin.
Qed.

Lemma dict_get_set k' k v d :
  dict_get k' (dict_set k v d) = if decide (k' = k) then Some v else dict_get k' d.
Proof.
  induction d as [|[k0 v0] d IH]; simpl; [done|].
  repeat (case_decide; simpl; subst); congruence.
Qed.

Lemma dict_keys_set k v d :
  dict_keys (dict_set k v d) =
    if decide (k ∈ dict_keys d) then dict_keys d else dict_keys d ++ [k].
Proof.
  unfold dict_keys. induction d as [|[k0 v0] d IH]; csimpl; [done|].
  destruct (decide (k = k0)) as [->|Hne]; csimpl.
  - by rewrite decide_True by apply list_elem_of_here.
  - rewrite IH. destruct (decide (k ∈ d.*1)) as [Hin|Hin].
    + by rewrite decide_True by by apply list_elem_of_further.
    + by rewrite decide_False by (rewrite elem_of_cons; tauto).
Qed.
End DictFacts.

(** ** Group-and-accumulate loops *)

Section Grouping.
Context {K V X : Type} `{EqDecision K}.
Context (ins : X → V) (upd : V → X → V).
Implicit Types (k : K) (d : list (K * V)) (kx : K * X) (items : list (K * X))
  (xs : list X).

Lemma accumulate_snoc xs x :
  accumulate ins upd (xs ++ [x]) =
    Some (match accumulate ins upd xs with Some v => upd v x | None => ins x end).
Proof. destruct xs as [|x0 xs]; simpl; [done|]. by rewrite fold_left_app. Qed.

Lemma dict_keys_upsert d kx :
  dict_keys (upsert ins upd d kx) =
    if decide (kx.1 ∈ dict_keys d) then dict_keys d else dict_keys d ++ [kx.1].
Proof. unfold upsert. by destruct (dict_get kx.1 d); rewrite dict_keys_set. Qed.

Lemma dict_get_upsert k d kx :
  dict_get k (upsert ins upd d kx) =
    if decide (k = kx.1)
    then Some (match dict_get k d with Some v => upd v kx.2 | None => ins kx.2 end)
    else dict_get k d.
Proof.
  unfold upsert.
  destruct (dict_get kx.1 d) eqn:E; rewrite dict_get_set; case_decide; subst;
    by rewrite ?E.
Qed.

Lemma group_snoc items kx d : group ins upd (items ++ [kx]) d = upsert ins upd (group ins upd items d) kx.
Proof. unfold group. by rewrite fold_left_app. Qed.

Lemma dict_keys_group items : dict_keys (group ins upd items []) = first_seen items.*1.
Proof.
  induction items as [|kx items IH] using rev_ind; [done|].
  rewrite group_snoc, dict_keys_upsert, fmap_app.
  change ([kx].*1) with [kx.1]. rewrite first_seen_snoc, IH.
  destruct (decide (kx.1 ∈ items.*1)) as [Hin|Hin].
  - by rewrite decide_True by by apply elem_of_first_seen.
  - by rewrite decide_False by by rewrite elem_of_first_seen.
Qed.

Lemma dict_get_group k items :
  dict_get k (group ins upd items []) = accumulate ins upd (filter (λ kx, kx.1 = k) items).*2.
Proof.
  induction items as [|kx items IH] using rev_ind; [done|].
  rewrite group_snoc, dict_get_upsert, filter_app, IH. clear IH.
  rewrite filter_cons, filter_nil. case_decide as Hk.
  - rewrite decide_True by done. rewrite fmap_app.
    change ([kx].*2) with [kx.2]. rewrite accumulate_snoc. by subst.
  - rewrite decide_False by done. by rewrite app_nil_r.
Qed.

Lemma NoDup_dict_keys_group items : NoDup (dict_keys (group ins upd items [])).
Proof. rewrite dict_keys_group. apply NoDup_first_seen. Qed.
End Grouping.

Lemma split_head c s : ∃ piece pieces, split c s = piece :: pieces.
Proof.
  induction s as [|a s IH]; simpl; [by eauto|].
  case_decide; [by eauto|]. destruct IH as (p & ps & ->). eauto.
Qed.

(** [created_at.split('T')[0]] is the date prefix. *)
Lemma split_T_date_prefix s : hd ""%string (split "T" s) = date_prefix s.
Proof.
  induction s as [|a s IH]; simpl; [done|].
  case_decide; [done|].
  destruct (split_head "T" s) as (p & ps & Hs). rewrite Hs in IH |- *.
  simpl in *. by rewrite IH.
Qed.

(** ** The two loops as groupings *)

Section Loops.
Context {F : Type} `{Number F} `{Summation F}.
Implicit Types (d : donation F) (ds : list (donation F)).

Lemma amount_of_convertible d : convertible d → amount_of d = Ret (amount_or_zero d).
Proof.
  unfold convertible, amount_of, amount_or_zero.
  by destruct (amount d) as [[]|].
Qed.

Lemma amount_of_malformed d w :
  amount d = Some (Malformed w) → amount_of d = Raise (float_exn w).
Proof. unfold amount_of. by intros ->. Qed.

Lemma amount_of_Ret d a : amount_of d = Ret a → convertible d ∧ a = amount_or_zero d.
Proof.
  unfold convertible, amount_of, amount_or_zero.
  destruct (amount d) as [[]|]; simpl; by intros [= <-].
Qed.

Lemma add_daily_upsert daily d :
  add_daily daily (default ""%string (created_at d)) (amount_or_zero d) =
    if decide (has_created_at d)
    then upsert (λ x : F, x) num_add daily (date_of d, amount_or_zero d)
    else daily.
Proof.
  unfold add_daily, has_created_at, date_of, upsert. simpl.
  rewrite split_T_date_prefix.
  destruct (decide (default ""%string (created_at d) ≠ ""%string)).
  - by rewrite bool_decide_eq_true_2.
  - by rewrite bool_decide_eq_false_2.
Qed.

Lemma group_dated_cons d ds daily :
  group (λ x : F, x) num_add (dated (d :: ds)) daily =
    group (λ x : F, x) num_add (dated ds)
      (if decide (has_created_at d)
       then upsert (λ x : F, x) num_add daily (date_of d, amount_or_zero d)
       else daily).
Proof. unfold dated. rewrite filter_cons. by destruct (decide (has_created_at d)). Qed.

Lemma first_loop_body_ok ids ams daily ds :
  Forall convertible ds →
  for_each first_loop_body ds (ids, ams, daily) =
    Ret (ids ++ (supporter_id <$> ds), ams ++ (amount_or_zero <$> ds),
         group (λ x : F, x) num_add (dated ds) daily).
Proof.
  intros Hds. revert ids ams daily.
  induction Hds as [|d ds Hd Hds IH]; intros ids ams daily; simpl.
  - by rewrite !app_nil_r.
  - unfold first_loop_body at 1. rewrite (amount_of_convertible d Hd). simpl.
    by rewrite IH, <-!app_assoc, add_daily_upsert, group_dated_cons.
Qed.

Lemma first_loop_body_raise st pre d post w :
  Forall convertible pre → amount d = Some (Malformed w) →
  for_each first_loop_body (pre ++ d :: post) st = Raise (float_exn w).
Proof.
  intros Hpre Hd. revert st.
  induction Hpre as [|d' pre Hd' Hpre IH]; intros [[ids ams] daily]; simpl.
  - unfold first_loop_body. by rewrite (amount_of_malformed d w Hd).
  - unfold first_loop_body at 1. rewrite (amount_of_convertible d' Hd'). simpl.
    apply IH.
Qed.

Lemma add_supporter_upsert totals sid n a :
  add_supporter totals sid n a = upsert new_supporter more_supporter totals (sid, (n, a)).
Proof. done. Qed.

Lemma second_loop_body_ok totals ds :
  Forall convertible ds →
  for_each second_loop_body ds totals =
    Ret (group new_supporter more_supporter (supporter_items ds) totals).
Proof.
  intros Hds. revert totals.
  induction Hds as [|d ds Hd Hds IH]; intros totals; simpl; [done|].
  change (second_loop_body totals d)
    with (amt ← amount_of d; Ret (add_supporter totals (supporter_id d) (name_of d) amt)).
  rewrite (amount_of_convertible d Hd). simpl.
  by rewrite IH, add_supporter_upsert.
Qed.

Lemma for_each_Ret_convertible {S} (body : S → donation F → result S) ds st st' :
  (∀ st d, (∃ e, amount_of d = Raise e) → ∃ e, body st d = Raise e) →
  for_each body ds st = Ret st' → Forall convertible ds.
Proof.
  intros Hbody. revert st. induction ds as [|d ds IH]; intros st; simpl; [done|].
  destruct (amount_of d) as [a|e] eqn:Ha.
  - apply amount_of_Ret in Ha as [Hd _].
    destruct (body st d) as [st1|]; simpl; [|done]. intros ?%IH. by constructor.
  - destruct (Hbody st d) as [e' ->]; [by eauto|]. done.
Qed.
End Loops.

(** ** What [analyze_donations] returns, and when it raises *)

Section Outcome.
Context {F : Type} `{Number F} `{Summation F}.
Implicit Types (d : donation F) (ds : list (donation F)).

Lemma first_loop_ok ds :
  Forall convertible ds →
  first_loop ds = Ret (supporter_id <$> ds, amount_or_zero <$> ds, daily_of ds).
Proof. intros Hds. unfold first_loop. by rewrite first_loop_body_ok. Qed.

Lemma second_loop_ok ds : Forall convertible ds → second_loop ds = Ret (totals_of ds).
Proof. intros Hds. unfold second_loop. by rewrite second_loop_body_ok. Qed.

Lemma second_loop_Ret ds totals :
  second_loop ds = Ret totals → Forall convertible ds ∧ totals = totals_of ds.
Proof.
  intros Hl. assert (Forall convertible ds) as Hds.
  { eapply for_each_Ret_convertible; [|exact Hl].
    intros st d [e He]. exists e.
    change (second_loop_body st d)
      with (amt ← amount_of d; Ret (add_supporter st (supporter_id d) (name_of d) amt)).
    by rewrite He. }
  split; [done|]. rewrite second_loop_ok in Hl by done. by injection Hl.
Qed.

(** The first record whose amount [float()] rejects, if any. *)
Lemma convertible_split ds :
  Forall convertible ds ∨
  ∃ pre d post w,
    ds = pre ++ d :: post ∧ Forall convertible pre ∧ amount d = Some (Malformed w).
Proof.
  induction ds as [|d ds IH]; [by left|].
  destruct (amount d) as [[x|w]|] eqn:Hd.
  2: { right. by exists [], d, ds, w. }
  all: destruct IH as [Hds|(pre & d' & post & w & -> & Hpre & Hd')];
    [left; constructor; [by unfold convertible; rewrite Hd|done]|];
    right; exists (d :: pre), d', post, w; split_and!; [done| |done];
    constructor; [by unfold convertible; rewrite Hd|done].
Qed.

Lemma analyze_donations_ok ds :
  ds ≠ [] → Forall convertible ds → analyze_donations ds = Ret (summary_of ds).
Proof.
  intros Hne Hds. unfold analyze_donations.
  destruct ds as [|d ds]; [done|].
  rewrite first_loop_ok, second_loop_ok by done. simpl.
  unfold summary_of. simpl. by rewrite length_fmap.
Qed.

Lemma analyze_donations_raise pre d post w :
  Forall convertible pre → amount d = Some (Malformed w) →
  analyze_donations (pre ++ d :: post) = Raise (float_exn w).
Proof.
  intros Hpre Hd. unfold analyze_donations.
  destruct (pre ++ d :: post) as [|d0 ds0] eqn:E; [by destruct pre|].
  rewrite <-E. unfold first_loop.
  by rewrite (first_loop_body_raise _ pre d post w).
Qed.

Lemma analyze_donations_Ret ds s :
  analyze_donations ds = Ret s →
  Forall convertible ds ∧
  (ds = [] ∧ s = Analysis 0 0 0 (num_of_int 0) (num_of_int 0) [] [] ∨
   ds ≠ [] ∧ s = summary_of ds).
Proof.
  intros Hs.
  destruct (convertible_split ds) as [Hds|(pre & d & post & w & -> & Hpre & Hd)].
  - split; [done|]. destruct ds as [|d ds].
    + left. split; [done|]. by injection Hs.
    + right. split; [done|]. rewrite analyze_donations_ok in Hs by done.
      by injection Hs.
  - by rewrite (analyze_donations_raise pre d post w) in Hs.
Qed.
End Outcome.

(** ** Binary64 order and addition

    Facts about Python's [float] that the ranking needs, read off the
    IEEE-754 specification of the primitive operations. *)

Section SpecFloat.
Local Open Scope Z_scope.
Abbreviation prec := FloatOps.prec.
Abbreviation emax := FloatOps.emax.

Lemma iter_pos_invariant {A} (f : A → A) (P : A → Prop) :
  (∀ x, P x → P (f x)) → ∀ n x, P x → P (SpecFloat.iter_pos f n x).
Proof.
  intros Hf n. induction n as [n IH|n IH|]; intros x Hx; simpl; auto.
Qed.

Lemma shr_1_nonneg mrs : (0 ≤ shr_m mrs)%Z → (0 ≤ shr_m (shr_1 mrs))%Z.
Proof.
  destruct mrs as [m r s]; simpl.
  destruct m as [|[p|p|]|[p|p|]]; simpl; lia.
Qed.

Lemma shr_nonneg mrs e n : (0 ≤ shr_m mrs)%Z → (0 ≤ shr_m (shr mrs e n).1)%Z.
Proof.
  intros Hm. destruct n as [|p|p]; simpl; auto.
  apply (iter_pos_invariant shr_1 (λ x, (0 ≤ shr_m x)%Z)); auto using shr_1_nonneg.
Qed.

Lemma shr_fexp_nonneg m e l : (0 ≤ m)%Z → (0 ≤ shr_m (shr_fexp prec emax m e l).1)%Z.
Proof.
  intros Hm. unfold shr_fexp. apply shr_nonneg.
  destruct l as [|[]]; simpl; done.
Qed.

Lemma round_nearest_even_nonneg m l : (0 ≤ m)%Z → (0 ≤ round_nearest_even m l)%Z.
Proof.
  intros Hm. destruct l as [|[]]; simpl; try lia.
  destruct (Z.even m); lia.
Qed.

(** Rounding a mantissa gives a zero, a finite number or an infinity. *)
Lemma binary_round_aux_not_nan sx m e l :
  (0 ≤ m)%Z → binary_round_aux prec emax sx m e l ≠ S754_nan.
Proof.
  intros Hm. unfold binary_round_aux.
  pose proof (shr_fexp_nonneg m e l Hm) as H1.
  destruct (shr_fexp prec emax m e l) as [mrs' e'] eqn:E1. simpl in H1.
  pose proof (shr_fexp_nonneg _ e' loc_Exact
                (round_nearest_even_nonneg _ (loc_of_shr_record mrs') H1)) as H2.
  destruct (shr_fexp prec emax (round_nearest_even _ _) e' loc_Exact) as [mrs'' e''].
  simpl in H2.
  destruct (shr_m mrs'') as [|p|p]; simpl; [done| |lia].
  by destruct (e'' <=? emax - prec).
Qed.

Lemma binary_normalize_not_nan m e :
  binary_normalize prec emax m e false ≠ S754_nan.
Proof.
  destruct m as [|p|p]; simpl; [done| |]; unfold binary_round;
    destruct (shl_align p _ _) as [mz ez]; by apply binary_round_aux_not_nan.
Qed.

(** Adding a finite number to a number gives a number (possibly an infinity,
    by overflow). *)
Lemma SFadd_not_nan x y :
  x ≠ S754_nan → SFfinite y = true → SFadd prec emax x y ≠ S754_nan.
Proof.
  destruct x as [sx|sx| |sx mx ex], y as [sy|sy| |sy my ey]; simpl; try done.
  - by destruct sx, sy.
  - intros _ _. apply binary_normalize_not_nan.
Qed.

(** The order of [SFcompare] on numbers. *)
Ltac compare_cases :=
  repeat match goal with
    | |- context [Pos.compare_cont Eq ?a ?b] =>
        change (Pos.compare_cont Eq a b) with (Pos.compare a b)
    end;
  repeat match goal with
    | |- context [Z.compare ?a ?b] => destruct (Z.compare_spec a b); simpl
    | |- context [Pos.compare ?a ?b] => destruct (Pos.compare_spec a b); simpl
    end;
  try done; try lia.

Lemma SFltb_asym x y : SFltb x y = true → SFltb y x = false.
Proof.
  unfold SFltb.
  destruct x as [sx|sx| |sx mx ex], y as [sy|sy| |sy my ey]; simpl; try done;
    try (destruct sx; try destruct sy; done).
  destruct sx, sy; try done; compare_cases.
Qed.

Lemma SFltb_negtrans x y z :
  y ≠ S754_nan → SFltb x y = false → SFltb y z = false → SFltb x z = false.
Proof.
  unfold SFltb.
  destruct x as [sx|sx| |sx mx ex], y as [sy|sy| |sy my ey], z as [sz|sz| |sz mz ez];
    simpl; try done;
    try (destruct sx; try done; destruct sy; try done; destruct sz; done);
    try (destruct sx; try done; destruct sz; done);
    try (destruct sy; try done; destruct sz; done);
    try (destruct sx; try done; destruct sy; done).
  all: intros _; destruct sx, sy, sz; try done; compare_cases.
Qed.

Lemma SFleb_of_not_ltb x y :
  x ≠ S754_nan → y ≠ S754_nan → SFltb x y = false → SFleb y x = true.
Proof.
  unfold SFltb, SFleb.
  destruct x as [sx|sx| |sx mx ex], y as [sy|sy| |sy my ey]; simpl; try done;
    try (destruct sx; try destruct sy; done).
  intros _ _. destruct sx, sy; try done; compare_cases.
Qed.

Lemma SFeqb_not_ltb x y : SFeqb x y = true → SFltb y x = false.
Proof.
  unfold SFeqb, SFltb.
  destruct x as [sx|sx| |sx mx ex], y as [sy|sy| |sy my ey]; simpl; try done;
    try (destruct sx; try destruct sy; done).
  destruct sx, sy; try done; compare_cases.
Qed.

Lemma SFleb_antisym x y : SFleb x y = true → SFleb y x = true → SFeqb x y = true.
Proof.
  unfold SFleb, SFeqb.
  destruct x as [sx|sx| |sx mx ex], y as [sy|sy| |sy my ey]; simpl; try done;
    try (destruct sx; try destruct sy; done).
  destruct sx, sy; try done; compare_cases.
Qed.
End SpecFloat.

Lemma finite_spec x : finite x → SFfinite (Prim2SF x) = true.
Proof.
  unfold finite, PrimFloat.is_finite, PrimFloat.is_nan, PrimFloat.is_infinity.
  rewrite !FloatAxioms.eqb_spec, abs_spec.
  change (Prim2SF infinity) with (S754_infinity false).
  destruct (Prim2SF x) as [s|s| |s m e]; try done. by destruct s.
Qed.

Lemma finite_is_number x : finite x → is_number x.
Proof. intros Hx%finite_spec. unfold is_number. by destruct (Prim2SF x). Qed.

Lemma add_is_number x y : is_number x → finite y → is_number (x + y).
Proof.
  unfold is_number. intros Hx Hy%finite_spec. rewrite FloatAxioms.add_spec.
  by apply SFadd_not_nan.
Qed.

(** A running sum of finite amounts is never NaN. *)
Lemma fold_add_is_number xs x :
  is_number x → Forall finite xs → is_number (fold_left PrimFloat.add xs x).
Proof.
  intros Hx Hxs. revert x Hx.
  induction Hxs as [|y xs Hy Hxs IH]; intros x Hx; simpl; [done|].
  by apply IH, add_is_number.
Qed.

Lemma ltb_asym x y : PrimFloat.ltb x y = true → PrimFloat.ltb y x = false.
Proof. rewrite !FloatAxioms.ltb_spec. apply SFltb_asym. Qed.

Lemma ltb_negtrans x y z :
  is_number y →
  PrimFloat.ltb x y = false → PrimFloat.ltb y z = false → PrimFloat.ltb x z = false.
Proof. intros Hy. rewrite !FloatAxioms.ltb_spec. by apply SFltb_negtrans. Qed.

Lemma leb_of_not_ltb x y :
  is_number x → is_number y → PrimFloat.ltb x y = false → PrimFloat.leb y x = true.
Proof.
  intros Hx Hy. rewrite FloatAxioms.ltb_spec, FloatAxioms.leb_spec.
  by apply SFleb_of_not_ltb.
Qed.

Lemma eqb_not_ltb x y : PrimFloat.eqb x y = true → PrimFloat.ltb y x = false.
Proof. rewrite FloatAxioms.eqb_spec, FloatAxioms.ltb_spec. apply SFeqb_not_ltb. Qed.

Lemma leb_antisym x y :
  PrimFloat.leb x y = true → PrimFloat.leb y x = true → PrimFloat.eqb x y = true.
Proof. rewrite !FloatAxioms.leb_spec, FloatAxioms.eqb_spec. apply SFleb_antisym. Qed.

(** ** The stable descending sort *)

Section SortFacts.
Context {F : Type} `{Number F} {A : Type} (key : A → F).

Lemma insert_desc_Permutation x l : insert_desc key x l ≡ₚ x :: l.
Proof.
  induction l as [|y l IH]; simpl; [done|].
  destruct (num_lt (key x) (key y)); [|done].
  rewrite IH. apply Permutation_swap.
Qed.

Lemma sorted_reverse_Permutation l : sorted_reverse key l ≡ₚ l.
Proof.
  induction l as [|x l IH]; simpl; [done|].
  by rewrite insert_desc_Permutation, IH.
Qed.

(** Stability: the sort lets [x] pass in front of [y] only when the key of
    [x] is greater. *)
Lemma insert_desc_pair x y a s :
  [x; y] `sublist_of` insert_desc key a s →
  num_lt (key y) (key x) = false →
  [x; y] `sublist_of` s ∨ (x = a ∧ y ∈ s).
Proof.
  intros Hs Hxy. induction s as [|b s IH]; simpl in Hs.
  - apply sublist_length in Hs. simpl in Hs. lia.
  - destruct (num_lt (key a) (key b)) eqn:Hab.
    + apply sublist_cons_r in Hs as [Hs|(l' & [= <- <-] & Hs)].
      * destruct (IH Hs) as [?|[-> ?]].
        -- left. by apply sublist_cons.
        -- right. split; [done|]. by apply list_elem_of_further.
      * apply singleton_sublist_l in Hs.
        rewrite insert_desc_Permutation in Hs.
        apply elem_of_cons in Hs as [->|Hin]; [congruence|].
        left. by apply sublist_skip, singleton_sublist_l.
    + apply sublist_cons_r in Hs as [Hs|(l' & [= <- <-] & Hs)]; [by left|].
      right. split; [done|]. by apply singleton_sublist_l.
Qed.

Lemma sorted_reverse_stable l x y :
  [x; y] `sublist_of` sorted_reverse key l →
  num_lt (key y) (key x) = false →
  [x; y] `sublist_of` l.
Proof.
  intros Hs Hxy. revert Hs. induction l as [|a l IH]; simpl; [done|].
  intros Hs. destruct (insert_desc_pair _ _ _ _ Hs Hxy) as [Hs'|[-> Hin]].
  - by apply sublist_cons, IH.
  - rewrite sorted_reverse_Permutation in Hin.
    by apply sublist_skip, singleton_sublist_l.
Qed.

(** Order: on keys that [<] orders totally, nothing is followed by a
    greater key. *)
Context (P : F → Prop).
Hypothesis lt_asym : ∀ x y, num_lt x y = true → num_lt y x = false.
Hypothesis lt_negtrans :
  ∀ x y z, P y → num_lt x y = false → num_lt y z = false → num_lt x z = false.

Lemma insert_desc_sorted x l :
  Forall (λ a, P (key a)) l →
  StronglySorted (not_below key) l → StronglySorted (not_below key) (insert_desc key x l).
Proof.
  intros HP Hl. induction Hl as [|y l Hl IH Hy]; simpl.
  - repeat constructor.
  - apply Forall_cons in HP as [HPy HP].
    destruct (num_lt (key x) (key y)) eqn:Hxy.
    + constructor; [by apply IH|].
      rewrite insert_desc_Permutation. constructor; [|done].
      by apply lt_asym.
    + constructor; [by constructor|]. constructor; [done|].
      eapply Forall_impl; [exact Hy|]. intros z Hz. by eapply lt_negtrans.
Qed.

Lemma sorted_reverse_sorted l :
  Forall (λ a, P (key a)) l → StronglySorted (not_below key) (sorted_reverse key l).
Proof.
  induction 1 as [|x l Hx Hl IH]; simpl; [constructor|].
  apply insert_desc_sorted; [|done].
  by rewrite sorted_reverse_Permutation.
Qed.
End SortFacts.

(** A list is strongly sorted when every pair in list order is related. *)
Lemma StronglySorted_pairs {A} (R : A → A → Prop) l :
  StronglySorted R l ↔ ∀ x y, [x; y] `sublist_of` l → R x y.
Proof.
  split.
  - induction 1 as [|a l Hl IH Ha]; intros x y Hs.
    + apply sublist_length in Hs. simpl in Hs. lia.
    + apply sublist_cons_r in Hs as [Hs|(l' & [= <- <-] & Hs)]; [by apply IH|].
      apply singleton_sublist_l in Hs. by eapply Forall_forall in Ha.
  - induction l as [|a l IH]; intros HR; constructor.
    + apply IH. intros x y Hs. by apply HR, sublist_cons.
    + apply Forall_forall. intros y Hy.
      by apply HR, sublist_skip, singleton_sublist_l.
Qed.

(** ** What the dictionaries hold *)

Lemma filter_fmap {A B} (f : A → B) (P : B → Prop) `{!∀ y, Decision (P y)} (l : list A) :
  filter P (f <$> l) = f <$> filter (λ x, P (f x)) l.
Proof.
  induction l as [|x l IH]; csimpl; [done|].
  rewrite !filter_cons. simpl. case_decide; csimpl; by rewrite IH.
Qed.

Section Aggregates.
Context {F : Type} `{Number F}.
Implicit Types (d : donation F) (ds : list (donation F)).

Lemma dict_keys_daily_of ds :
  dict_keys (daily_of ds) = first_seen (date_of <$> filter has_created_at ds).
Proof.
  unfold daily_of. rewrite dict_keys_group. unfold dated.
  by rewrite <-list_fmap_compose.
Qed.

Lemma dict_get_daily_of date ds :
  dict_get date (daily_of ds) = running_sum (amount_or_zero <$> records_on date ds).
Proof.
  unfold daily_of. rewrite dict_get_group. unfold dated, records_on.
  rewrite (filter_fmap _ (λ kx : string * F, kx.1 = date)), <-list_fmap_compose. simpl.
  by destruct (filter _ _).
Qed.

Lemma dict_keys_totals_of ds :
  dict_keys (totals_of ds) = first_seen (supporter_id <$> ds).
Proof.
  unfold totals_of. rewrite dict_keys_group. unfold supporter_items.
  by rewrite <-list_fmap_compose.
Qed.

Lemma fold_more_supporter (xs : list (string * F)) data :
  fold_left more_supporter xs data =
    SupporterData (name data) (fold_left num_add xs.*2 (total data))
      (count data + length xs).
Proof.
  revert data. induction xs as [|x xs IH]; intros data; csimpl.
  - destruct data. simpl. f_equal. lia.
  - rewrite IH. simpl. f_equal. lia.
Qed.

Lemma dict_get_totals_of sid ds :
  dict_get sid (totals_of ds) =
    match records_of sid ds with
    | [] => None
    | d :: rest =>
        Some (SupporterData (name_of d)
                (fold_left num_add (amount_or_zero <$> rest) (amount_or_zero d))
                (S (length rest)))
    end.
Proof.
  unfold totals_of. rewrite dict_get_group. unfold supporter_items, records_of.
  rewrite (filter_fmap _ (λ kx : option ident * (string * F), kx.1 = sid)). simpl.
  destruct (filter _ ds) as [|d rest]; csimpl; [done|].
  rewrite fold_more_supporter. simpl.
  by rewrite <-!list_fmap_compose, length_fmap.
Qed.

Lemma length_totals_of ds :
  length (totals_of ds) = size (list_to_set (supporter_id <$> ds) : gset (option ident)).
Proof.
  rewrite size_list_to_set_first_seen, <-dict_keys_totals_of.
  unfold dict_keys. by rewrite length_fmap.
Qed.
End Aggregates.

(** * The specification's claims *)

(** ** Counts *)

(** C9: on the empty sequence the analysis returns the summary whose five
    scalar fields are zero, with no top supporter and no daily revenue. *)
Theorem analyze_empty `{Summation float} :
  analyze_donations [] = Ret (Analysis 0 0 0 0%float 0%float [] []).
Proof. reflexivity. Qed.

(** C7: [total_supporters] is the number of records processed, the same
    number as [total_donations]; it does not count distinct supporters. *)
Theorem total_supporters_counts_records {F : Type} `{Number F} `{Summation F}
    (ds : list (donation F)) (s : analysis F) :
  analyze_donations ds = Ret s →
  total_supporters s = length ds ∧ total_donations s = length ds.
Proof.
  intros [_ [[-> ->]|[_ ->]]]%analyze_donations_Ret; done.
Qed.

Lemma total_supporters_counts_records_witness :
  total_supporters january_summary = length january ∧
  total_donations january_summary = length january.
Proof.
  apply (total_supporters_counts_records january january_summary).
  vm_compute. reflexivity.
Defined.

(** C6: [unique_supporters] never exceeds [total_supporters], and the two are
    equal exactly when no two records carry the same [supporter_id] (a
    missing identifier counting as one value). *)
Theorem unique_supporters_le_total {F : Type} `{Number F} `{Summation F}
    (ds : list (donation F)) (s : analysis F) :
  analyze_donations ds = Ret s →
  unique_supporters s ≤ total_supporters s ∧
  (unique_supporters s = total_supporters s ↔ NoDup (supporter_id <$> ds)).
Proof.
  intros [_ [[-> ->]|[_ ->]]]%analyze_donations_Ret; simpl.
  - split; [done|]. split; [constructor|done].
  - rewrite size_list_to_set_first_seen.
    rewrite <-(length_fmap supporter_id ds).
    split; [apply length_first_seen_le|apply length_first_seen_eq].
Qed.

Lemma unique_supporters_le_total_witness :
  unique_supporters january_summary ≤ total_supporters january_summary ∧
  (unique_supporters january_summary = total_supporters january_summary ↔
   NoDup (supporter_id <$> january)).
Proof.
  apply (unique_supporters_le_total january january_summary).
  vm_compute. reflexivity.
Defined.

(** C8: the analysis never raises [ZeroDivisionError]: [average_donation] is
    [total_revenue / total_donations] when there is a donation, and zero when
    there is none. *)
Theorem average_donation_guarded {F : Type} `{Number F} `{Summation F}
    (ds : list (donation F)) :
  analyze_donations ds ≠ Raise ZeroDivisionError ∧
  ∀ s, analyze_donations ds = Ret s →
    average_donation s =
      if decide (0 < total_donations s)
      then num_div (total_revenue s) (num_of_int (Z.of_nat (total_donations s)))
      else num_of_int 0.
Proof.
  split.
  - destruct (convertible_split ds) as [Hds|(pre & d & post & w & -> & Hpre & Hd)].
    + destruct ds as [|d ds]; [done|]. by rewrite analyze_donations_ok.
    + rewrite (analyze_donations_raise pre d post w) by done. by destruct w.
  - intros s [_ [[-> ->]|[Hne ->]]]%analyze_donations_Ret; simpl; [done|].
    rewrite decide_True; [done|]. destruct ds; simpl; [done|lia].
Qed.

Lemma average_donation_guarded_witness :
  analyze_donations january ≠ Raise ZeroDivisionError ∧
  average_donation january_summary = (180 / 3)%float.
Proof.
  destruct (average_donation_guarded january) as [Hguard Havg].
  split; [exact Hguard|].
  apply (Havg january_summary). vm_compute. reflexivity.
Defined.

(** ** Daily revenue *)

(** C4, as stated, fails: a record is not filed when its [created_at] is
    the empty string, though it has one.  Of the two records of [empty_stamp] the first is
    filed under the empty date; the second, whose date prefix is the same, is
    left out of the sum. *)
Lemma empty_created_at_is_skipped :
  ∃ s : analysis float,
    analyze_donations empty_stamp = Ret s ∧
    daily_revenue s = [(""%string, 1%float)] ∧
    running_sum (amount_or_zero <$> records_stamped "" empty_stamp) = Some 3%float.
Proof. eexists. split; [vm_compute; reflexivity|]. split; reflexivity. Qed.

(** C4, amended: the keys of [daily_revenue] are the distinct date prefixes
    of the records that carry a timestamp, a [created_at] that is a string and
    not empty, in the order in which the input first shows them, and the value of a date is the sum, in input order, of the
    amounts of the records of that date. *)
Theorem daily_revenue_by_date {F : Type} `{Number F} `{Summation F}
    (ds : list (donation F)) (s : analysis F) :
  analyze_donations ds = Ret s →
  dict_keys (daily_revenue s) = first_seen (date_of <$> filter has_created_at ds) ∧
  ∀ date v,
    (date, v) ∈ daily_revenue s ↔
    running_sum (amount_or_zero <$> records_on date ds) = Some v.
Proof.
  intros Hs.
  assert (daily_revenue s = daily_of ds) as ->.
  { by apply analyze_donations_Ret in Hs as [_ [[-> ->]|[_ ->]]]. }
  split; [apply dict_keys_daily_of|].
  intros date v. rewrite <-dict_get_daily_of. split.
  - apply dict_get_elem_of, NoDup_dict_keys_group.
  - apply dict_get_Some.
Qed.

Lemma daily_revenue_by_date_witness :
  dict_keys (daily_revenue january_summary) =
    first_seen (date_of <$> filter has_created_at january) ∧
  ∀ date v,
    (date, v) ∈ daily_revenue january_summary ↔
    running_sum (amount_or_zero <$> records_on date january) = Some v.
Proof.
  apply (daily_revenue_by_date january january_summary).
  vm_compute. reflexivity.
Defined.

(** ** Supporter aggregates *)

Section OptionKeys.
Context {K : Type} `{EqDecision K}.

Lemma length_first_seen_option (l : list (option K)) :
  length (first_seen l) =
    length (first_seen (omap id l)) + (if decide (None ∈ l) then 1 else 0).
Proof.
  induction l as [|x l IH] using rev_ind; [done|].
  rewrite first_seen_snoc, omap_app.
  assert (∀ k, Some k ∈ l ↔ k ∈ omap id l) as Hsome.
  { intros k. rewrite list_elem_of_omap. split; [by eauto|].
    by intros ([k'|] & ? & [= ->]). }
  destruct x as [k|]; csimpl.
  - rewrite first_seen_snoc.
    destruct (decide (None ∈ l ++ [Some k])) as [Hn|Hn],
        (decide (None ∈ l)) as [Hn'|Hn'];
      rewrite ?elem_of_app, ?list_elem_of_singleton in Hn; try (exfalso; intuition congruence).
    all: destruct (decide (Some k ∈ l)) as [Hk|Hk], (decide (k ∈ omap id l)) as [Hk'|Hk'];
      try (exfalso; apply Hsome in Hk || apply Hsome in Hk'; done);
      rewrite ?length_app; simpl; lia.
  - rewrite app_nil_r.
    rewrite (decide_True (P := None ∈ l ++ [None]))
      by (apply elem_of_app; right; apply list_elem_of_here).
    destruct (decide (None ∈ l)); rewrite ?length_app; simpl; lia.
Qed.

Lemma omap_id_fmap {A} (f : A → option K) (l : list A) : omap id (f <$> l) = omap f l.
Proof. induction l as [|x l IH]; csimpl; [done|]. rewrite IH. by destruct (f x). Qed.

Lemma length_filter_key {V} (k : K) `{!∀ x : K * V, Decision (x.1 = k)}
    (d : list (K * V)) :
  NoDup d.*1 → length (filter (λ x, x.1 = k) d) ≤ 1.
Proof.
  induction d as [|[k' v] d IH]; csimpl; [lia|].
  intros [Hk' Hd]%NoDup_cons. rewrite filter_cons. simpl.
  case_decide as Hk; [|by apply IH]. subst k'. simpl.
  assert (filter (λ x : K * V, x.1 = k) d = []) as ->; [|simpl; lia].
  apply elem_of_nil_inv. intros [k0 v0] [Hk0 Hin]%list_elem_of_filter.
  simpl in Hk0. subst k0. apply Hk'. by apply (list_elem_of_fmap_2 fst) in Hin.
Qed.
End OptionKeys.

(** What [supporter_totals.items()] becomes on its way into [top_supporters]. *)
Lemma ranked_in_totals {F : Type} `{Number F}
    (totals : list (option ident * supporter_data F)) n x :
  x ∈ take n (sort_supporters totals) → x ∈ totals.
Proof.
  intros Hx. eapply elem_of_sublist in Hx; [|apply sublist_take].
  unfold sort_supporters in Hx. by rewrite sorted_reverse_Permutation in Hx.
Qed.

Lemma ranked_keys_NoDup {F : Type} `{Number F}
    (totals : list (option ident * supporter_data F)) n :
  NoDup totals.*1 → NoDup (take n (sort_supporters totals)).*1.
Proof.
  intros Hnd. eapply sublist_NoDup; [|apply fmap_sublist, sublist_take].
  unfold sort_supporters. by rewrite sorted_reverse_Permutation.
Qed.

(** What the second loop holds for a supporter: the aggregate of its
    records, all of them, and nothing for a supporter without records. *)
Lemma elem_of_totals_of {F : Type} `{Number F} (ds : list (donation F))
    (sid : option ident) (data : supporter_data F) :
  (sid, data) ∈ totals_of ds ↔
  ∃ d rest,
    records_of sid ds = d :: rest ∧
    data = SupporterData (name_of d)
             (fold_left num_add (amount_or_zero <$> rest) (amount_or_zero d))
             (S (length rest)).
Proof.
  split.
  - intros Hin. apply dict_get_elem_of in Hin; [|apply NoDup_dict_keys_group].
    rewrite dict_get_totals_of in Hin.
    destruct (records_of sid ds) as [|d rest]; [done|].
    injection Hin as <-. by exists d, rest.
  - intros (d & rest & Hrec & ->). apply dict_get_Some.
    by rewrite dict_get_totals_of, Hrec.
Qed.

(** C10: the records without a [supporter_id] are one supporter, the key
    [None].  They add exactly one to [unique_supporters].  The second loop
    holds one aggregate for every supporter with a record, [None] among them,
    built from all the records of that supporter and from no other: the name
    of the first, the sum of their amounts, their number.  At most one element
    of [top_supporters] stands for [None]; it carries that sum and that
    number, and it is there whenever there are no more than ten supporters. *)
Theorem missing_supporter_id_shared {F : Type} `{Number F} `{Summation F}
    (ds : list (donation F)) (s : analysis F) :
  analyze_donations ds = Ret s →
  unique_supporters s =
    size (list_to_set (omap supporter_id ds) : gset ident) +
    (match records_of None ds with [] => 0 | _ :: _ => 1 end) ∧
  ∃ totals,
    second_loop ds = Ret totals ∧
    top_supporters s = top_entry <$> take 10 (sort_supporters totals) ∧
    (∀ sid data,
       (sid, data) ∈ totals ↔
       ∃ d rest,
         records_of sid ds = d :: rest ∧
         data = SupporterData (name_of d)
                  (fold_left num_add (amount_or_zero <$> rest) (amount_or_zero d))
                  (S (length rest))) ∧
    length (filter (λ x, x.1 = None) totals) =
      (match records_of None ds with [] => 0 | _ :: _ => 1 end) ∧
    length (filter (λ x, x.1 = None) (take 10 (sort_supporters totals))) ≤ 1 ∧
    (∀ data, (None, data) ∈ take 10 (sort_supporters totals) →
       running_sum (amount_or_zero <$> records_of None ds) = Some (total data) ∧
       count data = length (records_of None ds)) ∧
    (length totals ≤ 10 →
     ∀ data, (None, data) ∈ totals → (None, data) ∈ take 10 (sort_supporters totals)).
Proof.
  intros Hs. apply analyze_donations_Ret in Hs as [Hds Hs]. split.
  - assert (unique_supporters s =
            size (list_to_set (supporter_id <$> ds) : gset (option ident))) as ->.
    { by destruct Hs as [[-> ->]|[_ ->]]. }
    rewrite !size_list_to_set_first_seen, length_first_seen_option.
    rewrite omap_id_fmap. f_equal.
    unfold records_of. clear. induction ds as [|d ds IH]; [done|].
    rewrite filter_cons. csimpl. destruct (supporter_id d) as [k|] eqn:Hd.
    + rewrite (decide_False (P := Some k = None)) by done. rewrite <-IH.
      destruct (decide (None ∈ supporter_id <$> ds)) as [Hin|Hin].
      * by rewrite decide_True by by apply list_elem_of_further.
      * by rewrite decide_False by (rewrite elem_of_cons; intuition congruence).
    + rewrite (decide_True (P := None = None)) by done.
      by rewrite decide_True by apply list_elem_of_here.
  - exists (totals_of ds). split; [by apply second_loop_ok|].
    split; [by destruct Hs as [[-> ->]|[_ ->]]|].
    assert (NoDup (dict_keys (totals_of ds))) as Hnd
      by apply NoDup_dict_keys_group.
    split; [apply elem_of_totals_of|]. split; [|split; [|split]].
    + pose proof (length_filter_key (V := supporter_data F) None (totals_of ds) Hnd)
        as Hle.
      destruct (records_of None ds) as [|d rest] eqn:Hrec.
      * destruct (filter (λ x, x.1 = None) (totals_of ds)) as [|[sid data] l] eqn:Hf;
          [done|].
        assert ((sid, data) ∈ filter (λ x, x.1 = None) (totals_of ds)) as Hin
          by (rewrite Hf; apply list_elem_of_here).
        apply list_elem_of_filter in Hin as [Hsid Hin]. simpl in Hsid. subst sid.
        apply elem_of_totals_of in Hin as (d & rest & Hrec' & _). congruence.
      * assert ((None, SupporterData (name_of d)
                         (fold_left num_add (amount_or_zero <$> rest) (amount_or_zero d))
                         (S (length rest)))
                ∈ filter (λ x : option ident * supporter_data F, x.1 = None) (totals_of ds))
          as Hin.
        { apply list_elem_of_filter. split; [done|]. apply elem_of_totals_of. eauto. }
        destruct (filter (λ x, x.1 = None) (totals_of ds)) as [|x [|y l]];
          [by apply elem_of_nil in Hin|done|simpl in Hle; lia].
    + by apply length_filter_key, ranked_keys_NoDup.
    + intros data Hin%ranked_in_totals.
      apply (dict_get_elem_of _ _ _ Hnd) in Hin.
      rewrite dict_get_totals_of in Hin.
      destruct (records_of None ds) as [|d rest]; [done|].
      injection Hin as <-. by csimpl.
    + intros Hfew data Hin. rewrite take_ge.
      * unfold sort_supporters. by rewrite sorted_reverse_Permutation.
      * unfold sort_supporters. by rewrite sorted_reverse_Permutation.
Qed.

Lemma missing_supporter_id_shared_witness :
  unique_supporters anonymous_summary =
    size (list_to_set (omap supporter_id anonymous) : gset ident) +
    (match records_of None anonymous with [] => 0 | _ :: _ => 1 end) ∧
  ∃ totals,
    second_loop anonymous = Ret totals ∧
    top_supporters anonymous_summary = top_entry <$> take 10 (sort_supporters totals) ∧
    (∀ sid data,
       (sid, data) ∈ totals ↔
       ∃ d rest,
         records_of sid anonymous = d :: rest ∧
         data = SupporterData (name_of d)
                  (fold_left num_add (amount_or_zero <$> rest) (amount_or_zero d))
                  (S (length rest))) ∧
    length (filter (λ x, x.1 = None) totals) =
      (match records_of None anonymous with [] => 0 | _ :: _ => 1 end) ∧
    length (filter (λ x, x.1 = None) (take 10 (sort_supporters totals))) ≤ 1 ∧
    (∀ data, (None, data) ∈ take 10 (sort_supporters totals) →
       running_sum (amount_or_zero <$> records_of None anonymous) = Some (total data) ∧
       count data = length (records_of None anonymous)) ∧
    (length totals ≤ 10 →
     ∀ data, (None, data) ∈ totals → (None, data) ∈ take 10 (sort_supporters totals)).
Proof.
  apply (missing_supporter_id_shared anonymous anonymous_summary).
  vm_compute. reflexivity.
Defined.

(** C2, as stated, fails: the name is fixed by the first record of the
    supporter, also when that record has no name and a later one has. *)
Lemma later_name_is_ignored :
  second_loop renamed = Ret [(Some (IdInt 1), SupporterData "Supporter 1" 25%float 2)] ∧
  analyze_donations renamed = Ret renamed_summary ∧
  first_given_name (Some (IdInt 1)) renamed = "Alice"%string.
Proof. vm_compute. done. Qed.

(** C2, amended: the name of a supporter aggregate is the [supporter_name] of
    the first record with that id, the placeholder ["Supporter {id}"] when
    that record has none; no later record changes it. *)
Theorem supporter_name_of_first_record {F : Type} `{Number F}
    (ds : list (donation F)) totals sid data :
  second_loop ds = Ret totals →
  dict_get sid totals = Some data →
  (∃ d rest, records_of sid ds = d :: rest ∧ name data = name_of d) ∧
  ∀ later totals',
    second_loop (ds ++ later) = Ret totals' →
    ∃ data', dict_get sid totals' = Some data' ∧ name data' = name data.
Proof.
  intros [_ ->]%second_loop_Ret. rewrite dict_get_totals_of.
  destruct (records_of sid ds) as [|d rest] eqn:Hrec; [done|]. intros [= <-].
  split; [by eauto|].
  intros later totals' [_ ->]%second_loop_Ret. rewrite dict_get_totals_of.
  unfold records_of in *. rewrite filter_app, Hrec. simpl. eauto.
Qed.

Lemma supporter_name_of_first_record_witness :
  (∃ d rest, records_of (Some (IdInt 1)) renamed = d :: rest ∧
             "Supporter 1"%string = name_of d) ∧
  ∀ later totals',
    second_loop (renamed ++ later) = Ret totals' →
    ∃ data', dict_get (Some (IdInt 1)) totals' = Some data' ∧
             name data' = "Supporter 1"%string.
Proof.
  apply (supporter_name_of_first_record renamed
           [(Some (IdInt 1), SupporterData "Supporter 1" 25%float 2)]
           (Some (IdInt 1)) (SupporterData "Supporter 1" 25%float 2)).
  - vm_compute. reflexivity.
  - vm_compute. reflexivity.
Defined.

(** ** Malformed and missing amounts *)

Lemma for_each_fmap {A B S} (g : A → B) (body : S → B → result S) body' l st :
  (∀ st x, body st (g x) = body' st x) →
  for_each body (g <$> l) st = for_each body' l st.
Proof.
  intros Hg. revert st. induction l as [|x l IH]; intros st; csimpl; [done|].
  rewrite Hg. destruct (body' st x); simpl; [apply IH|done].
Qed.

Lemma analyze_donations_zero_absent {F : Type} `{Number F} `{Summation F}
    (ds : list (donation F)) :
  analyze_donations (zero_absent <$> ds) = analyze_donations ds.
Proof.
  unfold analyze_donations, first_loop, second_loop.
  rewrite (for_each_fmap zero_absent first_loop_body first_loop_body).
  2: { intros [[ids ams] daily] d. unfold first_loop_body, amount_of. simpl.
       by destruct (amount d). }
  rewrite (for_each_fmap zero_absent second_loop_body second_loop_body).
  2: { intros st d. unfold second_loop_body, amount_of, name_of. simpl.
       by destruct (amount d). }
  rewrite length_fmap. by destruct ds.
Qed.

(** C1, as stated, fails: an amount that is not a number is not read as
    zero, [float()] raises and the analysis ends with that exception. *)
Lemma non_numeric_amount_raises : analyze_donations garbled = Raise ValueError.
Proof. reflexivity. Qed.

(** C1, amended: a record without an amount is processed as if its amount
    were zero.  The analysis returns a summary when every amount that is
    present converts with [float()]; otherwise it raises the exception of the
    first amount that does not ([ValueError] for a non-numeric string,
    [TypeError] for [null], a list or an object). *)
Theorem missing_amount_is_zero_malformed_raises {F : Type} `{Number F} `{Summation F}
    (ds : list (donation F)) :
  analyze_donations (zero_absent <$> ds) = analyze_donations ds ∧
  (Forall convertible ds → ∃ s, analyze_donations ds = Ret s) ∧
  (∀ pre d post w,
     ds = pre ++ d :: post → Forall convertible pre → amount d = Some (Malformed w) →
     analyze_donations ds = Raise (float_exn w)).
Proof.
  split; [apply analyze_donations_zero_absent|]. split.
  - intros Hds. destruct ds as [|d ds]; [by eexists|].
    eexists. by apply analyze_donations_ok.
  - intros pre d post w -> Hpre Hd. by apply analyze_donations_raise.
Qed.

Lemma missing_amount_is_zero_malformed_raises_witness :
  analyze_donations (zero_absent <$> anonymous) = analyze_donations anonymous ∧
  (∃ s, analyze_donations anonymous = Ret s) ∧
  analyze_donations (anonymous ++ garbled) = Raise ValueError.
Proof.
  split; [apply (missing_amount_is_zero_malformed_raises anonymous)|]. split.
  - apply (missing_amount_is_zero_malformed_raises anonymous).
    repeat constructor.
  - eapply (missing_amount_is_zero_malformed_raises (anonymous ++ garbled))
      with (w := NotNumeric); [reflexivity| |reflexivity].
    repeat constructor.
Defined.

(** ** Total revenue against daily revenue *)

(** C5, as stated, fails on floats: every record has a timestamp, yet
    [total_revenue] is 1.3 and the daily values 1.2000000000000002 and 0.1
    sum to 1.3000000000000003.  This is so under the left-to-right [sum] and
    under the compensated [sum] of Python 3.12 alike: the daily values are
    accumulated with [+=] whichever [sum] adds them up. *)
Lemma rounding_separates_revenue_from_daily :
  Forall has_created_at cents ∧
  (∃ s, analyze_donations cents = Ret s ∧
        daily_revenue s =
          [("2023-03-01", 1.2000000000000002%float); ("2023-03-02", 0.1%float)]%string ∧
        total_revenue s = 1.3%float ∧
        py_sum (dict_values (daily_revenue s)) = 1.3000000000000003%float ∧
        PrimFloat.eqb (total_revenue s) (py_sum (dict_values (daily_revenue s))) = false) ∧
  (∃ s, analyze_donations (H0 := sum_compensated) cents = Ret s ∧
        total_revenue s = 1.3%float ∧
        sum_compensated (dict_values (daily_revenue s)) = 1.3000000000000003%float).
Proof.
  split; [by repeat constructor|]. split.
  - eexists. split; [vm_compute; reflexivity|]. simpl. by vm_compute.
  - eexists. split; [vm_compute; reflexivity|]. simpl. by vm_compute.
Qed.

Lemma upsert_cons {K V X} `{EqDecision K} (ins : X → V) (upd : V → X → V)
    (k' : K) v' d (kx : K * X) :
  upsert ins upd ((k', v') :: d) kx =
    if decide (kx.1 = k') then (kx.1, upd v' kx.2) :: d
    else (k', v') :: upsert ins upd d kx.
Proof.
  unfold upsert. simpl. destruct (decide (kx.1 = k')) as [Heq|Hne]; simpl.
  - by destruct (decide (kx.1 = k')).
  - by destruct (dict_get kx.1 d); simpl; destruct (decide (kx.1 = k')).
Qed.

(** ** Whole amounts *)

Section Whole.
Implicit Types (zs : list Z) (ds : list (donation Z)).

Lemma exact_check_spec bound : exact_check bound = true → exact_up_to bound.
Proof.
  unfold exact_check, exact_up_to. cbv zeta. intros Hcheck a b Hab.
  rewrite forallb_forall in Hcheck.
  assert (∀ z, (Z.abs z ≤ bound)%Z → In z (seqZ (- bound) (2 * bound + 1))) as Hrange.
  { intros z Hz. apply list_elem_of_In, elem_of_seqZ. lia. }
  specialize (Hcheck a (Hrange a ltac:(lia))). rewrite forallb_forall in Hcheck.
  specialize (Hcheck b (Hrange b ltac:(lia))).
  rewrite (proj2 (Z.leb_le _ _) Hab) in Hcheck. simpl in Hcheck.
  by apply FloatAxioms.Leibniz.eqb_spec.
Qed.

Lemma exact_up_to_mono bound bound' :
  (bound' ≤ bound)%Z → exact_up_to bound → exact_up_to bound'.
Proof. intros Hle Hexact a b Hab. apply Hexact. lia. Qed.

Lemma abs_sum_nonneg zs : (0 ≤ abs_sum zs)%Z.
Proof. induction zs as [|z zs IH]; simpl; lia. Qed.

Lemma abs_sum_app zs zs' : abs_sum (zs ++ zs') = (abs_sum zs + abs_sum zs')%Z.
Proof. induction zs as [|z zs IH]; simpl; lia. Qed.

Lemma abs_sum_Permutation zs zs' : zs ≡ₚ zs' → abs_sum zs = abs_sum zs'.
Proof. induction 1; simpl; lia. Qed.

Lemma sum_Z_Permutation zs zs' : zs ≡ₚ zs' → sum_Z zs = sum_Z zs'.
Proof. induction 1; simpl; lia. Qed.

Lemma abs_sum_Z_le zs : (Z.abs (sum_Z zs) ≤ abs_sum zs)%Z.
Proof. induction zs as [|z zs IH]; simpl; lia. Qed.

(** A float sum of whole numbers within the bound is their sum. *)
Lemma fold_add_whole bound zs z0 :
  exact_up_to bound → (Z.abs z0 + abs_sum zs ≤ bound)%Z →
  fold_left PrimFloat.add (float_of_int <$> zs) (float_of_int z0) =
    float_of_int (z0 + sum_Z zs).
Proof.
  intros Hexact. revert z0. induction zs as [|z zs IH]; intros z0 Hbound; simpl in *.
  - by rewrite Z.add_0_r.
  - pose proof (abs_sum_nonneg zs). rewrite Hexact by lia. rewrite IH by lia.
    f_equal. lia.
Qed.

Lemma py_sum_whole bound zs :
  exact_up_to bound → (abs_sum zs ≤ bound)%Z →
  py_sum (float_of_int <$> zs) = float_of_int (sum_Z zs).
Proof.
  intros Hexact Hbound. unfold py_sum, sum_left_to_right.
  change (num_of_int 0) with (float_of_int 0).
  by rewrite (fold_add_whole bound) by (done || simpl; lia).
Qed.

Lemma py_sum_whole_Permutation bound (l : list float) zs :
  exact_up_to bound → (abs_sum zs ≤ bound)%Z →
  l ≡ₚ float_of_int <$> zs → py_sum l = float_of_int (sum_Z zs).
Proof.
  intros Hexact Hbound Hperm.
  apply Permutation.Permutation_map_inv in Hperm as (zs' & -> & Hzs).
  rewrite (py_sum_whole bound); [by rewrite (sum_Z_Permutation _ _ Hzs)|done|].
  by rewrite <-(abs_sum_Permutation _ _ Hzs).
Qed.

Lemma amount_or_zero_of_whole (d : donation Z) :
  amount_or_zero (of_whole d) = float_of_int (whole_amount d).
Proof. unfold amount_or_zero, of_whole, whole_amount. by destruct (amount d) as [[]|]. Qed.

End Whole.

(** *** Grouping whole amounts

    A group-and-accumulate loop over floats follows the same loop over whole
    numbers, step by step, as long as the additions stay within the bound. *)

Section GroupWhole.
Context {K VZ XZ VF XF : Type} `{EqDecision K}.
Context (value : VZ → Z) (amount : XZ → Z) (fv : VZ → VF) (fx : XZ → XF).
Context (insZ : XZ → VZ) (updZ : VZ → XZ → VZ) (insF : XF → VF) (updF : VF → XF → VF).
Context (bound : Z).
Hypothesis value_ins : ∀ x, value (insZ x) = amount x.
Hypothesis value_upd : ∀ t x, value (updZ t x) = (value t + amount x)%Z.
Hypothesis lift_ins : ∀ x, insF (fx x) = fv (insZ x).
Hypothesis lift_upd :
  ∀ t x, (Z.abs (value t) + Z.abs (amount x) ≤ bound)%Z → updF (fv t) (fx x) = fv (updZ t x).
Implicit Types (d : list (K * VZ)) (kx : K * XZ) (items : list (K * XZ)).

Lemma upsert_value d kx :
  sum_Z (value <$> (upsert insZ updZ d kx).*2) =
    (sum_Z (value <$> d.*2) + amount kx.2)%Z ∧
  (abs_sum (value <$> (upsert insZ updZ d kx).*2) ≤
     abs_sum (value <$> d.*2) + Z.abs (amount kx.2))%Z.
Proof.
  induction d as [|[k' v'] d [IHs IHa]].
  - unfold upsert. simpl. rewrite value_ins. lia.
  - rewrite upsert_cons. case_decide; csimpl.
    + rewrite value_upd. lia.
    + lia.
Qed.

Lemma upsert_whole d kx :
  (abs_sum (value <$> d.*2) + Z.abs (amount kx.2) ≤ bound)%Z →
  upsert insF updF (prod_map id fv <$> d) (kx.1, fx kx.2) =
    prod_map id fv <$> upsert insZ updZ d kx.
Proof.
  induction d as [|[k' v'] d IH]; intros Hbound.
  - unfold upsert. simpl. by rewrite lift_ins.
  - csimpl. rewrite !upsert_cons. csimpl in *.
    pose proof (abs_sum_nonneg (value <$> d.*2)).
    case_decide; csimpl.
    + rewrite lift_upd by lia. done.
    + rewrite IH by lia. done.
Qed.

Lemma group_whole items d :
  (abs_sum (value <$> d.*2) + abs_sum (amount <$> items.*2) ≤ bound)%Z →
  group insF updF (prod_map id fx <$> items) (prod_map id fv <$> d) =
    prod_map id fv <$> group insZ updZ items d ∧
  sum_Z (value <$> (group insZ updZ items d).*2) =
    (sum_Z (value <$> d.*2) + sum_Z (amount <$> items.*2))%Z ∧
  (abs_sum (value <$> (group insZ updZ items d).*2) ≤
     abs_sum (value <$> d.*2) + abs_sum (amount <$> items.*2))%Z.
Proof.
  revert d. induction items as [|kx items IH]; intros d Hbound; csimpl in *.
  - split; [done|]. lia.
  - pose proof (abs_sum_nonneg (amount <$> items.*2)).
    destruct (upsert_value d kx) as [Hsum Habs].
    destruct (IH (upsert insZ updZ d kx)) as (Hgroup & Hsum' & Habs'); [lia|].
    change (prod_map id fx kx) with (kx.1, fx kx.2).
    rewrite upsert_whole by lia. unfold group in *. split; [done|]. lia.
Qed.
End GroupWhole.

Section WholeAnalysis.
Implicit Types (ds : list (donation Z)).

Lemma filter_has_created_at_of_whole ds :
  filter has_created_at (of_whole <$> ds) = of_whole <$> filter has_created_at ds.
Proof.
  induction ds as [|d ds IH]; [done|]. csimpl.
  rewrite !filter_cons, IH. unfold has_created_at at 1 3. simpl.
  by destruct (decide _).
Qed.

(** The first loop's dictionary of whole amounts. *)
Lemma daily_of_whole bound ds :
  exact_up_to bound → (magnitude ds ≤ bound)%Z →
  ∃ daily : list (string * Z),
    daily_of (of_whole <$> ds) = prod_map id float_of_int <$> daily ∧
    sum_Z daily.*2 = sum_Z (whole_amount <$> filter has_created_at ds) ∧
    (abs_sum daily.*2 ≤ magnitude ds)%Z.
Proof.
  intros Hexact Hbound.
  set (items := (λ d, (date_of d, whole_amount d)) <$> filter has_created_at ds).
  assert (dated (of_whole <$> ds) = prod_map id float_of_int <$> items) as Hdated.
  { unfold dated, items. rewrite filter_has_created_at_of_whole, <-!list_fmap_compose.
    apply list_fmap_ext. intros _ d _. simpl. by rewrite amount_or_zero_of_whole. }
  assert (abs_sum items.*2 ≤ magnitude ds)%Z as Hitems.
  { unfold items, magnitude. rewrite <-list_fmap_compose. simpl.
    clear. induction ds as [|d ds IH]; [done|]. rewrite filter_cons.
    case_decide; csimpl; lia. }
  destruct (group_whole (K := string) (λ z : Z, z) (λ z : Z, z) float_of_int float_of_int
              (λ z : Z, z) Z.add (λ x : float, x) PrimFloat.add bound
              ltac:(done) ltac:(done) ltac:(done)
              ltac:(intros t x Hx; by apply Hexact) items [])
    as (Hgroup & Hsum & Habs).
  { simpl. rewrite list_fmap_id. lia. }
  exists (group (λ z : Z, z) Z.add items []).
  rewrite !list_fmap_id in Hsum, Habs. simpl in Hsum, Habs.
  split; [|split].
  - unfold daily_of. rewrite Hdated. exact Hgroup.
  - rewrite Hsum. unfold items. by rewrite <-list_fmap_compose.
  - lia.
Qed.

(** The second loop's dictionary of whole amounts. *)
Lemma totals_of_whole bound ds :
  exact_up_to bound → (magnitude ds ≤ bound)%Z →
  ∃ totals : list (option ident * supporter_data Z),
    totals_of (of_whole <$> ds) = prod_map id data_of_whole <$> totals ∧
    sum_Z ((λ x, total x.2) <$> totals) = sum_Z (whole_amount <$> ds) ∧
    (abs_sum ((λ x, total x.2) <$> totals) ≤ magnitude ds)%Z.
Proof.
  intros Hexact Hbound.
  set (items := (λ d, (supporter_id d, (name_of d, whole_amount d))) <$> ds).
  assert (supporter_items (of_whole <$> ds) =
          prod_map id (λ x : string * Z, (x.1, float_of_int x.2)) <$> items) as Hitems.
  { unfold supporter_items, items. rewrite <-!list_fmap_compose.
    apply list_fmap_ext. intros _ d _. simpl. by rewrite amount_or_zero_of_whole. }
  assert (amount_items : (λ x : string * Z, x.2) <$> items.*2 = whole_amount <$> ds).
  { unfold items. by rewrite <-!list_fmap_compose. }
  destruct (group_whole (K := option ident) (total (F := Z)) (λ x : string * Z, x.2)
              data_of_whole (λ x : string * Z, (x.1, float_of_int x.2))
              new_supporter more_supporter new_supporter more_supporter bound
              ltac:(done) ltac:(done) ltac:(done)
              ltac:(intros t x Hx; unfold more_supporter, data_of_whole; simpl;
                    f_equal; by apply Hexact) items [])
    as (Hgroup & Hsum & Habs).
  { simpl. rewrite amount_items. unfold magnitude in Hbound. lia. }
  exists (group new_supporter more_supporter items []).
  rewrite amount_items in Hsum, Habs. simpl in Hsum, Habs.
  rewrite <-!list_fmap_compose in Hsum, Habs.
  split; [|split].
  - unfold totals_of. rewrite Hitems. exact Hgroup.
  - exact Hsum.
  - exact Habs.
Qed.

Lemma total_revenue_of_whole bound ds :
  exact_up_to bound → (magnitude ds ≤ bound)%Z →
  py_sum (amount_or_zero <$> (of_whole <$> ds)) = float_of_int (sum_Z (whole_amount <$> ds)).
Proof.
  intros Hexact Hbound.
  assert (amount_or_zero <$> (of_whole <$> ds) = float_of_int <$> (whole_amount <$> ds))
    as ->.
  { rewrite <-!list_fmap_compose. apply list_fmap_ext. intros _ d _.
    apply amount_or_zero_of_whole. }
  by apply (py_sum_whole bound).
Qed.
End WholeAnalysis.

Lemma of_whole_nil (ds : list (donation Z)) : of_whole <$> ds = [] → ds = [].
Proof. by destruct ds. Qed.

(** Binary64 adds the whole numbers up to 130 exactly: evaluated. *)
Lemma whole_cents_exact : exact_up_to (magnitude whole_cents).
Proof. apply exact_check_spec. vm_compute. reflexivity. Qed.

(** C5, amended: for amounts that are whole numbers, as far as binary64 adds
    whole numbers exactly up to the sum of their absolute values, and records
    that all have a timestamp, [total_revenue] is the sum of the values of
    [daily_revenue].  In general the two are roundings of the same sum in
    different groupings. *)
Theorem total_revenue_is_sum_of_daily_exact (ds : list (donation Z))
    (s : analysis float) :
  exact_up_to (magnitude ds) →
  Forall has_created_at ds →
  analyze_donations (of_whole <$> ds) = Ret s →
  total_revenue s = py_sum (dict_values (daily_revenue s)).
Proof.
  intros Hexact Hstamped [_ [[_ ->]|[_ ->]]]%analyze_donations_Ret; [done|]. simpl.
  rewrite (total_revenue_of_whole (magnitude ds)) by done.
  destruct (daily_of_whole (magnitude ds) ds) as (daily & -> & Hsum & Habs); [done..|].
  unfold dict_values.
  assert ((prod_map id float_of_int <$> daily).*2 = float_of_int <$> daily.*2) as ->
    by by rewrite <-!list_fmap_compose.
  rewrite (py_sum_whole (magnitude ds)) by done.
  rewrite Hsum.
  assert (filter has_created_at ds = ds) as ->; [|done].
  clear -Hstamped. induction Hstamped as [|d ds Hd _ IH]; [done|].
  by rewrite filter_cons_True, IH.
Qed.

Lemma total_revenue_is_sum_of_daily_exact_witness :
  ∃ s : analysis float,
    analyze_donations (of_whole <$> whole_cents) = Ret s ∧
    total_revenue s = 130%float ∧
    total_revenue s = py_sum (dict_values (daily_revenue s)).
Proof.
  eexists. split; [vm_compute; reflexivity|]. split; [reflexivity|].
  apply (total_revenue_is_sum_of_daily_exact whole_cents).
  - exact whole_cents_exact.
  - repeat constructor; done.
  - vm_compute. reflexivity.
Defined.

(** ** Ranking *)

Lemma StronglySorted_fmap {A B} (f : A → B) (R : B → B → Prop) l :
  StronglySorted (λ x y, R (f x) (f y)) l → StronglySorted R (f <$> l).
Proof.
  induction 1 as [|x l Hl IH Hx]; csimpl; constructor; [done|].
  by apply Forall_fmap.
Qed.

Lemma StronglySorted_sublist {A} (R : A → A → Prop) l k :
  k `sublist_of` l → StronglySorted R l → StronglySorted R k.
Proof.
  rewrite !StronglySorted_pairs. intros Hk Hl x y Hxy. apply Hl. by etrans.
Qed.

Section Ranking.
Implicit Types (ds : list (donation float)).

Lemma totals_of_is_number ds x :
  Forall (λ d, finite (amount_or_zero d)) ds →
  x ∈ totals_of ds → is_number (total x.2).
Proof.
  intros Hds Hx. destruct x as [sid data].
  apply dict_get_elem_of in Hx; [|apply NoDup_dict_keys_group].
  rewrite dict_get_totals_of in Hx.
  destruct (records_of sid ds) as [|d rest] eqn:Hrec; [done|].
  injection Hx as <-. simpl.
  assert (Forall (λ d, finite (amount_or_zero d)) (d :: rest)) as Hrest.
  { rewrite <-Hrec. unfold records_of. apply Forall_forall.
    intros z [_ Hz]%list_elem_of_filter. by eapply Forall_forall in Hds. }
  apply Forall_cons in Hrest as [Hd Hrest].
  apply fold_add_is_number; [by apply finite_is_number|]. by apply Forall_fmap.
Qed.

(** The ranking leaves no choice: two arrangements of the same aggregates
    that both obey it are equal.  So every stable descending sort returns
    what [sort_supporters] does. *)
Lemma encountered_before_asym {K} (k1 k2 : K) keys :
  encountered_before k1 k2 keys → encountered_before k2 k1 keys → False.
Proof.
  intros (p & q & -> & Hp1 & Hp2) (p' & q' & Heq & Hp1' & Hp2').
  apply app_eq_inv in Heq as [(k & -> & _)|(k & -> & _)].
  - apply Hp2. apply elem_of_app. by left.
  - apply Hp2'. apply elem_of_app. by left.
Qed.

Lemma ranks_before_asym ds a b : ranks_before ds a b → ranks_before ds b a → False.
Proof.
  intros [Hba Hab] [Hab' Hba'].
  eapply encountered_before_asym; [apply Hab|apply Hba']; by apply leb_antisym.
Qed.

Lemma StronglySorted_unique {A} (R : A → A → Prop) l1 l2 :
  (∀ x y, R x y → R y x → False) →
  l1 ≡ₚ l2 → StronglySorted R l1 → StronglySorted R l2 → l1 = l2.
Proof.
  intros HR Hperm Hl1. revert l2 Hperm.
  induction Hl1 as [|a l1 Hl1 IH Ha]; intros l2 Hperm Hl2.
  - by apply Permutation_nil_l in Hperm.
  - destruct Hl2 as [|b l2 Hl2 Hb].
    { by apply Permutation_nil_r in Hperm. }
    assert (a = b) as <-.
    { assert (a ∈ b :: l2) as Ha2 by (rewrite <-Hperm; apply list_elem_of_here).
      assert (b ∈ a :: l1) as Hb1 by (rewrite Hperm; apply list_elem_of_here).
      apply elem_of_cons in Ha2 as [?|Ha2]; [done|].
      apply elem_of_cons in Hb1 as [?|Hb1]; [done|].
      exfalso. apply (HR a b).
      - by eapply Forall_forall in Ha.
      - by eapply Forall_forall in Hb. }
    f_equal. apply IH; [|done]. by apply Permutation_cons_inv in Hperm.
Qed.

End Ranking.

(** C3, as stated, fails: with a total that is not a number the elements of
    [top_supporters] are not in descending order: the totals 1, NaN, 2 stay as they come. *)
Lemma nan_total_is_not_ranked :
  ∃ s : analysis float,
    analyze_donations nan_total = Ret s ∧
    total_donated <$> top_supporters s = [1%float; nan; 2%float] ∧
    ¬ StronglySorted (λ a b, PrimFloat.leb (total_donated b) (total_donated a) = true)
        (top_supporters s).
Proof.
  eexists. split; [vm_compute; reflexivity|]. split; [reflexivity|].
  intros Hsorted. apply StronglySorted_inv in Hsorted as [_ Hall].
  apply Forall_cons in Hall as [Hnan _]. vm_compute in Hnan. discriminate Hnan.
Qed.

Section RankingNumeric.
Implicit Types (ds : list (donation float)).

Lemma finite_numeric_totals ds :
  Forall (λ d, finite (amount_or_zero d)) ds → numeric_totals ds.
Proof.
  intros Hds sid v Hv.
  destruct (records_of sid ds) as [|d rest] eqn:Hrec; [done|].
  injection Hv as <-.
  assert (Forall (λ d, finite (amount_or_zero d)) (d :: rest)) as Hrest.
  { rewrite <-Hrec. unfold records_of. apply Forall_forall.
    intros z [_ Hz]%list_elem_of_filter. by eapply Forall_forall in Hds. }
  apply Forall_cons in Hrest as [Hd Hrest].
  apply fold_add_is_number; [by apply finite_is_number|]. by apply Forall_fmap.
Qed.

Lemma numeric_totals_of ds x :
  numeric_totals ds → x ∈ totals_of ds → is_number (total x.2).
Proof.
  intros Hds Hx. destruct x as [sid data].
  apply elem_of_totals_of in Hx as (d & rest & Hrec & ->). simpl.
  apply (Hds sid). by rewrite Hrec.
Qed.

Lemma sort_supporters_ranked_numeric ds :
  numeric_totals ds →
  StronglySorted (ranks_before ds) (sort_supporters (totals_of ds)).
Proof.
  intros Hds.
  assert (StronglySorted (not_below (λ x : option ident * supporter_data float, total x.2))
            (sort_supporters (totals_of ds))) as Hsorted.
  { apply (sorted_reverse_sorted (H := float_number) _ is_number ltb_asym ltb_negtrans).
    apply Forall_forall. intros x Hx. by apply (numeric_totals_of ds). }
  rewrite StronglySorted_pairs in Hsorted.
  apply StronglySorted_pairs. intros x y Hxy.
  assert (∀ z, z ∈ [x; y] → is_number (total z.2)) as Hnn.
  { intros z Hz. apply (numeric_totals_of ds); [done|].
    eapply elem_of_sublist in Hz; [|exact Hxy].
    unfold sort_supporters in Hz. by rewrite sorted_reverse_Permutation in Hz. }
  split.
  - apply leb_of_not_ltb.
    + apply Hnn. apply list_elem_of_here.
    + apply Hnn. apply list_elem_of_further, list_elem_of_here.
    + by apply Hsorted.
  - intros Htie%eqb_not_ltb.
    apply (sorted_reverse_stable (λ x, total x.2)) in Hxy; [|done].
    apply (fmap_sublist fst) in Hxy.
    change ((totals_of ds).*1) with (dict_keys (totals_of ds)) in Hxy.
    rewrite dict_keys_totals_of in Hxy.
    by apply first_seen_before in Hxy.
Qed.
End RankingNumeric.

(** C3, amended: [top_supporters] has [min(10, unique_supporters)]
    elements.  When no total of a supporter is NaN, as with amounts that are
    all finite, they are the first of the supporter aggregates put in
    descending order of total, and of two aggregates with the same total the
    one whose supporter the input shows first comes first; each aggregate is
    that of the records of one supporter; and this ranking leaves no choice:
    every arrangement of the aggregates that obeys it is the same list, so
    that the result does not depend on how the sort goes about it. *)
Theorem top_supporters_ranked `{Summation float} (ds : list (donation float))
    (s : analysis float) :
  analyze_donations ds = Ret s →
  length (top_supporters s) = min 10 (unique_supporters s) ∧
  (Forall (λ d, finite (amount_or_zero d)) ds → numeric_totals ds) ∧
  (numeric_totals ds →
   StronglySorted (λ a b, PrimFloat.leb (total_donated b) (total_donated a) = true)
     (top_supporters s) ∧
   ∃ totals ranked rest,
     second_loop ds = Ret totals ∧
     ranked ++ rest ≡ₚ totals ∧
     top_supporters s = top_entry <$> ranked ∧
     StronglySorted (ranks_before ds) (ranked ++ rest) ∧
     (∀ sid data,
        (sid, data) ∈ ranked ++ rest ↔
        ∃ d more,
          records_of sid ds = d :: more ∧
          data = SupporterData (name_of d)
                   (fold_left num_add (amount_or_zero <$> more) (amount_or_zero d))
                   (S (length more))) ∧
     (∀ ranking,
        ranking ≡ₚ totals → StronglySorted (ranks_before ds) ranking →
        ranking = ranked ++ rest)).
Proof.
  intros [Hds Hs]%analyze_donations_Ret.
  assert (top_supporters s = top_of (sort_supporters (totals_of ds)) ∧
          unique_supporters s = length (totals_of ds)) as [Htop Huniq].
  { destruct Hs as [[-> ->]|[_ ->]]; [done|]. simpl. by rewrite length_totals_of. }
  rewrite Htop, Huniq. split.
  { unfold top_of, sort_supporters.
    by rewrite length_fmap, length_take, sorted_reverse_Permutation. }
  split; [apply finite_numeric_totals|].
  intros Hnn. pose proof (sort_supporters_ranked_numeric ds Hnn) as Hranked. split.
  - unfold top_of. apply StronglySorted_fmap.
    eapply StronglySorted_sublist in Hranked; [|apply (sublist_take _ 10)].
    eapply StronglySorted_pairs. intros x y Hxy.
    rewrite StronglySorted_pairs in Hranked. by apply Hranked.
  - exists (totals_of ds), (take 10 (sort_supporters (totals_of ds))),
      (drop 10 (sort_supporters (totals_of ds))).
    rewrite take_drop. split; [by apply second_loop_ok|].
    split; [apply sorted_reverse_Permutation|]. split; [done|]. split; [done|]. split.
    + intros sid data. rewrite <-elem_of_totals_of.
      unfold sort_supporters. by rewrite sorted_reverse_Permutation.
    + intros ranking Hperm Hranking.
      apply (StronglySorted_unique (ranks_before ds)); [apply ranks_before_asym| |done..].
      rewrite Hperm. unfold sort_supporters. by rewrite sorted_reverse_Permutation.
Qed.

Lemma top_supporters_ranked_witness :
  length (top_supporters tied_summary) = min 10 (unique_supporters tied_summary) ∧
  StronglySorted (λ a b, PrimFloat.leb (total_donated b) (total_donated a) = true)
    (top_supporters tied_summary) ∧
  ∃ totals ranked rest,
    second_loop tied = Ret totals ∧
    ranked ++ rest ≡ₚ totals ∧
    top_supporters tied_summary = top_entry <$> ranked ∧
    StronglySorted (ranks_before tied) (ranked ++ rest).
Proof.
  destruct (top_supporters_ranked tied tied_summary) as (Hlen & Hfinite & Hsorted).
  { vm_compute. reflexivity. }
  split; [exact Hlen|].
  destruct Hsorted as (Hdesc & totals & ranked & rest & Hloop & Hperm & Htop & Hranked & _).
  { apply Hfinite. repeat (constructor; [reflexivity|]). constructor. }
  split; [exact Hdesc|]. by exists totals, ranked, rest.
Defined.

(** * Further properties of [analyze_donations] *)

(** ** Donation counts *)

Lemma sum_list_Permutation (l l' : list nat) : l ≡ₚ l' → sum_list l = sum_list l'.
Proof. induction 1; simpl; lia. Qed.

Section Counts.
Context {F : Type} `{Number F}.
Implicit Types (d : donation F) (ds : list (donation F)).
Implicit Types (totals : list (option ident * supporter_data F)).

Lemma sum_count_upsert totals kx :
  sum_list ((λ x, count x.2) <$> upsert new_supporter more_supporter totals kx) =
    sum_list ((λ x, count x.2) <$> totals) + 1.
Proof.
  induction totals as [|[k' v'] totals IH]; [done|].
  rewrite upsert_cons. case_decide; csimpl; [lia|]. rewrite IH. lia.
Qed.

Lemma sum_count_group items totals :
  sum_list ((λ x, count x.2) <$> group new_supporter more_supporter items totals) =
    sum_list ((λ x, count x.2) <$> totals) + length items.
Proof.
  revert totals. induction items as [|kx items IH]; intros totals; csimpl; [lia|].
  rewrite IH, sum_count_upsert. lia.
Qed.

Lemma sum_count_totals_of ds :
  sum_list ((λ x, count x.2) <$> totals_of ds) = length ds.
Proof. unfold totals_of, supporter_items. by rewrite sum_count_group, length_fmap. Qed.

Lemma count_totals_of_pos ds x : x ∈ totals_of ds → 1 ≤ count x.2.
Proof.
  destruct x as [sid data]. intros Hin.
  apply dict_get_elem_of in Hin; [|apply NoDup_dict_keys_group].
  rewrite dict_get_totals_of in Hin.
  destruct (records_of sid ds) as [|d rest]; [done|].
  injection Hin as <-. simpl. lia.
Qed.

Lemma sum_list_take_le (l : list nat) n : sum_list (take n l) ≤ sum_list l.
Proof.
  revert n. induction l as [|x l IH]; intros [|n]; simpl; try lia.
  specialize (IH n). lia.
Qed.
End Counts.

(** X1: every donation is counted once.  The counts of the supporter
    aggregates add up to the number of records; each element of
    [top_supporters] stands for at least one donation; the counts shown in
    [top_supporters] add up to at most [total_donations], and to exactly
    [total_donations] when there are no more than ten supporters. *)
Theorem donation_counts_add_up {F : Type} `{Number F} `{Summation F}
    (ds : list (donation F)) (s : analysis F) :
  analyze_donations ds = Ret s →
  (∃ totals, second_loop ds = Ret totals ∧
     sum_list ((λ x, count x.2) <$> totals) = total_donations s) ∧
  Forall (λ t, 1 ≤ donation_count t) (top_supporters s) ∧
  sum_list (donation_count <$> top_supporters s) ≤ total_donations s ∧
  (unique_supporters s ≤ 10 →
   sum_list (donation_count <$> top_supporters s) = total_donations s).
Proof.
  intros [Hds Hs]%analyze_donations_Ret.
  assert (top_supporters s = top_of (sort_supporters (totals_of ds)) ∧
          unique_supporters s = length (totals_of ds) ∧
          total_donations s = length ds) as (Htop & Huniq & Hlen).
  { destruct Hs as [[-> ->]|[_ ->]]; [done|]. simpl. by rewrite length_totals_of. }
  rewrite Htop, Huniq, Hlen. clear Htop Huniq Hlen Hs.
  assert (∀ l : list (option ident * supporter_data F),
            donation_count <$> (top_entry <$> l) = (λ x, count x.2) <$> l) as Hcount.
  { intros l. by rewrite <-list_fmap_compose. }
  assert (sum_list ((λ x, count x.2) <$> sort_supporters (totals_of ds)) = length ds)
    as Hsum.
  { rewrite <-(sum_count_totals_of ds). apply sum_list_Permutation, fmap_Permutation.
    apply sorted_reverse_Permutation. }
  split; [|split; [|split]].
  - exists (totals_of ds). split; [by apply second_loop_ok|apply sum_count_totals_of].
  - unfold top_of. apply Forall_forall. intros t [x [-> Hx]]%list_elem_of_fmap.
    apply ranked_in_totals in Hx. simpl. by eapply count_totals_of_pos.
  - unfold top_of. rewrite Hcount, fmap_take, <-Hsum. apply sum_list_take_le.
  - intros Hfew. unfold top_of. rewrite take_ge; [by rewrite Hcount|].
    unfold sort_supporters. by rewrite sorted_reverse_Permutation.
Qed.

Lemma donation_counts_add_up_witness :
  (∃ totals, second_loop january = Ret totals ∧
     sum_list ((λ x, count x.2) <$> totals) = total_donations january_summary) ∧
  Forall (λ t, 1 ≤ donation_count t) (top_supporters january_summary) ∧
  sum_list (donation_count <$> top_supporters january_summary)
    ≤ total_donations january_summary ∧
  (unique_supporters january_summary ≤ 10 →
   sum_list (donation_count <$> top_supporters january_summary)
     = total_donations january_summary).
Proof.
  apply (donation_counts_add_up january january_summary).
  vm_compute. reflexivity.
Defined.

(** ** Dates *)

Lemma occurs_date_prefix s : occurs "T" (date_prefix s) = false.
Proof.
  induction s as [|a s IH]; simpl; [done|].
  destruct (decide (a = "T"%char)) as [->|Hne]; simpl; [done|].
  by rewrite decide_False by done.
Qed.

Lemma date_prefix_rest s :
  ∃ rest, s = date_prefix s +:+ rest ∧ (rest = ""%string ∨ ∃ time, rest = String "T" time).
Proof.
  induction s as [|a s (rest & IH & Hrest)]; simpl.
  - exists ""%string. by split; [|left].
  - destruct (decide (a = "T"%char)) as [->|Hne]; simpl.
    + exists (String "T" s). split; [done|]. right. by eexists.
    + exists rest. split; [|done].
      change (String a s = String a (date_prefix s +:+ rest)). by f_equal.
Qed.

Lemma date_prefix_app date rest :
  occurs "T" date = false → date_prefix (date +:+ String "T" rest) = date.
Proof.
  induction date as [|a date IH]; cbn.
  - done.
  - destruct (decide ("T"%char = a)) as [<-|Hne]; [done|]. intros Hdate.
    change (date_prefix (String a (date +:+ String "T" rest)) = String a date).
    simpl. rewrite decide_False by done. by rewrite IH.
Qed.

(** X2: the keys of [daily_revenue] are dates.  No key holds a ['T']; every
    key is the beginning of the [created_at] of some record, which either
    ends there or goes on with a ['T']; and there are no more keys than
    records with a timestamp. *)
Theorem daily_revenue_keys_are_dates {F : Type} `{Number F} `{Summation F}
    (ds : list (donation F)) (s : analysis F) :
  analyze_donations ds = Ret s →
  length (daily_revenue s) ≤ length (filter has_created_at ds) ∧
  ∀ date, date ∈ dict_keys (daily_revenue s) →
    occurs "T" date = false ∧
    ∃ d rest,
      d ∈ ds ∧ created_at d = Some (date +:+ rest) ∧ date +:+ rest ≠ ""%string ∧
      (rest = ""%string ∨ ∃ time, rest = String "T" time).
Proof.
  intros Hs.
  assert (daily_revenue s = daily_of ds) as ->.
  { by apply analyze_donations_Ret in Hs as [_ [[-> ->]|[_ ->]]]. }
  split.
  - rewrite <-(length_fmap fst (daily_of ds)).
    change (fst <$> daily_of ds) with (dict_keys (daily_of ds)).
    rewrite dict_keys_daily_of.
    etrans; [apply sublist_length, first_seen_sublist|]. by rewrite length_fmap.
  - intros date. rewrite dict_keys_daily_of, elem_of_first_seen.
    intros [d [-> [Hhas Hd]%list_elem_of_filter]]%list_elem_of_fmap.
    unfold date_of. split; [apply occurs_date_prefix|].
    unfold has_created_at in Hhas.
    destruct (date_prefix_rest (default ""%string (created_at d))) as (rest & Hsplit & Hrest).
    exists d, rest. rewrite <-Hsplit.
    destruct (created_at d) as [t|]; [done|]. by destruct Hhas.
Qed.

Lemma daily_revenue_keys_are_dates_witness :
  length (daily_revenue anonymous_summary) ≤ length (filter has_created_at anonymous) ∧
  ∀ date, date ∈ dict_keys (daily_revenue anonymous_summary) →
    occurs "T" date = false ∧
    ∃ d rest,
      d ∈ anonymous ∧ created_at d = Some (date +:+ rest) ∧ date +:+ rest ≠ ""%string ∧
      (rest = ""%string ∨ ∃ time, rest = String "T" time).
Proof.
  apply (daily_revenue_keys_are_dates anonymous anonymous_summary).
  vm_compute. reflexivity.
Defined.

(** X3: a record stamped [date ++ "T" ++ time], with no ['T'] in [date], is
    filed under [date]: [daily_revenue] has that key, and its value is the
    sum of the amounts of the records of that date, this record among them. *)
Theorem timestamp_filed_under_its_date {F : Type} `{Number F} `{Summation F}
    (ds : list (donation F)) (s : analysis F) (d : donation F) (date time : string) :
  analyze_donations ds = Ret s →
  d ∈ ds →
  created_at d = Some (date +:+ String "T" time) →
  occurs "T" date = false →
  d ∈ records_on date ds ∧
  ∃ v, (date, v) ∈ daily_revenue s ∧
       running_sum (amount_or_zero <$> records_on date ds) = Some v.
Proof.
  intros Hs Hd Hat Hdate.
  assert (daily_revenue s = daily_of ds) as ->.
  { by apply analyze_donations_Ret in Hs as [_ [[-> ->]|[_ ->]]]. }
  assert (d ∈ records_on date ds) as Hin.
  { unfold records_on. rewrite !list_elem_of_filter. split; [|split; [|done]].
    - unfold date_of. rewrite Hat. simpl. by apply date_prefix_app.
    - unfold has_created_at. rewrite Hat. simpl. by destruct date. }
  split; [done|].
  destruct (running_sum (amount_or_zero <$> records_on date ds)) as [v|] eqn:Hv.
  - exists v. split; [|done]. apply dict_get_Some. by rewrite dict_get_daily_of.
  - destruct (records_on date ds); [by apply elem_of_nil in Hin|done].
Qed.

Lemma timestamp_filed_under_its_date_witness :
  ∃ v, (("2023-01-06", v) : string * float) ∈ daily_revenue january_summary.
Proof.
  destruct (timestamp_filed_under_its_date january january_summary
              (Donation (Some (IdInt 1)) None (Some (Numeric 30%float))
                 (Some "2023-01-06T10:00:00"%string))
              "2023-01-06" "10:00:00") as [_ (v & Hv & _)].
  - vm_compute. reflexivity.
  - apply list_elem_of_further, list_elem_of_here.
  - reflexivity.
  - reflexivity.
  - by exists v.
Defined.

(** ** More records, other orders *)

Section FirstSeenMore.
Context {K : Type} `{EqDecision K}.
Implicit Types (l : list K).

Lemma first_seen_prefix l l' : first_seen l `prefix_of` first_seen (l ++ l').
Proof.
  induction l' as [|x l' IH] using rev_ind; [by rewrite app_nil_r|].
  rewrite app_assoc, first_seen_snoc. case_decide; [done|].
  by apply prefix_app_r.
Qed.

Lemma first_seen_Permutation l l' : l ≡ₚ l' → first_seen l ≡ₚ first_seen l'.
Proof.
  intros Hl. apply NoDup_Permutation; [apply NoDup_first_seen..|].
  intros x. by rewrite !elem_of_first_seen, Hl.
Qed.
End FirstSeenMore.

(** X4: records that come after the others leave what these have built in
    place.  The dates of the longer input begin with the dates of the
    shorter one, in the same order; a date on which none of the added records
    falls keeps its value; the counts grow by the number of added records,
    and no supporter is lost. *)
Theorem more_records_extend_the_summary {F : Type} `{Number F} `{Summation F}
    (ds more : list (donation F)) (s s' : analysis F) :
  analyze_donations ds = Ret s →
  analyze_donations (ds ++ more) = Ret s' →
  dict_keys (daily_revenue s) `prefix_of` dict_keys (daily_revenue s') ∧
  (∀ date v, (date, v) ∈ daily_revenue s → records_on date more = [] →
             (date, v) ∈ daily_revenue s') ∧
  total_donations s' = total_donations s + length more ∧
  unique_supporters s ≤ unique_supporters s'.
Proof.
  intros [_ Hs]%analyze_donations_Ret [_ Hs']%analyze_donations_Ret.
  assert (daily_revenue s = daily_of ds ∧ total_donations s = length ds ∧
          unique_supporters s =
            size (list_to_set (supporter_id <$> ds) : gset (option ident)))
    as (-> & -> & ->).
  { by destruct Hs as [[-> ->]|[_ ->]]. }
  assert (daily_revenue s' = daily_of (ds ++ more) ∧
          total_donations s' = length (ds ++ more) ∧
          unique_supporters s' =
            size (list_to_set (supporter_id <$> ds ++ more) : gset (option ident)))
    as (-> & -> & ->).
  { destruct Hs' as [[Hnil ->]|[_ ->]]; [by rewrite Hnil|done]. }
  split; [|split; [|split]].
  - rewrite !dict_keys_daily_of, filter_app, fmap_app. apply first_seen_prefix.
  - intros date v Hin Hmore.
    apply dict_get_elem_of in Hin; [|apply NoDup_dict_keys_group].
    apply dict_get_Some. rewrite dict_get_daily_of in *.
    unfold records_on in *. by rewrite !filter_app, Hmore, app_nil_r.
  - by rewrite length_app.
  - rewrite !size_list_to_set_first_seen, fmap_app.
    apply prefix_length, first_seen_prefix.
Qed.

Lemma more_records_extend_the_summary_witness :
  dict_keys (daily_revenue january_summary)
    `prefix_of` dict_keys (daily_revenue (summary_of (january ++ anonymous))) ∧
  (∀ date v, (date, v) ∈ daily_revenue january_summary → records_on date anonymous = [] →
             (date, v) ∈ daily_revenue (summary_of (january ++ anonymous))) ∧
  total_donations (summary_of (january ++ anonymous)) =
    total_donations january_summary + length anonymous ∧
  unique_supporters january_summary ≤ unique_supporters (summary_of (january ++ anonymous)).
Proof.
  apply (more_records_extend_the_summary january anonymous).
  - vm_compute. reflexivity.
  - apply analyze_donations_ok; [done|]. repeat constructor.
Defined.

(** X5: the counts do not depend on the order of the records.  A
    rearrangement of an input that is analysed is analysed too, with the same
    [total_supporters], [unique_supporters] and [total_donations], the same
    number of [top_supporters], and the same dates in [daily_revenue], up to
    their order. *)
Theorem counts_ignore_record_order {F : Type} `{Number F} `{Summation F}
    (ds ds' : list (donation F)) (s : analysis F) :
  ds ≡ₚ ds' →
  analyze_donations ds = Ret s →
  ∃ s', analyze_donations ds' = Ret s' ∧
    total_supporters s' = total_supporters s ∧
    unique_supporters s' = unique_supporters s ∧
    total_donations s' = total_donations s ∧
    length (top_supporters s') = length (top_supporters s) ∧
    dict_keys (daily_revenue s') ≡ₚ dict_keys (daily_revenue s).
Proof.
  intros Hperm [Hds Hs]%analyze_donations_Ret.
  destruct Hs as [[-> ->]|[Hne ->]].
  { apply Permutation_nil_l in Hperm as <-. by eexists. }
  exists (summary_of ds'). split.
  { apply analyze_donations_ok; [|by rewrite <-Hperm].
    intros ->. by apply Permutation_nil_r in Hperm. }
  simpl. rewrite <-(Permutation_length Hperm).
  assert (size (list_to_set (supporter_id <$> ds') : gset (option ident)) =
          size (list_to_set (supporter_id <$> ds) : gset (option ident))) as Hsize.
  { f_equal. apply list_to_set_perm_L. by rewrite Hperm. }
  split; [done|]. split; [done|]. split; [done|]. split.
  - unfold top_of, sort_supporters.
    rewrite !length_fmap, !length_take, !sorted_reverse_Permutation, !length_totals_of.
    by rewrite Hsize.
  - rewrite !dict_keys_daily_of. apply first_seen_Permutation. by rewrite Hperm.
Qed.

Lemma counts_ignore_record_order_witness :
  ∃ s', analyze_donations (reverse january) = Ret s' ∧
    total_supporters s' = total_supporters january_summary ∧
    unique_supporters s' = unique_supporters january_summary ∧
    total_donations s' = total_donations january_summary ∧
    length (top_supporters s') = length (top_supporters january_summary) ∧
    dict_keys (daily_revenue s') ≡ₚ dict_keys (daily_revenue january_summary).
Proof.
  apply (counts_ignore_record_order january (reverse january) january_summary).
  - symmetry. apply reverse_Permutation.
  - vm_compute. reflexivity.
Defined.

(** ** Exact totals *)

(** X6: no amount is lost between the supporters.  For amounts that are
    whole numbers, as far as binary64 adds whole numbers exactly up to the sum
    of their absolute values, the totals of the supporter aggregates add up
    to [total_revenue], and so do the totals shown in [top_supporters] when
    there are no more than ten supporters. *)
Theorem supporter_totals_add_up_exact (ds : list (donation Z)) (s : analysis float) :
  exact_up_to (magnitude ds) →
  analyze_donations (of_whole <$> ds) = Ret s →
  (∃ totals, second_loop (of_whole <$> ds) = Ret totals ∧
     py_sum ((λ x, total x.2) <$> totals) = total_revenue s) ∧
  (unique_supporters s ≤ 10 →
   py_sum (total_donated <$> top_supporters s) = total_revenue s).
Proof.
  intros Hexact [Hds Hs]%analyze_donations_Ret.
  assert (top_supporters s = top_of (sort_supporters (totals_of (of_whole <$> ds))) ∧
          unique_supporters s = length (totals_of (of_whole <$> ds)) ∧
          total_revenue s = py_sum (amount_or_zero <$> (of_whole <$> ds)))
    as (-> & -> & ->).
  { destruct Hs as [[-> ->]|[_ ->]]; [done|]. simpl. by rewrite length_totals_of. }
  rewrite (total_revenue_of_whole (magnitude ds)) by done.
  destruct (totals_of_whole (magnitude ds) ds) as (totals & Htotals & Hsum & Habs);
    [done..|].
  assert ((λ x, total x.2) <$> totals_of (of_whole <$> ds) =
          float_of_int <$> ((λ x, total x.2) <$> totals)) as Hfloat.
  { rewrite Htotals. by rewrite <-!list_fmap_compose. }
  split.
  - exists (totals_of (of_whole <$> ds)). split; [by apply second_loop_ok|].
    rewrite Hfloat, (py_sum_whole (magnitude ds)) by done. by rewrite Hsum.
  - intros Hfew. unfold top_of. rewrite take_ge.
    + rewrite <-list_fmap_compose.
      rewrite (py_sum_whole_Permutation (magnitude ds) _ ((λ x, total x.2) <$> totals));
        [by rewrite Hsum|done..|].
      rewrite <-Hfloat. apply fmap_Permutation. apply sorted_reverse_Permutation.
    + unfold sort_supporters. by rewrite sorted_reverse_Permutation.
Qed.

Lemma supporter_totals_add_up_exact_witness :
  ∃ s : analysis float,
    analyze_donations (of_whole <$> whole_cents) = Ret s ∧
    total_donated <$> top_supporters s = [110; 10; 10]%float ∧
    py_sum (total_donated <$> top_supporters s) = total_revenue s.
Proof.
  eexists. split; [vm_compute; reflexivity|]. split; [reflexivity|].
  apply (supporter_totals_add_up_exact whole_cents).
  - exact whole_cents_exact.
  - vm_compute. reflexivity.
  - vm_compute. lia.
Defined.

(** ** Floats *)

(** X7: finite amounts give numbers.  When every amount is a finite float,
    no value of [daily_revenue] and no total in [top_supporters] is NaN: a
    sum of finite floats can overflow to an infinity, and stays there. *)
Theorem finite_amounts_give_numbers `{Summation float} (ds : list (donation float))
    (s : analysis float) :
  analyze_donations ds = Ret s →
  Forall (λ d, finite (amount_or_zero d)) ds →
  Forall (λ day, is_number day.2) (daily_revenue s) ∧
  Forall (λ t, is_number (total_donated t)) (top_supporters s).
Proof.
  intros [_ Hs]%analyze_donations_Ret Hfinite.
  assert (daily_revenue s = daily_of ds ∧
          top_supporters s = top_of (sort_supporters (totals_of ds))) as [-> ->].
  { by destruct Hs as [[-> ->]|[_ ->]]. }
  split.
  - apply Forall_forall. intros [date v] Hin. simpl.
    apply dict_get_elem_of in Hin; [|apply NoDup_dict_keys_group].
    rewrite dict_get_daily_of in Hin.
    destruct (records_on date ds) as [|d rest] eqn:Hrec; [done|].
    injection Hin as <-.
    assert (Forall (λ d, finite (amount_or_zero d)) (d :: rest)) as Hrest.
    { rewrite <-Hrec. unfold records_on. apply Forall_forall.
      intros z [_ [_ Hz]%list_elem_of_filter]%list_elem_of_filter.
      by eapply Forall_forall in Hfinite. }
    apply Forall_cons in Hrest as [Hd Hrest].
    apply fold_add_is_number; [by apply finite_is_number|]. by apply Forall_fmap.
  - unfold top_of. apply Forall_fmap, Forall_forall. intros x Hx%ranked_in_totals.
    simpl. by apply (totals_of_is_number ds).
Qed.

Lemma finite_amounts_give_numbers_witness :
  Forall (λ day : string * float, is_number day.2) (daily_revenue january_summary) ∧
  Forall (λ t, is_number (total_donated t)) (top_supporters january_summary).
Proof.
  apply (finite_amounts_give_numbers january january_summary).
  - vm_compute. reflexivity.
  - repeat constructor.
Defined.

(** * The request, the charts, the report, the command line *)

(** ** Running a program *)

Section IoFacts.
Context {F : Type} (w : world F).
Implicit Types (h t : list (call F)) (c : call F).

Lemma bind_unfold {A B} (m : io F A) (k : A → io F B) h :
  (m ≫= k) h =
    match m h with
    | (Done a, h') => k a h'
    | (Raised e, h') => (Raised e, h')
    | (SysExit code, h') => (SysExit code, h')
    end.
Proof. reflexivity. Qed.

Lemma bind_assoc {A B C} (m : io F A) (k : A → io F B) (k' : B → io F C) h :
  ((m ≫= k) ≫= k') h = (m ≫= λ a, k a ≫= k') h.
Proof. rewrite !bind_unfold. by destruct (m h) as [[a|e|code] h']. Qed.

Lemma bind_Done_inv {A B} (m : io F A) (k : A → io F B) h b t :
  (m ≫= k) h = (Done b, t) → ∃ a h', m h = (Done a, h') ∧ k a h' = (Done b, t).
Proof.
  rewrite bind_unfold. destruct (m h) as [[a|e|code] h']; [|done..].
  intros Hk. by exists a, h'.
Qed.

Lemma bind_ret {A B} (a : A) (k : A → io F B) h : (mret a ≫= k) h = k a h.
Proof. reflexivity. Qed.

Lemma bind_print {B} l (k : () → io F B) h :
  (print l ≫= k) h = k () (h ++ [Print l]).
Proof. reflexivity. Qed.

Lemma bind_of_result_Ret {A B} (a : A) (k : A → io F B) h :
  (of_result (Ret a) ≫= k) h = k a h.
Proof. reflexivity. Qed.

Lemma bind_library {B} c (k : () → io F B) h :
  (library w c ≫= k) h =
    match fails w h c with
    | Some msg => (Raised (LibraryError msg), h ++ [c])
    | None => k () (h ++ [c])
    end.
Proof. rewrite bind_unfold. unfold library. by destruct (fails w h c). Qed.

Lemma bind_library_quiet {B} c (k : () → io F B) h :
  quiet w → (library w c ≫= k) h = k () (h ++ [c]).
Proof. intros Hq. by rewrite bind_library, Hq. Qed.

Lemma library_quiet c h : quiet w → library w c h = (Done (), h ++ [c]).
Proof. intros Hq. unfold library. by rewrite Hq. Qed.

Lemma month_name_Done (month : Z) h :
  (-13 ≤ month ≤ 12)%Z → ∃ name, month_name (F := F) month h = (Done name, h).
Proof.
  intros Hm. unfold month_name.
  assert (month = -13 ∨ month = -12 ∨ month = -11 ∨ month = -10 ∨ month = -9 ∨
          month = -8 ∨ month = -7 ∨ month = -6 ∨ month = -5 ∨ month = -4 ∨
          month = -3 ∨ month = -2 ∨ month = -1 ∨ month = 0 ∨ month = 1 ∨
          month = 2 ∨ month = 3 ∨ month = 4 ∨ month = 5 ∨ month = 6 ∨ month = 7 ∨
          month = 8 ∨ month = 9 ∨ month = 10 ∨ month = 11 ∨ month = 12)%Z as Hcases
    by lia.
  repeat (destruct Hcases as [->|Hcases]; [by eexists|]). subst. by eexists.
Qed.

Lemma bind_month_name (month : Z) :
  (-13 ≤ month ≤ 12)%Z →
  ∃ name, ∀ B (k : string → io F B) h, (month_name month ≫= k) h = k name h.
Proof.
  intros Hm. destruct (month_name_Done month [] Hm) as [name Hname]. exists name.
  intros B k h. rewrite bind_unfold. unfold month_name in *.
  by destruct (if (0 <=? _)%Z then _ else _); simplify_eq.
Qed.

Lemma month_name_Raised (month : Z) h :
  ¬ (-13 ≤ month ≤ 12)%Z → month_name (F := F) month h = (Raised IndexError, h).
Proof.
  intros Hm. unfold month_name. destruct (Z.ltb_spec month 0).
  - destruct (Z.leb_spec 0 (month + 13)); [lia|done].
  - destruct (Z.leb_spec 0 month); [|lia].
    rewrite lookup_ge_None_2; [done|]. simpl. lia.
Qed.

Lemma for_quiet {A} (f : A → call F) (l : list A) h :
  quiet w → for_ l (λ x, library w (f x)) h = (Done (), h ++ (f <$> l)).
Proof.
  intros Hq. revert h. induction l as [|x l IH]; intros h; simpl.
  - by rewrite app_nil_r.
  - rewrite bind_library_quiet by done. rewrite IH. by rewrite <-app_assoc.
Qed.
End IoFacts.

(** ** Dates *)

Ltac month_cases Hm :=
  match type of Hm with
  | (1 ≤ ?m ≤ 12)%Z =>
      let H := fresh "Hcases" in
      assert (m = 1 ∨ m = 2 ∨ m = 3 ∨ m = 4 ∨ m = 5 ∨ m = 6 ∨ m = 7 ∨ m = 8 ∨
              m = 9 ∨ m = 10 ∨ m = 11 ∨ m = 12)%Z as H by lia;
      clear Hm;
      repeat (destruct H as [->|H]); [..|subst m]
  end.

Lemma days_in_month_bounds year month :
  (1 ≤ month ≤ 12)%Z → (28 ≤ days_in_month year month ≤ 31)%Z.
Proof.
  intros Hm. unfold days_in_month. month_cases Hm; simpl; try lia.
  destruct (isleap year); lia.
Qed.

Lemma days_in_month_29 year month :
  (1 ≤ month ≤ 12)%Z →
  days_in_month year month = 29%Z ↔ month = 2%Z ∧ isleap year = true.
Proof.
  intros Hm. unfold days_in_month. month_cases Hm; simpl; try (split; [lia|intros [? _]; lia]).
  destruct (isleap year); split; try lia; try done.
Qed.

Lemma datetime_Ret year month day :
  valid_month year month → (1 ≤ day ≤ days_in_month year month)%Z →
  datetime year month day = Ret (year, month, day).
Proof.
  intros [Hy Hm] Hd. pose proof (days_in_month_bounds year month Hm).
  unfold datetime, fits_int.
  repeat match goal with
         | |- context [(?a <=? ?b)%Z] => rewrite (proj2 (Z.leb_le a b)) by lia
         end.
  done.
Qed.

Lemma datetime_Raise year month day :
  ¬ valid_month year month →
  datetime year month day = Raise ValueError ∨ datetime year month day = Raise OverflowError.
Proof.
  intros Hv. unfold datetime.
  destruct (fits_int year && fits_int month && fits_int day); simpl; [|by right].
  destruct (Z.leb_spec 1 year), (Z.leb_spec year 9999); simpl; try by left.
  destruct (Z.leb_spec 1 month), (Z.leb_spec month 12); simpl; try by left.
  destruct Hv. split; lia.
Qed.

Lemma get_donations_for_month_valid {F : Type} (pf : platform) (w : world F)
    (self : generator) (year month : Z) (h : list (call F)) :
  valid_month year month →
  let start_date := strftime_ymd pf (year, month, 1%Z) in
  let end_date := strftime_ymd pf (year, month, days_in_month year month) in
  let line :=
    Line ("Fetching donations for " +:+ pretty year +:+ "-" +:+ format_02d month
          +:+ " (" +:+ start_date +:+ " to " +:+ end_date +:+ ")...") in
  let url := api_base_url self +:+ "/donations" in
  let params := [ ("start_date", start_date); ("end_date", end_date) ]%string in
  get_donations_for_month pf w self year month h =
    (match http_get w (h ++ [Print line]) url (headers self) params with
     | Response donations => Done donations
     | RequestFailed msg => Raised (RequestException msg)
     | ResponseInvalid msg => Raised (LibraryError msg)
     end,
     h ++ [Print line; HttpGet url (headers self) params]).
Proof.
  intros Hv. pose proof Hv as [_ Hm].
  pose proof (days_in_month_bounds year month Hm) as Hdays.
  cbv zeta. unfold get_donations_for_month.
  rewrite datetime_Ret by (done || lia). rewrite bind_of_result_Ret.
  unfold monthrange_days.
  rewrite (proj2 (Z.leb_le 1 month)), (proj2 (Z.leb_le month 12)) by lia. simpl andb.
  cbv iota. rewrite bind_of_result_Ret.
  rewrite datetime_Ret by (done || lia). rewrite bind_of_result_Ret.
  rewrite bind_print. unfold requests_get.
  match goal with |- context [http_get w ?a ?b ?c ?d] => destruct (http_get w a b c d) end;
    by rewrite <-app_assoc.
Qed.

(** X8: for a year from 1 to 9999 and a month from 1 to 12, the date
    arithmetic of [get_donations_for_month] raises nothing.  Whatever the
    world, one line is printed and one request is made: to
    [{api_base_url}/donations], with the bearer token in its headers, for the
    first day of the month through its last day, which is the 28th to the
    31st, and the 29th exactly in the February of a leap year.  The outcome is
    the answer of the API. *)
Theorem month_request_covers_the_month {F : Type} (pf : platform) (w : world F)
    (token base : string) (year month : Z) (h : list (call F)) :
  valid_month year month →
  (28 ≤ days_in_month year month ≤ 31)%Z ∧
  (days_in_month year month = 29%Z ↔ month = 2%Z ∧ isleap year = true) ∧
  let start_date := strftime_ymd pf (year, month, 1%Z) in
  let end_date := strftime_ymd pf (year, month, days_in_month year month) in
  let line :=
    Line ("Fetching donations for " +:+ pretty year +:+ "-" +:+ format_02d month
          +:+ " (" +:+ start_date +:+ " to " +:+ end_date +:+ ")...") in
  let url := base +:+ "/donations" in
  let headers :=
    [ ("Authorization", "Bearer " +:+ token);
      ("Content-Type", "application/json") ]%string in
  let params := [ ("start_date", start_date); ("end_date", end_date) ]%string in
  get_donations_for_month pf w (new_generator token base) year month h =
    (match http_get w (h ++ [Print line]) url headers params with
     | Response donations => Done donations
     | RequestFailed msg => Raised (RequestException msg)
     | ResponseInvalid msg => Raised (LibraryError msg)
     end,
     h ++ [Print line; HttpGet url headers params]).
Proof.
  intros Hv. pose proof Hv as [_ Hm].
  split; [by apply days_in_month_bounds|]. split; [by apply days_in_month_29|].
  by apply (get_donations_for_month_valid pf w (new_generator token base)).
Qed.

Lemma month_request_covers_the_month_witness :
  get_donations_for_month (Platform true "/")
      (World (λ _ _ _ _, Response january) (λ _ _, None))
      (new_generator "secret" "https://example.org") 2024 2 [] =
    (Done january,
     [ Print (Line "Fetching donations for 2024-02 (2024-02-01 to 2024-02-29)...");
       HttpGet "https://example.org/donations"
         [ ("Authorization", "Bearer secret"); ("Content-Type", "application/json") ]
         [ ("start_date", "2024-02-01"); ("end_date", "2024-02-29") ] ])%string.
Proof.
  destruct (month_request_covers_the_month (Platform true "/")
              (World (λ _ _ _ _, Response january) (λ _ _, None))
              "secret" "https://example.org" 2024 2 []) as (_ & _ & Hrun).
  - unfold valid_month. lia.
  - exact Hrun.
Defined.

(** X9: for any other year or month, [get_donations_for_month] raises at
    its first [datetime(year, month, 1)], before it prints anything or makes a
    request: [ValueError], and [OverflowError] only when the year or the month
    is beyond a C [int]. *)
Theorem month_request_rejects_other_months {F : Type} (pf : platform) (w : world F)
    (self : generator) (year month : Z) (h : list (call F)) :
  ¬ valid_month year month →
  get_donations_for_month pf w self year month h =
    (Raised (Builtin (if fits_int year && fits_int month
                      then ValueError else OverflowError)), h).
Proof.
  intros Hv. unfold get_donations_for_month. rewrite bind_unfold.
  unfold datetime. change (fits_int 1) with true. rewrite andb_true_r.
  destruct (fits_int year && fits_int month); simpl; [|done].
  destruct (Z.leb_spec 1 year), (Z.leb_spec year 9999); simpl; try done.
  destruct (Z.leb_spec 1 month), (Z.leb_spec month 12); simpl; try done.
  destruct Hv. split; lia.
Qed.

Lemma month_request_rejects_other_months_witness :
  get_donations_for_month (Platform true "/")
      (World (λ _ _ _ _, Response january) (λ _ _, None))
      (new_generator "secret" "https://example.org") 2023 13 [] =
    (Raised (Builtin ValueError), []) ∧
  get_donations_for_month (Platform true "/")
      (World (λ _ _ _ _, Response january) (λ _ _, None))
      (new_generator "secret" "https://example.org") 4294967296 1 [] =
    (Raised (Builtin OverflowError), []).
Proof.
  split.
  - apply (month_request_rejects_other_months (Platform true "/")
             (World (λ _ _ _ _, Response january) (λ _ _, None))
             (new_generator "secret" "https://example.org") 2023 13 []).
    unfold valid_month. lia.
  - apply (month_request_rejects_other_months (Platform true "/")
             (World (λ _ _ _ _, Response january) (λ _ _, None))
             (new_generator "secret" "https://example.org") 4294967296 1 []).
    unfold valid_month. lia.
Defined.

(** ** Lists of calls *)

Lemma omap_imap_None {A B C} (f : B → option C) (g : nat → A → B) (l : list A) :
  (∀ i x, f (g i x) = None) → omap f (imap g l) = [].
Proof.
  intros Hf. revert g Hf. induction l as [|x l IH]; intros g Hf; [done|].
  simpl. rewrite Hf. apply IH. intros i y. apply Hf.
Qed.

Lemma omap_imap_Some {A B C} (f : B → option C) (g : nat → A → B) (g' : nat → A → C)
    (l : list A) :
  (∀ i x, f (g i x) = Some (g' i x)) → omap f (imap g l) = imap g' l.
Proof.
  intros Hf. revert g g' Hf. induction l as [|x l IH]; intros g g' Hf; [done|].
  simpl. rewrite Hf. f_equal. apply IH. intros i y. apply Hf.
Qed.

Lemma filter_imap_false {A B} (p : B → bool) (g : nat → A → B) (l : list A) :
  (∀ i x, p (g i x) = false) → filter p (imap g l) = [].
Proof.
  intros Hp. revert g Hp. induction l as [|x l IH]; intros g Hp; [reflexivity|].
  simpl. rewrite filter_cons_False by (rewrite Hp; intros []). apply IH. intros i y. apply Hp.
Qed.

Lemma Forall_imap {A B} (P : B → Prop) (g : nat → A → B) (l : list A) :
  (∀ i x, P (g i x)) → Forall P (imap g l).
Proof.
  intros HP. revert g HP. induction l as [|x l IH]; intros g HP; simpl; constructor; [apply HP|]. apply IH. intros i y. apply HP.
Qed.

Lemma omap_cons_None {A B} (f : A → option B) (x : A) (l : list A) :
  f x = None → omap f (x :: l) = omap f l.
Proof. intros Hx. simpl. by rewrite Hx. Qed.

Lemma omap_cons_Some {A B} (f : A → option B) (x : A) (y : B) (l : list A) :
  f x = Some y → omap f (x :: l) = y :: omap f l.
Proof. intros Hx. simpl. by rewrite Hx. Qed.

Lemma omap_fmap_None {A B C} (f : B → option C) (g : A → B) (l : list A) :
  (∀ x, f (g x) = None) → omap f (g <$> l) = [].
Proof. intros Hf. induction l as [|x l IH]; [done|]. csimpl. by rewrite Hf. Qed.

Lemma filter_fmap_false {A B} (p : B → bool) (g : A → B) (l : list A) :
  (∀ x, p (g x) = false) → filter p (g <$> l) = [].
Proof.
  intros Hp. induction l as [|x l IH]; [done|]. csimpl.
  by rewrite filter_cons_False by (rewrite Hp; intros []).
Qed.

Lemma omap_bind {A B C} (f : B → option C) (g : A → list B) (l : list A) :
  omap f (l ≫= g) = l ≫= (λ x, omap f (g x)).
Proof. induction l as [|x l IH]; [done|]. csimpl. by rewrite omap_app, IH. Qed.

Lemma omap_bind_None {A B C} (f : B → option C) (g : A → list B) (l : list A) :
  (∀ x, omap f (g x) = []) → omap f (l ≫= g) = [].
Proof.
  intros Hf. induction l as [|x l IH]; [done|]. csimpl. by rewrite omap_app, Hf, IH.
Qed.

Lemma filter_bind_false {A B} (p : B → bool) (g : A → list B) (l : list A) :
  (∀ x, filter p (g x) = []) → filter p (l ≫= g) = [].
Proof.
  intros Hp. induction l as [|x l IH]; [done|]. csimpl. by rewrite filter_app, Hp, IH.
Qed.

Lemma last_cons_app {A} (x : A) l1 y l2 : last (x :: l1 ++ y :: l2) = last (y :: l2).
Proof. by rewrite app_comm_cons, last_app_cons. Qed.

Ltac observe_step :=
  first
    [ rewrite omap_app
    | rewrite filter_app
    | rewrite length_app
    | rewrite omap_imap_None by done
    | rewrite filter_imap_false by done
    | erewrite omap_imap_Some by reflexivity
    | rewrite omap_fmap_None by done
    | rewrite filter_fmap_false by done
    | rewrite omap_bind_None by done
    | rewrite filter_bind_false by done
    | rewrite omap_bind
    | rewrite omap_cons_None by reflexivity
    | erewrite omap_cons_Some by reflexivity
    | rewrite filter_cons_True by exact I
    | rewrite filter_cons_False by (intros []) ].

Ltac observe_last :=
  repeat first [rewrite last_cons_cons | rewrite last_cons_app]; reflexivity.

Ltac observe_library :=
  repeat first
    [ apply Forall_nil_2
    | apply Forall_cons_2; [exact I|]
    | apply Forall_app_2
    | apply Forall_imap; intros; exact I
    | apply Forall_fmap, Forall_true; intros; exact I
    | apply Forall_bind, Forall_true; intros; repeat constructor ].

(** What a trace shows, computed: the lists are taken apart call by call. *)
Ltac observe :=
  repeat observe_step;
  first
    [ reflexivity
    | simpl; rewrite ?app_nil_r; reflexivity
    | observe_last
    | observe_library ].

(** ** The charts *)

Section ChartFacts.
Context {F : Type} `{FloatFormat F} (pf : platform) (w : world F).
Implicit Types (h t : list (call F)) (c : call F).

Lemma label_bars_quiet (totals : list F) h :
  quiet w →
  label_bars w totals h =
    (Done (),
     h ++ imap (λ i total,
                  Plt (PltText (AtBarTip i) ("$" +:+ format_2f total) "left" "center"))
            totals).
Proof.
  intros Hq. unfold label_bars.
  enough (∀ (g : nat → nat) h,
            for_ (imap (λ i total, (g i, total)) totals)
              (λ '(i, total),
                 library w (Plt (PltText (AtBarTip i) ("$" +:+ format_2f total)
                                   "left" "center"))) h =
            (Done (),
             h ++ imap (λ i total,
                          Plt (PltText (AtBarTip (g i)) ("$" +:+ format_2f total)
                                 "left" "center")) totals)) as Hgen
    by apply (Hgen (λ i, i)).
  induction totals as [|x totals IH]; intros g h'; simpl.
  - by rewrite app_nil_r.
  - rewrite bind_library_quiet by done.
    rewrite (IH (g ∘ S)). by rewrite <-app_assoc.
Qed.

Lemma create_visualizations_quiet (a : analysis F) (year month : Z) h :
  quiet w → (-13 ≤ month ≤ 12)%Z →
  let daily_revenue_path :=
    path_join pf "report_images"
      ("daily_revenue_" +:+ pretty year +:+ "_" +:+ pretty month +:+ ".png") in
  let top_supporters_path :=
    path_join pf "report_images"
      ("top_supporters_" +:+ pretty year +:+ "_" +:+ pretty month +:+ ".png") in
  ∃ t,
    create_visualizations pf w a year month h =
      (Done (daily_revenue_path, top_supporters_path), h ++ t) ∧
    head t = Some (Makedirs "report_images") ∧
    Forall is_library t ∧
    omap saved_chart t = [daily_revenue_path; top_supporters_path] ∧
    length (filter is_figure t) = 2 ∧
    length (filter is_close t) = 2 ∧
    length (filter is_placeholder t) =
      (match daily_revenue a with [] => 1 | _ => 0 end) +
      (match top_supporters a with [] => 1 | _ => 0 end) ∧
    omap bars t =
      (match daily_revenue a with
       | [] => []
       | _ => [(dict_keys (daily_revenue a), dict_values (daily_revenue a))]
       end) ++
      (match top_supporters a with
       | [] => []
       | _ => [(top_name <$> top_supporters a, total_donated <$> top_supporters a)]
       end) ∧
    omap bar_label t =
      imap (λ i x, (i, "$" +:+ format_2f x)) (total_donated <$> top_supporters a) ∧
    omap written_report t = [] ∧
    omap embedded_image t = [] ∧
    omap touched_file t = [daily_revenue_path; top_supporters_path] ∧
    omap table_cell t = [] ∧
    filter is_request t = [].
Proof.
  intros Hq Hm. cbv zeta. unfold create_visualizations.
  destruct (bind_month_name (F := F) month Hm) as [name Hname].
  destruct (daily_revenue a) as [|day daily] eqn:Hdaily;
  destruct (top_supporters a) as [|top tops] eqn:Htop;
    repeat first
      [ rewrite bind_assoc
      | rewrite bind_library_quiet by done
      | rewrite bind_ret
      | rewrite Hname
      | rewrite bind_unfold, label_bars_quiet by done ];
    rewrite <-!app_assoc; cbn [app];
    (eexists; split; [reflexivity|]).
  - repeat split; observe.
  - cbv beta iota. rewrite <-Htop. repeat split; observe.
  - cbv beta iota. rewrite <-Hdaily. repeat split; observe.
  - cbv beta iota. rewrite <-Hdaily, <-Htop. repeat split; observe.
Qed.
End ChartFacts.

(** ** File names *)

Lemma append_cons a s t : String a s +:+ t = String a (s +:+ t).
Proof. reflexivity. Qed.

Lemma append_inj_l s a b : s +:+ a = s +:+ b → a = b.
Proof.
  induction s as [|c s IH]; [done|]. rewrite !append_cons. intros [= Heq]. auto.
Qed.

Lemma append_split c a b a' b' :
  occurs c a = false → occurs c a' = false →
  a +:+ String c b = a' +:+ String c b' → a = a' ∧ b = b'.
Proof.
  revert a'. induction a as [|x a IH]; intros [|x' a']; rewrite ?append_cons; simpl.
  - by intros _ _ [= ->].
  - intros _ Hx' [= <- _]. by rewrite decide_True in Hx'.
  - intros Hx _ [= -> _]. by rewrite decide_True in Hx.
  - destruct (decide (c = x)); [done|]. destruct (decide (c = x')); [done|].
    intros Ha Ha' [= -> Heq]. destruct (IH a' Ha Ha' Heq) as [-> ->]. done.
Qed.

Lemma occurs_pretty_N_go c x s :
  (∀ d, pretty_N_char d ≠ c) → occurs c (pretty_N_go x s) = occurs c s.
Proof.
  intros Hc. revert s. induction (N.lt_wf_0 x) as [x _ IH]; intros s.
  assert (x = 0 ∨ 0 < x)%N as [->|Hx] by lia; [by rewrite pretty_N_go_0|].
  rewrite pretty_N_go_step by done. rewrite IH by by apply N.div_lt.
  simpl. rewrite decide_False; [done|]. intros ->. by eapply Hc.
Qed.

Lemma occurs_pretty_Z c (z : Z) :
  (∀ d, pretty_N_char d ≠ c) → c ≠ "-"%char → occurs c (pretty z) = false.
Proof.
  intros Hc Hdash.
  assert (∀ p : positive, occurs c (pretty p) = false) as Hpos.
  { intros p. unfold pretty, pretty_positive, pretty, pretty_N.
    rewrite decide_False by done. by rewrite occurs_pretty_N_go. }
  destruct z as [|p|p]; unfold pretty at 1, pretty_Z.
  - simpl. rewrite decide_False; [done|]. intros ->. by eapply (Hc 0%N).
  - apply Hpos.
  - rewrite append_cons. simpl. rewrite decide_False by done. apply Hpos.
Qed.

Lemma pretty_N_char_underscore d : pretty_N_char d ≠ "_"%char.
Proof. unfold pretty_N_char. by repeat case_match. Qed.

Lemma pretty_N_char_dot d : pretty_N_char d ≠ "."%char.
Proof. unfold pretty_N_char. by repeat case_match. Qed.

(** A name of the form [{year}_{tail}.] determines the year and the tail, when
    the tail has no dot. *)
Lemma year_tail_inj (year year' : Z) (tail tail' ext ext' : string) :
  occurs "." tail = false → occurs "." tail' = false →
  pretty year +:+ "_" +:+ tail +:+ String "." ext =
    pretty year' +:+ "_" +:+ tail' +:+ String "." ext' →
  year = year' ∧ tail = tail'.
Proof.
  intros Htail Htail' Heq.
  change (pretty year +:+ String "_" (tail +:+ String "." ext) =
          pretty year' +:+ String "_" (tail' +:+ String "." ext')) in Heq.
  apply append_split in Heq as [Hyear Heq];
    [|by apply occurs_pretty_Z; [apply pretty_N_char_underscore|]..].
  apply (inj pretty) in Hyear as ->.
  by apply append_split in Heq as [-> _].
Qed.

Lemma format_02d_inj month month' :
  (1 ≤ month ≤ 12)%Z → (1 ≤ month' ≤ 12)%Z →
  format_02d month = format_02d month' → month = month'.
Proof.
  intros Hm Hm'. month_cases Hm; month_cases Hm'; by (reflexivity || discriminate).
Qed.

Lemma occurs_format_02d month : (1 ≤ month ≤ 12)%Z → occurs "." (format_02d month) = false.
Proof. intros Hm. by month_cases Hm. Qed.

(** ** Whatever the outside does *)

Section AnyWorld.
Context {F : Type} (w : world F).
Implicit Types (h t : list (call F)) (c : call F) (P : call F → Prop).

Lemma emits_ret {A} P (a : A) : emits P (mret a : io F A).
Proof. intros h. exists []. by rewrite app_nil_r. Qed.

Lemma emits_of_result {A} P (r : result A) : emits P (of_result r : io F A).
Proof. intros h. exists []. rewrite app_nil_r. by destruct r. Qed.

Lemma emits_month_name P month : emits P (month_name month : io F string).
Proof.
  intros h. exists []. rewrite app_nil_r. unfold month_name.
  by destruct (if (0 <=? _)%Z then _ else _).
Qed.

Lemma emits_print P l : P (Print l) → emits P (print l : io F ()).
Proof. intros HP h. exists [Print l]. split; [done|]. by constructor. Qed.

Lemma emits_library P c : P c → emits P (library w c).
Proof.
  intros HP h. exists [c]. split; [|by constructor].
  unfold library. by destruct (fails w h c).
Qed.

Lemma emits_requests_get P url headers params :
  P (HttpGet url headers params) → emits P (requests_get w url headers params).
Proof.
  intros HP h. exists [HttpGet url headers params]. split; [|by constructor].
  unfold requests_get. by destruct (http_get w h url headers params).
Qed.

Lemma emits_bind {A B} P (m : io F A) (k : A → io F B) :
  emits P m → (∀ a, emits P (k a)) → emits P (m ≫= k).
Proof.
  intros Hm Hk h. rewrite bind_unfold. destruct (Hm h) as (t & Ht & HPt).
  destruct (m h) as [[a|e|code] h']; simpl in Ht; subst h'; [|by exists t..].
  destruct (Hk a (h ++ t)) as (t' & Ht' & HPt').
  exists (t ++ t'). rewrite Ht', app_assoc. split; [done|]. by apply Forall_app.
Qed.

Lemma emits_for {A} P (l : list A) (body : A → io F ()) :
  (∀ x, emits P (body x)) → emits P (for_ l body).
Proof.
  intros Hbody. induction l as [|x l IH]; simpl; [apply emits_ret|].
  by apply emits_bind.
Qed.

Lemma emits_try_except {A} P (body : io F A) handler :
  emits P body → (∀ e k, handler e = Some k → emits P k) →
  emits P (try_except body handler).
Proof.
  intros Hbody Hhandler h. unfold try_except.
  destruct (Hbody h) as (t & Ht & HPt).
  destruct (body h) as [[a|e|code] h']; simpl in Ht; subst h'; [by exists t| |by exists t].
  destruct (handler e) as [k|] eqn:Hk; [|by exists t].
  destruct (Hhandler e k Hk (h ++ t)) as (t' & Ht' & HPt').
  exists (t ++ t'). rewrite Ht', app_assoc. split; [done|]. by apply Forall_app.
Qed.

Lemma no_exit_ret {A} (a : A) : no_exit (mret a : io F A).
Proof. by intros h code. Qed.

Lemma no_exit_of_result {A} (r : result A) : no_exit (of_result r : io F A).
Proof. intros h code. by destruct r. Qed.

Lemma no_exit_month_name month : no_exit (month_name month : io F string).
Proof.
  intros h code. unfold month_name. by destruct (if (0 <=? _)%Z then _ else _).
Qed.

Lemma no_exit_print l : no_exit (print l : io F ()).
Proof. by intros h code. Qed.

Lemma no_exit_library c : no_exit (library w c).
Proof. intros h code. unfold library. by destruct (fails w h c). Qed.

Lemma no_exit_requests_get url headers params :
  no_exit (requests_get w url headers params).
Proof.
  intros h code. unfold requests_get. by destruct (http_get w h url headers params).
Qed.

Lemma no_exit_bind {A B} (m : io F A) (k : A → io F B) :
  no_exit m → (∀ a, no_exit (k a)) → no_exit (m ≫= k).
Proof.
  intros Hm Hk h code. rewrite bind_unfold. specialize (Hm h).
  destruct (m h) as [[a|e|code'] h']; simpl in *; [apply Hk|done|].
  by destruct (Hm code').
Qed.

Lemma no_exit_for {A} (l : list A) (body : A → io F ()) :
  (∀ x, no_exit (body x)) → no_exit (for_ l body).
Proof.
  intros Hbody. induction l as [|x l IH]; simpl; [apply no_exit_ret|].
  by apply no_exit_bind.
Qed.

Lemma ends_with_bind {A B} (m : io F A) (k : A → io F B) cs v :
  emits (λ _, True) m → (∀ a, ends_with (k a) cs v) → ends_with (m ≫= k) cs v.
Proof.
  intros Hm Hk h b t'. rewrite bind_unfold. destruct (Hm h) as (t & Ht & _).
  destruct (m h) as [[a|e|code] h']; simpl in Ht; subst h'; [|done..].
  intros (-> & t2 & ->)%Hk. split; [done|]. exists (t ++ t2). by rewrite !app_assoc.
Qed.

Lemma ends_with_library {A} c (v : A) :
  ends_with (library w c ≫= λ _, mret v) [c] v.
Proof.
  intros h a t'. rewrite bind_library. destruct (fails w h c); [done|].
  intros [= <- <-]. split; [done|]. exists []. by rewrite app_nil_l.
Qed.

Lemma ends_with_print {A} (m : io F A) cs v (f : A → line) :
  ends_with m cs v → ends_with (m ≫= λ a, print (f a)) (cs ++ [Print (f v)]) ().
Proof.
  intros Hm h [] t'. rewrite bind_unfold.
  destruct (m h) as [[a'|e|code] h'] eqn:Hrun; [|done..].
  destruct (Hm h a' h' Hrun) as (-> & t & ->).
  intros [= <-]. split; [done|]. exists t. by rewrite !app_assoc.
Qed.
End AnyWorld.

Ltac emits_step :=
  first
    [ apply emits_ret
    | apply emits_of_result
    | apply emits_month_name
    | apply emits_print; first [exact I | reflexivity]
    | apply emits_library; first [exact I | reflexivity | by split]
    | apply emits_requests_get; exact I
    | apply emits_for; intros ?
    | apply emits_bind; [|intros ?] ].

Ltac no_exit_step :=
  first
    [ apply no_exit_ret
    | apply no_exit_of_result
    | apply no_exit_month_name
    | apply no_exit_print
    | apply no_exit_library
    | apply no_exit_requests_get
    | apply no_exit_for; intros ?
    | apply no_exit_bind; [|intros ?] ].

Section AnyWorldPrograms.
Context {F : Type} `{Number F} `{Summation F} `{FloatFormat F}.
Context (pf : platform) (w : world F).

Lemma emits_get_donations_for_month self year month :
  emits (λ _, True) (get_donations_for_month pf w self year month).
Proof. unfold get_donations_for_month. repeat emits_step. Qed.

Lemma emits_create_visualizations a year month :
  emits (λ c, is_library c) (create_visualizations pf w a year month).
Proof.
  unfold create_visualizations, label_bars.
  destruct (daily_revenue a), (top_supporters a);
    repeat first [emits_step | match goal with p : (_ * _)%type |- _ => destruct p end].
Qed.

Lemma emits_generate_pdf_report a year month img1 img2 :
  emits (λ c, is_library c) (generate_pdf_report w a year month img1 img2).
Proof. unfold generate_pdf_report, supporter_row. repeat emits_step. Qed.

Lemma no_exit_pipeline self year month : no_exit (pipeline pf w self year month).
Proof.
  unfold pipeline, get_donations_for_month, analyze, create_visualizations,
    generate_pdf_report, supporter_row, label_bars.
  repeat first
    [ no_exit_step
    | match goal with p : (_ * _)%type |- _ => destruct p end
    | match goal with |- context [match ?l with [] => _ | _ :: _ => _ end] => destruct l end ].
Qed.
End AnyWorldPrograms.

Section ChartTheorems.
Context {F : Type} `{FloatFormat F}.

Lemma create_visualizations_Done pf (w : world F) a year month h r t :
  create_visualizations pf w a year month h = (Done r, t) →
  r = (path_join pf "report_images"
         ("daily_revenue_" +:+ pretty year +:+ "_" +:+ pretty month +:+ ".png"),
       path_join pf "report_images"
         ("top_supporters_" +:+ pretty year +:+ "_" +:+ pretty month +:+ ".png")).
Proof.
  unfold create_visualizations. intros Hrun.
  do 3 apply bind_Done_inv in Hrun as (? & ? & _ & Hrun).
  by injection Hrun as <- _.
Qed.

Lemma chart_path_inj pf (stem : string) (year month year' month' : Z) :
  path_join pf "report_images" (stem +:+ pretty year +:+ "_" +:+ pretty month +:+ ".png") =
  path_join pf "report_images" (stem +:+ pretty year' +:+ "_" +:+ pretty month' +:+ ".png") →
  year = year' ∧ month = month'.
Proof.
  unfold path_join. intros Heq.
  do 3 apply append_inj_l in Heq.
  apply (year_tail_inj _ _ _ _ "png" "png") in Heq as [-> Hmonth];
    [|by apply occurs_pretty_Z; [apply pretty_N_char_dot|]..].
  by apply (inj pretty) in Hmonth as ->.
Qed.
End ChartTheorems.

(** X10: when no library call fails and [calendar.month_name] has the
    month, [create_visualizations] returns the two paths at which it has
    saved a chart, the daily chart first; the two paths differ.  It creates
    the image directory first, opens two figures and closes two, and neither
    prints nor makes a request. *)
Theorem charts_are_saved_where_returned {F : Type} `{FloatFormat F}
    (pf : platform) (w : world F) (a : analysis F) (year month : Z)
    (h : list (call F)) :
  quiet w → (-13 ≤ month ≤ 12)%Z →
  ∃ daily_revenue_path top_supporters_path t,
    create_visualizations pf w a year month h =
      (Done (daily_revenue_path, top_supporters_path), h ++ t) ∧
    daily_revenue_path ≠ top_supporters_path ∧
    head t = Some (Makedirs "report_images") ∧
    omap saved_chart t = [daily_revenue_path; top_supporters_path] ∧
    length (filter is_figure t) = 2 ∧
    length (filter is_close t) = 2 ∧
    Forall is_library t.
Proof.
  intros Hq Hm.
  destruct (create_visualizations_quiet pf w a year month h Hq Hm)
    as (t & Hrun & Hhead & Hlib & Hsaved & Hfig & Hclose & _).
  eexists _, _, t. split; [exact Hrun|]. split; [|done].
  unfold path_join. intros Heq. by do 2 apply append_inj_l in Heq.
Qed.

Lemma charts_are_saved_where_returned_witness :
  ∃ t,
    create_visualizations (Platform true "/") (World (λ _ _ _ _, Response []) (λ _ _, None))
        whole_cents_summary 2023 3 [] =
      (Done ("report_images/daily_revenue_2023_3.png",
             "report_images/top_supporters_2023_3.png")%string, t) ∧
    omap saved_chart t =
      [ "report_images/daily_revenue_2023_3.png";
        "report_images/top_supporters_2023_3.png" ]%string.
Proof.
  destruct (charts_are_saved_where_returned (Platform true "/")
              (World (λ _ _ _ _, Response []) (λ _ _, None))
              whole_cents_summary 2023 3 [])
    as (p1 & p2 & t & Hrun & _ & _ & Hsaved & _).
  - intros h c. reflexivity.
  - lia.
  - exists t. vm_compute in Hrun. injection Hrun as <- <- <-. split; [reflexivity|].
    vm_compute. reflexivity.
Defined.

(** X11: a month that [calendar.month_name] does not have makes
    [create_visualizations] raise [IndexError] when it builds the first
    title: the directory is made and a figure is open by then, no chart is
    saved and the figure is not closed. *)
Theorem charts_need_a_month_name {F : Type} `{FloatFormat F}
    (pf : platform) (w : world F) (a : analysis F) (year month : Z)
    (h : list (call F)) :
  quiet w → ¬ (-13 ≤ month ≤ 12)%Z →
  ∃ t,
    create_visualizations pf w a year month h = (Raised IndexError, h ++ t) ∧
    head t = Some (Makedirs "report_images") ∧
    omap saved_chart t = [] ∧
    length (filter is_figure t) = 1 ∧
    filter is_close t = [].
Proof.
  intros Hq Hm. unfold create_visualizations.
  destruct (daily_revenue a) as [|day daily];
    repeat first
      [ rewrite bind_assoc
      | rewrite bind_library_quiet by done ];
    rewrite bind_unfold, month_name_Raised by done;
    rewrite <-!app_assoc; cbn [app];
    (eexists; split; [reflexivity|]);
    repeat split; observe.
Qed.

Lemma charts_need_a_month_name_witness :
  ∃ t,
    create_visualizations (Platform true "/") (World (λ _ _ _ _, Response []) (λ _ _, None))
        whole_cents_summary 2023 13 [] = (Raised IndexError, t) ∧
    omap saved_chart t = [].
Proof.
  destruct (charts_need_a_month_name (Platform true "/")
              (World (λ _ _ _ _, Response []) (λ _ _, None))
              whole_cents_summary 2023 13 [])
    as (t & Hrun & _ & Hsaved & _).
  - intros h c. reflexivity.
  - lia.
  - exists t. split; [exact Hrun|exact Hsaved].
Defined.

Section ChartsOfAnalysis.
Context {F : Type} `{Number F} `{Summation F}.
Implicit Types (ds : list (donation F)).

Lemma match_nil_iff {A B C} (l : list A) (l' : list B) (x y : C) :
  (l = [] ↔ l' = []) →
  match l with [] => x | _ :: _ => y end = match l' with [] => x | _ :: _ => y end.
Proof.
  destruct l, l'; intros [Hl Hl']; try done;
    [discriminate (Hl eq_refl)|discriminate (Hl' eq_refl)].
Qed.

Lemma daily_of_nil ds : daily_of ds = [] ↔ filter has_created_at ds = [].
Proof.
  split.
  - intros Hnil. pose proof (dict_keys_daily_of ds) as Hkeys. rewrite Hnil in Hkeys.
    destruct (filter has_created_at ds); [done|]. cbn in Hkeys. discriminate Hkeys.
  - intros Hnil. unfold daily_of, dated. by rewrite Hnil.
Qed.

Lemma top_of_nil ds : top_of (sort_supporters (totals_of ds)) = [] ↔ ds = [].
Proof.
  split; [|by intros ->].
  intros Hnil. apply (f_equal length) in Hnil. revert Hnil.
  unfold top_of, sort_supporters.
  rewrite length_fmap, length_take, sorted_reverse_Permutation.
  rewrite <-(length_fmap fst (totals_of ds)).
  change (fst <$> totals_of ds) with (dict_keys (totals_of ds)).
  rewrite dict_keys_totals_of. destruct ds; [done|]. simpl. lia.
Qed.

Lemma analysis_nil ds s :
  analyze_donations ds = Ret s →
  dict_keys (daily_revenue s) = first_seen (date_of <$> filter has_created_at ds) ∧
  (daily_revenue s = [] ↔ filter has_created_at ds = []) ∧
  (top_supporters s = [] ↔ ds = []).
Proof.
  intros [_ [[-> ->]|[_ ->]]]%analyze_donations_Ret; [done|]. simpl.
  split; [apply dict_keys_daily_of|]. split; [apply daily_of_nil|apply top_of_nil].
Qed.
End ChartsOfAnalysis.

(** X12: the charts show what the analysis has found.  Of the summary of
    [ds], the daily chart has one bar for each date of a record with a
    timestamp, in first-seen order, and the supporters chart one bar for each
    of the top supporters; a chart without bars gets the text "No data
    available" instead.  The supporters chart is without data only for an
    empty input, the daily chart whenever no record has a timestamp. *)
Theorem charts_show_what_the_analysis_found {F : Type}
    `{Number F} `{Summation F} `{FloatFormat F}
    (pf : platform) (w : world F) (ds : list (donation F)) (s : analysis F)
    (year month : Z) (h : list (call F)) :
  analyze_donations ds = Ret s →
  quiet w → (-13 ≤ month ≤ 12)%Z →
  ∃ r t,
    create_visualizations pf w s year month h = (Done r, h ++ t) ∧
    length (filter is_placeholder t) =
      (match filter has_created_at ds with [] => 1 | _ :: _ => 0 end) +
      (match ds with [] => 1 | _ :: _ => 0 end) ∧
    omap bars t =
      (match filter has_created_at ds with
       | [] => []
       | _ :: _ => [(first_seen (date_of <$> filter has_created_at ds),
                     dict_values (daily_revenue s))]
       end) ++
      (match ds with
       | [] => []
       | _ :: _ => [(top_name <$> top_supporters s, total_donated <$> top_supporters s)]
       end).
Proof.
  intros Hs Hq Hm.
  destruct (create_visualizations_quiet pf w s year month h Hq Hm)
    as (t & Hrun & _ & _ & _ & _ & _ & Hplace & Hbars & _).
  destruct (analysis_nil ds s Hs) as (Hkeys & Hdaily & Htop).
  eexists _, t. split; [exact Hrun|]. rewrite Hplace, Hbars, Hkeys. split.
  - f_equal; by apply match_nil_iff.
  - f_equal; by apply match_nil_iff.
Qed.

Lemma charts_show_what_the_analysis_found_witness :
  ∃ r t,
    create_visualizations (Platform true "/") (World (λ _ _ _ _, Response []) (λ _ _, None))
        whole_cents_summary 2023 3 [] = (Done r, t) ∧
    length (filter is_placeholder t) = 0 ∧
    omap bars t =
      [ (["2023-03-01"; "2023-03-02"], [120; 10]);
        (["Supporter 3"; "Supporter 1"; "Supporter 2"], [110; 10; 10]) ]%string%Z.
Proof.
  destruct (charts_show_what_the_analysis_found (Platform true "/")
              (World (λ _ _ _ _, Response []) (λ _ _, None))
              whole_cents whole_cents_summary 2023 3 [])
    as (r & t & Hrun & Hplace & Hbars).
  - vm_compute. reflexivity.
  - intros h c. reflexivity.
  - lia.
  - exists r, t. split; [exact Hrun|]. split; [exact Hplace|exact Hbars].
Defined.

(** X13: every bar of the supporters chart gets one label, in the order of
    the bars: the label at the tip of bar [i] is the total of the [i]-th top
    supporter, written with a dollar sign and two decimals; and every chart
    is given as many sizes as names. *)
Theorem every_bar_gets_its_label {F : Type} `{FloatFormat F}
    (pf : platform) (w : world F) (a : analysis F) (year month : Z)
    (h : list (call F)) :
  quiet w → (-13 ≤ month ≤ 12)%Z →
  ∃ r t,
    create_visualizations pf w a year month h = (Done r, h ++ t) ∧
    omap bar_label t =
      imap (λ i x, (i, "$" +:+ format_2f (total_donated x))) (top_supporters a) ∧
    Forall (λ b, length b.1 = length b.2) (omap bars t) ∧
    (top_supporters a ≠ [] →
     last (omap bars t) =
       Some (top_name <$> top_supporters a, total_donated <$> top_supporters a)).
Proof.
  intros Hq Hm.
  destruct (create_visualizations_quiet pf w a year month h Hq Hm)
    as (t & Hrun & _ & _ & _ & _ & _ & _ & Hbars & Hlabels & _).
  eexists _, t. split; [exact Hrun|]. rewrite Hlabels, Hbars. split; [|split].
  - by rewrite imap_fmap.
  - apply Forall_app. split.
    + destruct (daily_revenue a) eqn:Hdaily; constructor; [|done].
      simpl. unfold dict_keys, dict_values. by rewrite !length_fmap.
    + destruct (top_supporters a); constructor; [|done]. simpl. by rewrite !length_fmap.
  - intros Htop. destruct (top_supporters a); [done|]. by rewrite last_snoc.
Qed.

Lemma every_bar_gets_its_label_witness :
  ∃ r t,
    create_visualizations (Platform true "/") (World (λ _ _ _ _, Response []) (λ _ _, None))
        whole_cents_summary 2023 3 [] = (Done r, t) ∧
    omap bar_label t = [ (0, "$110.00"); (1, "$10.00"); (2, "$10.00") ]%string.
Proof.
  destruct (every_bar_gets_its_label (Platform true "/")
              (World (λ _ _ _ _, Response []) (λ _ _, None))
              whole_cents_summary 2023 3 [])
    as (r & t & Hrun & Hlabels & _).
  - intros h c. reflexivity.
  - lia.
  - exists r, t. split; [exact Hrun|exact Hlabels].
Defined.

(** X14: the paths that [create_visualizations] returns tell the year and
    the month.  Whatever the outside does, two calls return the same daily
    path, or the same supporters path, only for the same year and month, and
    a daily path is never a supporters path. *)
Theorem chart_paths_identify_the_month {F : Type} `{FloatFormat F}
    (pf : platform) (w w' : world F) (a a' : analysis F)
    (year month year' month' : Z) (h h' t t' : list (call F))
    (daily top daily' top' : string) :
  create_visualizations pf w a year month h = (Done (daily, top), t) →
  create_visualizations pf w' a' year' month' h' = (Done (daily', top'), t') →
  daily ≠ top' ∧
  (daily = daily' → year = year' ∧ month = month') ∧
  (top = top' → year = year' ∧ month = month').
Proof.
  intros [= -> ->]%create_visualizations_Done [= -> ->]%create_visualizations_Done.
  split; [|split].
  - unfold path_join. intros Heq. by do 2 apply append_inj_l in Heq.
  - apply chart_path_inj.
  - apply chart_path_inj.
Qed.

Lemma chart_paths_identify_the_month_witness :
  ("report_images/daily_revenue_2023_3.png" ≠ "report_images/top_supporters_2023_4.png")%string.
Proof.
  destruct (chart_paths_identify_the_month (Platform true "/")
              (World (λ _ _ _ _, Response []) (λ _ _, None))
              (World (λ _ _ _ _, Response []) (λ _ _, None))
              whole_cents_summary whole_cents_summary 2023 3 2023 4 [] []
              (create_visualizations (Platform true "/")
                 (World (λ _ _ _ _, Response []) (λ _ _, None))
                 whole_cents_summary 2023 3 []).2
              (create_visualizations (Platform true "/")
                 (World (λ _ _ _ _, Response []) (λ _ _, None))
                 whole_cents_summary 2023 4 []).2
              "report_images/daily_revenue_2023_3.png"
              "report_images/top_supporters_2023_3.png"
              "report_images/daily_revenue_2023_4.png"
              "report_images/top_supporters_2023_4.png") as [Hne _].
  - vm_compute. reflexivity.
  - vm_compute. reflexivity.
  - exact Hne.
Defined.

(** ** The report *)

Section ReportFacts.
Context {F : Type} `{FloatFormat F} (w : world F).
Implicit Types (h t : list (call F)) (c : call F).

Lemma supporter_row_quiet (supporter : top_supporter F) h :
  quiet w →
  supporter_row w supporter h =
    (Done (),
     h ++ [ Pdf (Cell 60 8 (top_name supporter) 1 0 "");
            Pdf (Cell 50 8 ("$" +:+ format_comma_2f (total_donated supporter)) 1 0 "");
            Pdf (Cell 40 8 (pretty (donation_count supporter)) 1 0 "");
            Pdf (Ln None) ]).
Proof.
  intros Hq. unfold supporter_row.
  repeat first [rewrite bind_assoc | rewrite bind_library_quiet by done].
  rewrite library_quiet by done. by rewrite <-!app_assoc.
Qed.

Lemma supporter_rows_quiet (l : list (top_supporter F)) h :
  quiet w →
  for_ l (supporter_row w) h =
    (Done (),
     h ++ (l ≫= λ supporter,
             [ Pdf (Cell 60 8 (top_name supporter) 1 0 "");
               Pdf (Cell 50 8 ("$" +:+ format_comma_2f (total_donated supporter)) 1 0 "");
               Pdf (Cell 40 8 (pretty (donation_count supporter)) 1 0 "");
               Pdf (Ln None) ])).
Proof.
  intros Hq. revert h. induction l as [|x l IH]; intros h.
  - by rewrite app_nil_r.
  - simpl. rewrite bind_unfold, supporter_row_quiet by done.
    rewrite IH. csimpl. by rewrite <-!app_assoc.
Qed.

Lemma generate_pdf_report_quiet (a : analysis F) (year month : Z) (img1 img2 : string) h :
  quiet w → (-13 ≤ month ≤ 12)%Z →
  ∃ t,
    generate_pdf_report w a year month img1 img2 h =
      (Done (report_filename year month), h ++ t) ∧
    Forall is_library t ∧
    last t = Some (Pdf (Output (report_filename year month))) ∧
    omap written_report t = [report_filename year month] ∧
    omap page_or_image t = [None; Some img1; None; Some img2] ∧
    omap table_cell t =
      (top_supporters a ≫= λ supporter,
         [ top_name supporter;
           "$" +:+ format_comma_2f (total_donated supporter);
           pretty (donation_count supporter) ]) ∧
    omap saved_chart t = [] ∧
    omap embedded_image t = [img1; img2] ∧
    omap touched_file t = [img1; img2; report_filename year month] ∧
    filter is_request t = [] ∧
    omap bar_label t = [].
Proof.
  intros Hq Hm. unfold generate_pdf_report.
  destruct (bind_month_name (F := F) month Hm) as [name Hname].
  repeat first
    [ rewrite bind_assoc
    | rewrite bind_library_quiet by done
    | rewrite bind_ret
    | rewrite Hname
    | rewrite bind_unfold, supporter_rows_quiet by done
    | rewrite bind_unfold, (for_quiet w (λ stat, Pdf (Cell 0 8 stat 0 1 ""))) by done ].
  rewrite <-!app_assoc; cbn [app].
  eexists; split; [reflexivity|].
  repeat split; observe.
Qed.
End ReportFacts.

Section ReportAnyWorld.
Context {F : Type} `{FloatFormat F} (w : world F).
Implicit Types (h t : list (call F)) (c : call F).

Lemma omap_removelast_nil {A B} (f : A → option B) (l : list A) :
  omap f l = [] → omap f (removelast l) = [].
Proof.
  induction l as [|x l IH]; [done|]. simpl. destruct (f x) eqn:Hx; [done|].
  intros Hl. destruct l; [done|]. simpl. rewrite Hx. by apply IH.
Qed.

Lemma omap_Forall_None {A B} (f : A → option B) (P : A → Prop) (l : list A) :
  Forall (λ x, P x ∧ f x = None) l → omap f l = [].
Proof. induction 1 as [|x l [_ Hx] _ IH]; [done|]. simpl. by rewrite Hx. Qed.

Lemma writes_last_bind {A B} (m : io F A) (k : A → io F B) name v :
  emits (λ c, is_library c ∧ written_report c = None) m →
  no_exit m →
  (∀ a, writes_last (k a) name v) →
  writes_last (m ≫= k) name v.
Proof.
  intros Hm Hne Hk h. destruct (Hm h) as (t & Ht & HP). specialize (Hne h).
  rewrite bind_unfold.
  destruct (m h) as [[a|e|code] h']; simpl in Ht, Hne; subst h'.
  - destruct (Hk a (h ++ t)) as (t' & Ht' & Hlib & Hrm & Hexit & Hdone).
    exists (t ++ t'). rewrite Ht', app_assoc. split; [done|]. split.
    { apply Forall_app. split; [|done]. eapply Forall_impl; [exact HP|]. by intros c []. }
    split; [|split; [done|]].
    + destruct t' as [|c t'].
      * rewrite app_nil_r. eapply omap_removelast_nil, omap_Forall_None, HP.
      * rewrite removelast_app by done. rewrite omap_app, Hrm.
        by rewrite (omap_Forall_None _ _ _ HP).
    + intros b Hb. destruct (Hdone b Hb) as [-> Hlast]. split; [done|].
      by rewrite last_app, Hlast.
  - exists t. split; [done|]. split.
    { eapply Forall_impl; [exact HP|]. by intros c []. }
    split; [eapply omap_removelast_nil, omap_Forall_None, HP|]. done.
  - by destruct (Hne code).
Qed.

Lemma writes_last_library {A} name (v : A) :
  writes_last (library w (Pdf (Output name)) ≫= λ _, mret v) name v.
Proof.
  intros h. exists [Pdf (Output name)]. rewrite bind_library.
  destruct (fails w h _); simpl; repeat split; try done; try (by repeat constructor).
  congruence.
Qed.

Lemma writes_last_generate_pdf_report a year month img1 img2 :
  writes_last (generate_pdf_report w a year month img1 img2)
    (report_filename year month) (report_filename year month).
Proof.
  unfold generate_pdf_report, supporter_row.
  repeat first
    [ apply writes_last_library
    | apply writes_last_bind;
        [solve [repeat emits_step]|solve [repeat no_exit_step]|intros ?] ].
Qed.

Lemma report_filename_inj year month year' month' :
  (1 ≤ month ≤ 12)%Z → (1 ≤ month' ≤ 12)%Z →
  report_filename year month = report_filename year' month' →
  year = year' ∧ month = month'.
Proof.
  intros Hm Hm'. unfold report_filename. intros Heq.
  apply append_inj_l in Heq.
  apply (year_tail_inj _ _ _ _ "pdf" "pdf") in Heq as [-> Hmonth];
    [|by apply occurs_format_02d..].
  by apply format_02d_inj in Hmonth as ->.
Qed.
End ReportAnyWorld.

(** X15: the report is written in the last call of [generate_pdf_report].
    Whatever the outside does, the function only calls libraries and does not
    exit; no call before its last one writes a file with [output]; and when it
    returns, what it returns is [donation_report_{year}_{month:02d}.pdf], the
    name under which its last call has written the report.  So a call that
    raises leaves no report behind, and nothing is done to a report once it
    is written. *)
Theorem report_is_written_last {F : Type} `{FloatFormat F}
    (w : world F) (a : analysis F) (year month : Z) (img1 img2 : string)
    (h : list (call F)) :
  ∃ t,
    (generate_pdf_report w a year month img1 img2 h).2 = h ++ t ∧
    Forall is_library t ∧
    omap written_report (removelast t) = [] ∧
    (∀ code, (generate_pdf_report w a year month img1 img2 h).1 ≠ SysExit code) ∧
    (∀ filename, (generate_pdf_report w a year month img1 img2 h).1 = Done filename →
       filename = report_filename year month ∧ last t = Some (Pdf (Output filename))).
Proof.
  destruct (writes_last_generate_pdf_report w a year month img1 img2 h)
    as (t & Ht & Hlib & Hrm & Hexit & Hdone).
  exists t. split; [done|]. split; [done|]. split; [done|]. split; [done|].
  intros filename Hrun. destruct (Hdone filename Hrun) as [-> Hlast]. by split.
Qed.

(** X16: the layout of the report.  When no library call fails and
    [calendar.month_name] has the month, [generate_pdf_report] returns
    [donation_report_{year}_{month:02d}.pdf]; the report has two pages, the
    daily chart on the first and the supporters chart on the second; and the
    body of its table has one row for each top supporter, in order: the name,
    the total with a dollar sign, thousands separators and two decimals, and
    the number of donations. *)
Theorem report_layout {F : Type} `{FloatFormat F}
    (w : world F) (a : analysis F) (year month : Z) (img1 img2 : string)
    (h : list (call F)) :
  quiet w → (-13 ≤ month ≤ 12)%Z →
  ∃ t,
    generate_pdf_report w a year month img1 img2 h =
      (Done (report_filename year month), h ++ t) ∧
    omap page_or_image t = [None; Some img1; None; Some img2] ∧
    omap table_cell t =
      (top_supporters a ≫= λ supporter,
         [ top_name supporter;
           "$" +:+ format_comma_2f (total_donated supporter);
           pretty (donation_count supporter) ]) ∧
    omap written_report t = [report_filename year month].
Proof.
  intros Hq Hm.
  destruct (generate_pdf_report_quiet w a year month img1 img2 h Hq Hm)
    as (t & Hrun & _ & _ & Hwritten & Hpages & Hcells & _).
  by exists t.
Qed.

Lemma report_layout_witness :
  ∃ t,
    generate_pdf_report (World (λ _ _ _ _, Response []) (λ _ _, None))
        whole_cents_summary 2023 3 "daily.png" "top.png" [] =
      (Done "donation_report_2023_03.pdf"%string, t) ∧
    omap page_or_image t = [None; Some "daily.png"; None; Some "top.png"]%string ∧
    omap table_cell t =
      [ "Supporter 3"; "$110.00"; "1"; "Supporter 1"; "$10.00"; "1";
        "Supporter 2"; "$10.00"; "1" ]%string.
Proof.
  destruct (report_layout (World (λ _ _ _ _, Response []) (λ _ _, None))
              whole_cents_summary 2023 3 "daily.png" "top.png" [])
    as (t & Hrun & Hpages & Hcells & _).
  - intros h c. reflexivity.
  - lia.
  - exists t. split; [exact Hrun|]. split; [exact Hpages|exact Hcells].
Defined.

(** X17: the name of the report tells the year and the month.  Whatever the
    outside does, two calls of [generate_pdf_report] for months from 1 to 12
    return the same file name only for the same year and month. *)
Theorem report_name_identifies_the_month {F : Type} `{FloatFormat F}
    (w w' : world F) (a a' : analysis F) (year month year' month' : Z)
    (img1 img2 img1' img2' name name' : string) (h h' t t' : list (call F)) :
  (1 ≤ month ≤ 12)%Z → (1 ≤ month' ≤ 12)%Z →
  generate_pdf_report w a year month img1 img2 h = (Done name, t) →
  generate_pdf_report w' a' year' month' img1' img2' h' = (Done name', t') →
  name = name' → year = year' ∧ month = month'.
Proof.
  intros Hm Hm' Hrun Hrun' Hname.
  destruct (writes_last_generate_pdf_report w a year month img1 img2 h)
    as (? & _ & _ & _ & _ & Hdone).
  destruct (writes_last_generate_pdf_report w' a' year' month' img1' img2' h')
    as (? & _ & _ & _ & _ & Hdone').
  rewrite Hrun in Hdone. rewrite Hrun' in Hdone'.
  destruct (Hdone name eq_refl) as [-> _]. destruct (Hdone' name' eq_refl) as [-> _].
  by apply report_filename_inj.
Qed.

Lemma report_name_identifies_the_month_witness :
  (2023 = 2023 ∧ 3 = 3)%Z.
Proof.
  apply (report_name_identifies_the_month
           (World (λ _ _ _ _, Response []) (λ _ _, None))
           (World (λ _ _ _ _, Response []) (λ _ _, None))
           whole_cents_summary whole_cents_summary 2023 3 2023 3
           "a.png" "b.png" "c.png" "d.png"
           "donation_report_2023_03.pdf" "donation_report_2023_03.pdf" [] []
           (generate_pdf_report (World (λ _ _ _ _, Response []) (λ _ _, None))
              whole_cents_summary 2023 3 "a.png" "b.png" []).2
           (generate_pdf_report (World (λ _ _ _ _, Response []) (λ _ _, None))
              whole_cents_summary 2023 3 "c.png" "d.png" []).2).
  - lia.
  - lia.
  - vm_compute. reflexivity.
  - vm_compute. reflexivity.
  - reflexivity.
Defined.

(** ** The command line *)

Section MainFacts.
Context {F : Type} `{Number F} `{Summation F} `{FloatFormat F}.
Context (pf : platform) (w : world F).
Implicit Types (h t : list (call F)) (c : call F).

(** After the arguments are accepted, [main] announces the report, runs the
    pipeline and turns an exception into a line and exit status 1. *)
Lemma main_valid token url year month h :
  valid_month year month →
  ∃ name,
    main pf w token url year month h =
      match pipeline pf w (new_generator token url) year month
              (h ++ [Print (Line ("Generating donation report for " +:+ name +:+ " "
                                  +:+ pretty year +:+ "..."))]) with
      | (Done _, t) => (Done (), t)
      | (Raised e, t) =>
          (SysExit 1,
           t ++ [Print (ErrorLine
                          (match e with
                           | RequestException _ => "API Error: "
                           | _ => "Error: "
                           end) e)])
      | (SysExit code, t) => (SysExit code, t)
      end.
Proof.
  intros Hv. pose proof Hv as [Hy Hm].
  pose proof (days_in_month_bounds year month Hm) as Hdays.
  destruct (bind_month_name (F := F) month ltac:(lia)) as [name Hname]. exists name.
  unfold main.
  rewrite (proj2 (Z.leb_le 1 month)), (proj2 (Z.leb_le month 12)) by lia. cbn [negb andb]. rewrite bind_unfold. unfold try_except at 1.
  rewrite bind_unfold. rewrite datetime_Ret by (done || lia). simpl.
  rewrite Hname, bind_print. unfold try_except.
  destruct (pipeline _ _ _ _ _ _) as [[[]|e|code] t]; [done| |done].
  by destruct e.
Qed.

Lemma main_invalid_month token url year month h :
  ¬ (1 ≤ month ≤ 12)%Z →
  main pf w token url year month h =
    (SysExit 1, h ++ [Print (Line "Error: Month must be between 1 and 12")]).
Proof.
  intros Hm. unfold main.
  destruct (Z.leb_spec 1 month), (Z.leb_spec month 12); try lia; done.
Qed.

Lemma main_invalid_year token url year month h :
  (1 ≤ month ≤ 12)%Z → ¬ (1 ≤ year ≤ 9999)%Z →
  main pf w token url year month h =
    if fits_int year
    then (SysExit 1,
          h ++ [Print (Line ("Error: Invalid date " +:+ pretty year +:+ "-"
                             +:+ pretty month))])
    else (Raised (Builtin OverflowError), h).
Proof.
  intros Hm Hy. unfold main.
  rewrite (proj2 (Z.leb_le 1 month)), (proj2 (Z.leb_le month 12)) by lia. cbn [negb andb]. rewrite bind_unfold. unfold try_except at 1. rewrite bind_unfold.
  unfold datetime.
  assert (fits_int month = true) as ->.
  { unfold fits_int. by rewrite !(proj2 (Z.leb_le _ _)) by lia. }
  assert (fits_int 1 = true) as -> by done.
  rewrite !andb_true_r. destruct (fits_int year); simpl; [|done].
  destruct (Z.leb_spec 1 year), (Z.leb_spec year 9999); try lia; done.
Qed.
End MainFacts.

(** X18: arguments that are no month are turned down before anything else
    happens.  A month outside 1..12 ends [main] in exit status 1 after one
    line of diagnosis; so does a year outside 1..9999 with a month inside
    1..12, unless the year is beyond a C [int]: then the [OverflowError] of
    [datetime] is not caught.  No request is made and no library is called
    in either case. *)
Theorem main_rejects_invalid_arguments {F : Type}
    `{Number F} `{Summation F} `{FloatFormat F}
    (pf : platform) (w : world F) (token url : string) (year month : Z)
    (h : list (call F)) :
  (¬ (1 ≤ month ≤ 12)%Z →
   main pf w token url year month h =
     (SysExit 1, h ++ [Print (Line "Error: Month must be between 1 and 12")])) ∧
  ((1 ≤ month ≤ 12)%Z → ¬ (1 ≤ year ≤ 9999)%Z → fits_int year = true →
   main pf w token url year month h =
     (SysExit 1,
      h ++ [Print (Line ("Error: Invalid date " +:+ pretty year +:+ "-"
                         +:+ pretty month))])) ∧
  ((1 ≤ month ≤ 12)%Z → fits_int year = false →
   main pf w token url year month h = (Raised (Builtin OverflowError), h)).
Proof.
  split; [apply main_invalid_month|]. split.
  - intros Hm Hy Hfits. by rewrite main_invalid_year, Hfits.
  - intros Hm Hfits. rewrite main_invalid_year, Hfits; [done..|].
    unfold fits_int in Hfits. intros Hy.
    by rewrite !(proj2 (Z.leb_le _ _)) in Hfits by lia.
Qed.

Lemma main_rejects_invalid_arguments_witness :
  main (F := Z) (Platform true "/") (World (λ _ _ _ _, Response []) (λ _ _, None))
      "secret" default_api_base_url 2023 13 [] =
    (SysExit 1, [Print (Line "Error: Month must be between 1 and 12")]).
Proof.
  apply (main_rejects_invalid_arguments (F := Z) (Platform true "/")
           (World (λ _ _ _ _, Response []) (λ _ _, None))
           "secret" default_api_base_url 2023 13 []).
  lia.
Defined.

Section PipelineFacts.
Context {F : Type} `{Number F} `{Summation F} `{FloatFormat F}.
Context (pf : platform) (w : world F).
Implicit Types (h t : list (call F)) (c : call F).

Lemma emits_pipeline self year month :
  emits (λ _, True) (pipeline pf w self year month).
Proof.
  unfold pipeline, get_donations_for_month, analyze, create_visualizations,
    generate_pdf_report, supporter_row, label_bars.
  repeat first
    [ emits_step
    | match goal with p : (_ * _)%type |- _ => destruct p end
    | match goal with |- context [match ?l with [] => _ | _ :: _ => _ end] => destruct l end ].
Qed.

Lemma ends_with_generate_pdf_report a year month img1 img2 :
  ends_with (generate_pdf_report w a year month img1 img2)
    [Pdf (Output (report_filename year month))] (report_filename year month).
Proof.
  intros h name t' Hrun.
  destruct (writes_last_generate_pdf_report w a year month img1 img2 h)
    as (t & Ht & _ & _ & _ & Hdone).
  rewrite Hrun in Ht, Hdone. simpl in Ht. subst t'.
  destruct (Hdone name eq_refl) as [-> [t0 ->]%last_Some]. split; [done|]. by exists t0.
Qed.

Lemma ends_with_pipeline self year month :
  ends_with (pipeline pf w self year month)
    [ Pdf (Output (report_filename year month));
      Print (Line ("Report generated successfully: " +:+ report_filename year month)) ]
    ().
Proof.
  unfold pipeline.
  apply ends_with_bind; [apply emits_get_donations_for_month|intros donations].
  apply ends_with_bind; [repeat emits_step|intros _].
  apply ends_with_bind; [repeat emits_step|intros analysis_data].
  apply ends_with_bind; [repeat emits_step|intros _].
  apply ends_with_bind.
  { intros h. destruct (emits_create_visualizations pf w analysis_data year month h)
      as (t & Ht & _).
    exists t. split; [done|]. by apply Forall_true. }
  intros [daily_revenue_img top_supporters_img].
  apply ends_with_bind; [repeat emits_step|intros _].
  apply (ends_with_print _ [Pdf (Output (report_filename year month))]
           (report_filename year month)
           (λ name, Line ("Report generated successfully: " +:+ name))).
  apply ends_with_generate_pdf_report.
Qed.
End PipelineFacts.

(** X19: the exit status of [main].  For a year within a C [int], whatever
    the API answers and whichever library call raises, [main] either returns
    or exits with status 1; no exception escapes it.  It returns only for a
    year from 1 to 9999 and a month from 1 to 12, and only after the report
    [donation_report_{year}_{month:02d}.pdf] has been written and announced,
    which are the last two things it does. *)
Theorem main_exit_status {F : Type} `{Number F} `{Summation F} `{FloatFormat F}
    (pf : platform) (w : world F) (token url : string) (year month : Z)
    (h : list (call F)) :
  fits_int year = true →
  ∃ t,
    (main pf w token url year month h).2 = h ++ t ∧
    ((main pf w token url year month h).1 = SysExit 1 ∨
     (main pf w token url year month h).1 = Done () ∧
     valid_month year month ∧
     ∃ t0,
       t = t0 ++
           [ Pdf (Output (report_filename year month));
             Print (Line ("Report generated successfully: "
                          +:+ report_filename year month)) ]).
Proof.
  intros Hfits.
  destruct (decide (1 ≤ month ≤ 12)%Z) as [Hm|Hm].
  2: { rewrite main_invalid_month by done. eexists. split; [done|]. by left. }
  destruct (decide (1 ≤ year ≤ 9999)%Z) as [Hy|Hy].
  2: { rewrite main_invalid_year, Hfits by done. eexists. split; [done|]. by left. }
  destruct (main_valid pf w token url year month h) as [name ->]; [done|].
  pose proof (emits_pipeline pf w (new_generator token url) year month
                (h ++ [Print (Line ("Generating donation report for " +:+ name +:+ " "
                                    +:+ pretty year +:+ "..."))])) as (t & Ht & _).
  pose proof (no_exit_pipeline pf w (new_generator token url) year month
                (h ++ [Print (Line ("Generating donation report for " +:+ name +:+ " "
                                    +:+ pretty year +:+ "..."))])) as Hexit.
  pose proof (ends_with_pipeline pf w (new_generator token url) year month
                (h ++ [Print (Line ("Generating donation report for " +:+ name +:+ " "
                                    +:+ pretty year +:+ "..."))])) as Hends.
  destruct (pipeline _ _ _ _ _ _) as [[[]|e|code] t']; simpl in Ht; subst t'.
  - destruct (Hends () _ eq_refl) as [_ [t0 Ht0]].
    apply app_inv_head in Ht0 as ->.
    eexists. rewrite <-app_assoc. split; [done|]. right. split; [done|].
    split; [done|]. eexists. by rewrite <-app_assoc.
  - eexists. rewrite <-!app_assoc. split; [done|]. by left.
  - by destruct (Hexit code).
Qed.

Lemma main_exit_status_witness :
  ∃ t,
    (main (F := Z) (Platform true "/") (World (λ _ _ _ _, RequestFailed "down") (λ _ _, None))
       "secret" default_api_base_url 2023 3 []).2 = t ∧
    (main (F := Z) (Platform true "/") (World (λ _ _ _ _, RequestFailed "down") (λ _ _, None))
       "secret" default_api_base_url 2023 3 []).1 = SysExit 1.
Proof.
  destruct (main_exit_status (F := Z) (Platform true "/")
              (World (λ _ _ _ _, RequestFailed "down") (λ _ _, None))
              "secret" default_api_base_url 2023 3 []) as (t & Ht & Hout).
  - reflexivity.
  - exists t. split; [exact Ht|]. vm_compute. reflexivity.
Defined.

Section PipelineRuns.
Context {F : Type} `{Number F} `{Summation F} `{FloatFormat F}.
Context (pf : platform) (w : world F).
Implicit Types (h t : list (call F)) (c : call F).

(** The pipeline up to the analysis, for a month that is one. *)
Lemma pipeline_fetch self year month h :
  valid_month year month →
  ∃ line url params,
    ∀ B (k : list (donation F) → io F B),
      (get_donations_for_month pf w self year month ≫= k) h =
        match http_get w (h ++ [Print line]) url (headers self) params with
        | Response donations =>
            k donations (h ++ [Print line; HttpGet url (headers self) params])
        | RequestFailed msg =>
            (Raised (RequestException msg),
             h ++ [Print line; HttpGet url (headers self) params])
        | ResponseInvalid msg =>
            (Raised (LibraryError msg),
             h ++ [Print line; HttpGet url (headers self) params])
        end.
Proof.
  intros Hv.
  exists (Line ("Fetching donations for " +:+ pretty year +:+ "-" +:+ format_02d month
                +:+ " (" +:+ strftime_ymd pf (year, month, 1%Z) +:+ " to "
                +:+ strftime_ymd pf (year, month, days_in_month year month) +:+ ")...")),
    (api_base_url self +:+ "/donations"),
    [ ("start_date", strftime_ymd pf (year, month, 1%Z));
      ("end_date", strftime_ymd pf (year, month, days_in_month year month)) ]%string.
  intros B k.
  rewrite bind_unfold, get_donations_for_month_valid by done. cbv zeta.
  match goal with |- context [http_get w ?a ?b ?c ?d] => by destruct (http_get w a b c d) end.
Qed.
End PipelineRuns.

(** X20: a request that fails ends [main] in exit status 1 with one line
    that names the failure, "API Error: ..." for a [RequestException] and
    "Error: ..." for any other exception.  One request has been made by
    then, and no library called: nothing is drawn or written. *)
Theorem main_reports_a_failed_request {F : Type}
    `{Number F} `{Summation F} `{FloatFormat F}
    (pf : platform) (w : world F) (token url : string) (year month : Z)
    (msg : string) (h : list (call F)) :
  valid_month year month →
  ((∀ h' url' headers params, http_get w h' url' headers params = RequestFailed msg) →
   ∃ t,
     main pf w token url year month h = (SysExit 1, h ++ t) ∧
     filter is_library t = [] ∧
     length (filter is_request t) = 1 ∧
     last t = Some (Print (ErrorLine "API Error: " (RequestException msg)))) ∧
  ((∀ h' url' headers params, http_get w h' url' headers params = ResponseInvalid msg) →
   ∃ t,
     main pf w token url year month h = (SysExit 1, h ++ t) ∧
     filter is_library t = [] ∧
     length (filter is_request t) = 1 ∧
     last t = Some (Print (ErrorLine "Error: " (LibraryError msg)))).
Proof.
  intros Hv.
  destruct (main_valid pf w token url year month h Hv) as [name ->].
  unfold pipeline.
  destruct (pipeline_fetch pf w (new_generator token url) year month
              (h ++ [Print (Line ("Generating donation report for " +:+ name +:+ " "
                                  +:+ pretty year +:+ "..."))]) Hv)
    as (line & url' & params & ->).
  split; intros ->; rewrite <-!app_assoc; cbn [app];
    (eexists; split; [reflexivity|]); repeat split; observe.
Qed.

Lemma main_reports_a_failed_request_witness :
  ∃ t,
    main (F := Z) (Platform true "/") (World (λ _ _ _ _, RequestFailed "down") (λ _ _, None))
      "secret" default_api_base_url 2023 3 [] = (SysExit 1, t) ∧
    last t = Some (Print (ErrorLine "API Error: " (RequestException "down"))).
Proof.
  destruct (main_reports_a_failed_request (F := Z) (Platform true "/")
              (World (λ _ _ _ _, RequestFailed "down") (λ _ _, None))
              "secret" default_api_base_url 2023 3 "down" []) as [Hfail _].
  - unfold valid_month. lia.
  - destruct Hfail as (t & Hrun & _ & _ & Hlast); [done|].
    exists t. split; [exact Hrun|exact Hlast].
Defined.

(** X21: donations with an amount that [float()] refuses end [main] in exit
    status 1.  The error is that of the first such amount; it is found after
    the download and before anything is drawn or written: one request, no
    library call, and the line "Error: ..." last. *)
Theorem main_reports_bad_data {F : Type} `{Number F} `{Summation F} `{FloatFormat F}
    (pf : platform) (w : world F) (token url : string) (year month : Z)
    (pre post : list (donation F)) (d : donation F) (failure : float_failure)
    (h : list (call F)) :
  valid_month year month →
  answers w (pre ++ d :: post) →
  Forall convertible pre →
  amount d = Some (Malformed failure) →
  ∃ t,
    main pf w token url year month h = (SysExit 1, h ++ t) ∧
    filter is_library t = [] ∧
    length (filter is_request t) = 1 ∧
    last t = Some (Print (ErrorLine "Error: " (Builtin (float_exn failure)))).
Proof.
  intros Hv Hanswers Hpre Hd.
  destruct (main_valid pf w token url year month h Hv) as [name ->].
  unfold pipeline.
  destruct (pipeline_fetch pf w (new_generator token url) year month
              (h ++ [Print (Line ("Generating donation report for " +:+ name +:+ " "
                                  +:+ pretty year +:+ "..."))]) Hv)
    as (line & url' & params & ->).
  rewrite Hanswers, bind_print. unfold analyze.
  rewrite bind_unfold, (analyze_donations_raise pre d post failure) by done.
  simpl of_result. cbv iota beta.
  rewrite <-!app_assoc; cbn [app].
  (eexists; split; [reflexivity|]); repeat split; observe.
Qed.

Lemma main_reports_bad_data_witness :
  ∃ t,
    main (F := Z) (Platform true "/")
      (World (λ _ _ _ _,
                Response (whole_cents ++
                          [Donation (Some (IdInt 4)) None (Some (Malformed NotNumeric)) None]))
             (λ _ _, None))
      "secret" default_api_base_url 2023 3 [] = (SysExit 1, t) ∧
    last t = Some (Print (ErrorLine "Error: " (Builtin ValueError))).
Proof.
  destruct (main_reports_bad_data (F := Z) (Platform true "/")
              (World (λ _ _ _ _,
                        Response (whole_cents ++
                                  [Donation (Some (IdInt 4)) None
                                     (Some (Malformed NotNumeric)) None]))
                     (λ _ _, None))
              "secret" default_api_base_url 2023 3 whole_cents []
              (Donation (Some (IdInt 4)) None (Some (Malformed NotNumeric)) None)
              NotNumeric []) as (t & Hrun & _ & _ & Hlast).
  - unfold valid_month. lia.
  - intros h url headers params. reflexivity.
  - repeat constructor.
  - reflexivity.
  - exists t. split; [exact Hrun|exact Hlast].
Defined.

Lemma analyze_donations_convertible {F : Type} `{Number F} `{Summation F}
    (ds : list (donation F)) :
  Forall convertible ds → ∃ s, analyze_donations ds = Ret s.
Proof.
  intros Hds. destruct ds as [|d ds]; [by eexists|].
  eexists. by apply analyze_donations_ok.
Qed.

(** X22: a run in which nothing fails.  For a year from 1 to 9999 and a
    month from 1 to 12, an API that answers with donations whose amounts all
    convert, and libraries that do not raise, [main] returns.  It has made
    one request; it has saved the daily chart and the supporters chart, put
    these two files into the report, and written the report last of the
    files; the labels of the bars and the rows of the table are those of the
    top supporters of the donations it has downloaded; and its last line
    announces the report. *)
Theorem main_writes_the_report {F : Type} `{Number F} `{Summation F} `{FloatFormat F}
    (pf : platform) (w : world F) (token url : string) (year month : Z)
    (ds : list (donation F)) (h : list (call F)) :
  valid_month year month →
  answers w ds →
  Forall convertible ds →
  quiet w →
  let daily_revenue_path :=
    path_join pf "report_images"
      ("daily_revenue_" +:+ pretty year +:+ "_" +:+ pretty month +:+ ".png") in
  let top_supporters_path :=
    path_join pf "report_images"
      ("top_supporters_" +:+ pretty year +:+ "_" +:+ pretty month +:+ ".png") in
  ∃ s t,
    analyze_donations ds = Ret s ∧
    main pf w token url year month h = (Done (), h ++ t) ∧
    length (filter is_request t) = 1 ∧
    omap touched_file t =
      [ daily_revenue_path; top_supporters_path;
        daily_revenue_path; top_supporters_path; report_filename year month ] ∧
    omap bar_label t =
      imap (λ i x, (i, "$" +:+ format_2f (total_donated x))) (top_supporters s) ∧
    omap table_cell t =
      (top_supporters s ≫= λ supporter,
         [ top_name supporter;
           "$" +:+ format_comma_2f (total_donated supporter);
           pretty (donation_count supporter) ]) ∧
    last t = Some (Print (Line ("Report generated successfully: "
                                +:+ report_filename year month))).
Proof.
  intros Hv Hanswers Hds Hq. cbv zeta.
  destruct (analyze_donations_convertible ds Hds) as [s Hs]. exists s.
  assert (-13 ≤ month ≤ 12)%Z as Hm by (destruct Hv; lia).
  destruct (main_valid pf w token url year month h Hv) as [name ->].
  unfold pipeline.
  destruct (pipeline_fetch pf w (new_generator token url) year month
              (h ++ [Print (Line ("Generating donation report for " +:+ name +:+ " "
                                  +:+ pretty year +:+ "..."))]) Hv)
    as (line & url' & params & ->).
  rewrite Hanswers, bind_print. unfold analyze.
  rewrite bind_unfold, Hs. simpl of_result. cbv iota beta.
  rewrite bind_print, bind_unfold.
  match goal with
  | |- context [create_visualizations pf w s year month ?h1] =>
      destruct (create_visualizations_quiet pf w s year month h1 Hq Hm)
        as (t1 & -> & _ & _ & _ & _ & _ & _ & _ & Hlabels1 & _ & _ & Hfiles1 & Hcells1 & Hreq1)
  end.
  cbv iota beta. rewrite bind_print, bind_unfold.
  match goal with
  | |- context [generate_pdf_report w s year month ?p1 ?p2 ?h2] =>
      destruct (generate_pdf_report_quiet w s year month p1 p2 h2 Hq Hm)
        as (t2 & -> & _ & _ & _ & _ & Hcells2 & _ & _ & Hfiles2 & Hreq2 & Hlabels2)
  end.
  cbv iota beta. unfold print.
  rewrite <-!app_assoc; cbn [app].
  eexists. split; [reflexivity|]. split; [reflexivity|].
  repeat split.
  - repeat observe_step. by rewrite Hreq1, Hreq2.
  - repeat observe_step. by rewrite Hfiles1, Hfiles2.
  - repeat observe_step. rewrite Hlabels1, Hlabels2, imap_fmap. simpl.
    by rewrite app_nil_r.
  - repeat observe_step. rewrite Hcells1, Hcells2. simpl. by rewrite app_nil_r.
  - rewrite !app_comm_cons, !app_assoc. apply last_snoc.
Qed.

Lemma main_writes_the_report_witness :
  ∃ t,
    main (F := Z) (Platform true "/") (World (λ _ _ _ _, Response whole_cents) (λ _ _, None))
      "secret" default_api_base_url 2023 3 [] = (Done (), t) ∧
    omap touched_file t =
      [ "report_images/daily_revenue_2023_3.png"; "report_images/top_supporters_2023_3.png";
        "report_images/daily_revenue_2023_3.png"; "report_images/top_supporters_2023_3.png";
        "donation_report_2023_03.pdf" ]%string.
Proof.
  destruct (main_writes_the_report (F := Z) (Platform true "/")
              (World (λ _ _ _ _, Response whole_cents) (λ _ _, None))
              "secret" default_api_base_url 2023 3 whole_cents [])
    as (s & t & _ & Hrun & _ & Hfiles & _).
  - unfold valid_month. lia.
  - intros h url headers params. reflexivity.
  - repeat constructor.
  - intros h c. reflexivity.
  - exists t. split; [exact Hrun|exact Hfiles].
Defined.

Section TryFacts.
Context {F : Type} `{Number F} `{Summation F} `{FloatFormat F}.
Context (pf : platform) (w : world F).
Implicit Types (h t : list (call F)) (c : call F).

Lemma try_except_print (body : io F ()) (f : exception → line) h :
  no_exit body →
  ∃ t, try_except body (λ e, Some (print (f e))) h = (Done (), (body h).2 ++ t).
Proof.
  intros Hexit. unfold try_except. specialize (Hexit h).
  destruct (body h) as [[[]|e|code] t]; simpl in *.
  - exists []. by rewrite app_nil_r.
  - by eexists.
  - by destruct (Hexit code).
Qed.

Lemma fetch_first {B} (P : call F → Prop) self year month
    (k : list (donation F) → io F B) h :
  valid_month year month →
  (∀ donations, emits P (k donations)) →
  ∃ t,
    ((get_donations_for_month pf w self year month ≫= k) h).2 =
      h ++ [ Print (Line ("Fetching donations for " +:+ pretty year +:+ "-"
                          +:+ format_02d month +:+ " ("
                          +:+ strftime_ymd pf (year, month, 1%Z) +:+ " to "
                          +:+ strftime_ymd pf (year, month, days_in_month year month)
                          +:+ ")..."));
             HttpGet (api_base_url self +:+ "/donations") (headers self)
               [ ("start_date", strftime_ymd pf (year, month, 1%Z));
                 ("end_date", strftime_ymd pf (year, month, days_in_month year month)) ] ]
        ++ t ∧
    Forall P t.
Proof.
  intros Hv Hk. rewrite bind_unfold, get_donations_for_month_valid by done. cbv zeta.
  match goal with |- context [http_get w ?a ?b ?c ?d] => destruct (http_get w a b c d) end;
    [|by exists []; rewrite app_nil_r..].
  match goal with
  | |- context [k ?ds ?h'] => destruct (Hk ds h') as (t & -> & HP)
  end.
  exists t. by rewrite <-app_assoc.
Qed.
End TryFacts.

(** X23: one request, and no more.  For a year from 1 to 9999 and a month
    from 1 to 12, whatever the API answers and whichever library call raises,
    [main] prints two lines, makes its request to [{api_url}/donations], and
    makes no other request afterwards: nothing is retried, and no library is
    called before the answer is there. *)
Theorem main_makes_one_request {F : Type} `{Number F} `{Summation F} `{FloatFormat F}
    (pf : platform) (w : world F) (token url : string) (year month : Z)
    (h : list (call F)) :
  valid_month year month →
  ∃ line1 line2 headers params rest,
    (main pf w token url year month h).2 =
      h ++ [Print line1; Print line2; HttpGet (url +:+ "/donations") headers params]
        ++ rest ∧
    filter is_request rest = [].
Proof.
  intros Hv.
  destruct (main_valid pf w token url year month h Hv) as [name ->].
  unfold pipeline.
  match goal with
  | |- context [(get_donations_for_month pf w ?self ?y ?m ≫= ?k) ?h1] =>
      destruct (fetch_first pf w (λ c, is_request c = false) self y m k h1)
        as (t & Ht & Hrest)
  end.
  { done. }
  { intros donations.
    unfold analyze, create_visualizations, generate_pdf_report, supporter_row, label_bars.
    repeat first
      [ emits_step
      | match goal with p : (_ * _)%type |- _ => destruct p end
      | match goal with |- context [match ?l with [] => _ | _ :: _ => _ end] =>
          destruct l
        end ]. }
  assert (filter is_request t = []) as Hnone.
  { clear Ht. induction Hrest as [|c t Hc _ IH]; [done|].
    rewrite filter_cons_False; [done|]. rewrite Hc. intros []. }
  match type of Ht with
  | (?run).2 = _ => destruct run as [[[]|e|code] t'] eqn:Hrun
  end; simpl in Ht; subst t'; simpl.
  - eexists _, _, _, _, t. rewrite <-!app_assoc. by split.
  - eexists _, _, _, _, (t ++ [_]). rewrite <-!app_assoc. split; [done|].
    by rewrite filter_app, Hnone.
  - eexists _, _, _, _, t. rewrite <-!app_assoc. by split.
Qed.

Lemma main_makes_one_request_witness :
  ∃ line1 line2 headers params rest,
    (main (F := Z) (Platform true "/") (World (λ _ _ _ _, Response whole_cents) (λ _ _, None))
       "secret" default_api_base_url 2023 3 []).2 =
      [Print line1; Print line2;
       HttpGet "https://api.donationplatform.com/donations" headers params] ++ rest ∧
    filter is_request rest = [].
Proof.
  apply (main_makes_one_request (F := Z) (Platform true "/")
           (World (λ _ _ _ _, Response whole_cents) (λ _ _, None))
           "secret" default_api_base_url 2023 3 []).
  unfold valid_month. lia.
Defined.

(** ** The example script *)

(** X24: the example script never fails.  Whatever the API answers and
    whichever library call raises, [main] of example_usage.py returns: an
    exception becomes a line "Error: ..." and the exit status stays 0.  Its
    first three steps are always the same: it announces January 2023, and
    asks [https://api.donationplatform.com/donations] for 2023-01-01 through
    2023-01-31 with the token of the environment, or with the placeholder
    token when [DONATION_API_TOKEN] is not set. *)
Theorem example_never_fails {F : Type} `{Number F} `{Summation F} `{FloatFormat F}
    (pf : platform) (w : world F) (env_token : option string) (h : list (call F)) :
  ∃ t,
    example_usage_main pf w env_token h = (Done (), h ++ t) ∧
    take 3 t =
      [ Print (Line "Generating donation report for 2023-01...");
        Print (Line "Fetching donations for 2023-01 (2023-01-01 to 2023-01-31)...");
        HttpGet "https://api.donationplatform.com/donations"
          [ ("Authorization", "Bearer " +:+ default "your_api_token_here" env_token);
            ("Content-Type", "application/json") ]
          [ ("start_date", "2023-01-01"); ("end_date", "2023-01-31") ] ]%string.
Proof.
  unfold example_usage_main. cbv zeta. rewrite bind_print.
  match goal with
  | |- context [try_except ?body (λ e, Some (print (ErrorLine ?p e))) ?h1] =>
      destruct (try_except_print body (ErrorLine p) h1) as [t ->]
  end.
  { unfold get_donations_for_month, analyze, create_visualizations,
      generate_pdf_report, supporter_row, label_bars.
    repeat first
      [ no_exit_step
      | match goal with p : (_ * _)%type |- _ => destruct p end
      | match goal with |- context [match ?l with [] => _ | _ :: _ => _ end] =>
          destruct l
        end ]. }
  match goal with
  | |- context [(get_donations_for_month pf w ?self ?y ?m ≫= ?k) ?h1] =>
      destruct (fetch_first pf w (λ _, True) self y m k h1) as (t' & -> & _)
  end.
  { unfold valid_month. lia. }
  { intros donations.
    unfold analyze, create_visualizations, generate_pdf_report, supporter_row, label_bars.
    repeat first
      [ emits_step
      | match goal with p : (_ * _)%type |- _ => destruct p end
      | match goal with |- context [match ?l with [] => _ | _ :: _ => _ end] =>
          destruct l
        end ]. }
  rewrite <-!app_assoc. cbn [app]. eexists. split; [reflexivity|].
  destruct pf as [[] sep]; reflexivity.
Qed.
